(* ===== verification/_CoqProject ===== *)
-Q . S2P
Prelude.v
JsNumber.v
JsString.v
JsToString.v
Json.v
JsDate.v
TsTypes.v
Backend.v
Filter.v
View.v
Navigation.v
Controller.v
Spec.v
System.v
