(* ===== verification/Prelude.v ===== *)
(** * Divya-Drishti patient records: a verification development

    ** The program

    The repository's front end (src/src/pages) has two React pages written
    in TypeScript.

    - [PatientRecords.tsx] is the patient-list controller.  It keeps four
      pieces of React state, [patients], [filteredPatients], [loading] and
      [searchQuery] (lines 21-24).
      - [fetchPatients] (lines 26-37) awaits [fetch('/api/patients')] and
        then [res.json()].  It stores the result in both lists, logs any
        failure, and clears [loading] in a [finally].  It runs on mount
        (lines 39-41) and as the callback of the add and delete dialogs
        (lines 73, 160, 180).
      - A second effect (lines 43-50) recomputes [filteredPatients] from
        [patients] and [searchQuery] whenever either changes.  It keeps a
        record if the lowercased query occurs in the lowercased name, in
        [patient_id.toString()], or in the lowercased diagnosis.
      - The JSX (lines 52-186) shows the query and the count.  While
        loading it shows six skeletons, otherwise one card per filtered
        record.  It shows an empty state when the list is empty.
    - [Home.tsx] is a static landing page with two links to [/patients].

    The components interact through React: the dialogs call [fetchPatients],
    the network resolves its [await]s, the user types into the search box,
    and React re-renders and runs the effects whose dependencies changed.

    ** Files, in dependency order

    - [Prelude.v] (this file) holds the [result] error monad for JavaScript
      exceptions ([Ok]/[Err], with the notation [x <- m ;; k] in [dd_scope]),
      its list combinators [filterR] and [mapR] ([Array.prototype.filter]
      and [map] with a callback that may throw), the [dd] hint database,
      the [dd_rw] rewrite database, and the generic lemmas on boolean
      filtering.
    - [JsNumber.v], Module [JsNumber], holds the conversion [JSON.parse]
      applies to the body's integer literals ([round_mag] on magnitudes,
      [round_double]: the nearest IEEE-754 double, ties to even), with the
      lemmas on the grid of doubles (rounding is monotone, idempotent and
      exact up to 2^53).
    - [JsString.v], Module [JsString], holds the string built-ins the
      filter calls: [toLowerCase] (code units U+0000..U+00FF) and
      [includes] (the naive search of [StringIndexOf]), the classes of
      decimal characters and [split_first], the cut at a delimiter that
      URLs and numerals share.
    - [JsToString.v], Module [JsToString], holds [Number::toString(x, 10)]
      of ECMA-262 6.1.6.1.20 ([number_toString], lines 46 and 151) on the
      double nearest an integer: the smallest number of digits [k] whose
      significand rounds back to the double ([shortest], [significand_at],
      ties to the even significand), printed plain up to 21 digits and as
      [d.ddde+nn] above ([format_decimal]).  It also holds [Number(s)] on
      the integral decimal literals ([to_number], the monitoring view's
      [Number(patientId)]).
    - [Json.v], Module [Json], holds JSON values ([json]), the JavaScript
      values read from them ([jsval]) and the exceptions ([js_error]).  It
      models property access ([get_prop]), the method calls
      [toLowerCase()] and [toString()], [ToString] for template literals,
      and the interface [Patient] (lines 10-18) with the backend's encoding
      and the type check the interface implies.  [parse_numbers] is the
      number conversion of [res.json()] on a whole value.
    - [JsDate.v], Module [JsDate], holds [Date] as line 147 uses it: the
      proleptic Gregorian calendar of ECMA-262 ([day_from_year],
      [year_from_day], [month_from_day], [days_from_civil],
      [civil_from_days]),
      [Date.parse] on the Date Time String Format ([parse_iso]: date-only
      forms read as UTC, date-time forms without offset as local time,
      offsets [Z] and [+HH:mm]), [new Date(v)] on each kind of JSON value,
      and [toLocaleDateString] in [en-US] at a fixed UTC offset.
    - [TsTypes.v], Module [TsTypes], holds the TypeScript types the code
      declares ([ty], [patient_ty] for [interface Patient], [patients_ty]
      for [useState<Patient[]>]) with structural typing as a judgement
      ([has_type]) and as a checker ([type_check]).
    - [Backend.v], Module [Backend], holds the backend REST service, which
      is not in the repository, modelled from spec sections 3 and 6: a
      [gmap] from ids to records with [GET] ([list_patients]), [POST]
      ([create], the next unused id) and [DELETE] ([delete_patient]).
    - [Filter.v], Module [Filter], holds the search callback on typed
      patients ([matches], [filter_patients]) and on raw JSON ([matches_js],
      [filter_js], which throw as the code does), plus the specification's
      predicate [spec_match].
    - [View.v], Module [View], holds the render function ([render]).  It
      evaluates the JSX's property reads in source order ([make_card]),
      then React's child reconciliation ([reconcile_card]).  It also holds
      the card of a well-typed patient ([card_of_patient]) and the text
      the page shows, node by node in document order ([card_nodes],
      [page_text]), the Admitted line printed by
      [JsDate.toLocaleDateString].
    - [Navigation.v], Module [Navigation], holds [Home.tsx] (its two links
      and its feature cards), the links of the records page, and the routes
      of spec section 6 ([route_of], with [URLSearchParams.get] for the
      monitoring view's [patientId], read as the form-urlencoded parser
      reads a query: [form_decode] turns [+] into a space and decodes
      [%XY] escapes).  The query loop has fuel
      ([search_param_fuel]); its reference reading [search_param_ref] cuts
      the query by well-founded recursion on its length ([split_all],
      defined with Equations).
    - [Controller.v], Module [Controller], holds the component as a state
      machine.  [state] carries the hooks (each slot keeps the heap
      identity of its value, since React compares with [Object.is]), the
      pending-render flag, the mount and filter effects' bookkeeping, the
      [fetchPatients] calls in flight at their two [await]s, the phase
      (mounted, crashed, unmounted) and the error log.  [step] is one
      event: [Commit] (render plus passive effects, in declaration order),
      [TypeQuery], [FetchSettled], [JsonSettled], [PatientAdded],
      [PatientDeleted] or [Unmount].  [reachable] is the reflexive-
      transitive closure of [Step] from [init] (the first render).
    - [Spec.v], Module [Spec], holds the page as spec section 4.1
      describes it: an abstract machine ([astate]: the records, the search
      text, the loading flag; [astep]: [Refreshed], [RefreshFailed],
      [SetSearchText]), the abstraction [abs] of a controller state (its
      [patients] slot read through the [Patient[]] type check), the
      operation of the spec each event completes ([abs_op]: a non-success
      status fails the refresh, as spec sections 4.1 and 6 say), the one
      the code performs instead ([code_op]: the status is never read), and
      the typing of a backend's answers ([typed_event], [spec_event]).  The
      simulation is proved once for answers whose records satisfy any
      property [good] that filtering keeps (Section [Good]).
    - [System.v], Module [System], closes the system: the page, the backend
      and the dialogs, whose callback contract is spec section 4.1.  A
      system event is a user or network event, the backend answering a
      [GET] ([Serve]: the page receives the body as [await res.json()]
      reads it, every number rounded to its double, [served_body]), or a
      dialog's successful request followed by its callback ([Add],
      [Delete]).

    ** What is proved

    - Refinement (Spec.v).  In every run in which the backend answers a
      success status with an array of [Patient] rows (or a body that does
      not parse) and any other status with a body that is not JSON, the
      abstraction of the page is the spec's abstract machine run on the
      operations the run's events complete ([controller_refines_spec]);
      the proof relates the spec's [abs_op] to the code's [code_op] on
      such runs ([code_trace_spec]).  For any status, a typed backend never
      crashes the page ([typed_backend_never_crashes]), and once no render
      is pending the page shows the view of its abstract state
      ([settled_view_is_spec]).  The proof is a simulation: [sim_step] maps
      one event to at most one abstract step and keeps the invariant
      [ginv] (both lists pass the type check, the calls in flight carry
      typed bodies, no crash), and [sim_run] extends it to runs; the calls
      in flight are followed by [stages_step].
    - Types (TsTypes.v, Spec.v).  In every run whose backend answers with
      values of type [Patient[]] the two list slots keep the type
      [useState<Patient[]>] declares ([state_has_declared_types]), read
      through TypeScript's structural typing ([decode_patients_check]).
    - System (System.v).  In every state of the composed system the page
      has not crashed, and while the backend's ids are at most 2^53 the
      page's records have unique ids ([sys_records_unique]) and its cards
      distinct React keys ([sys_unique_keys]).  The bound is needed:
      with ids 2^53 and 2^53 + 1, [res.json()] merges them and the page
      shows two cards with one key, whose delete dialogs both target
      2^53 ([ids_collide_on_page]).  A delete followed by its own refresh
      removes the id ([delete_then_refresh_removes]); an add followed by
      its own refresh shows the earlier records plus the row of the
      dialog's fields under a fresh id ([add_then_refresh_shows]); the two
      proofs share [refresh_settles].  A refresh answered before the
      delete and parsed last brings the record back for good
      ([stale_refresh_resurrects]); but whatever the older calls carry,
      if the newest call in flight is still unanswered, delivering the
      calls oldest first settles the page on the backend's current
      records ([latest_refresh_converges]).  The invariant [sinv] keeps
      [ginv] with no property and, while the ids are exact
      ([exact_ids]), [ginv] with [ids_below]: the backend's counter only
      grows, so the bound at the current state holds at every earlier one.
    - Controller.  An invariant of reachable states ([inv]) is proved by
      induction on [rtc].  It says that heap identities are allocated, that
      the filter's last dependencies and result agree, that a settled
      state has run its effects, and that loading means empty.  From it:
      - with no render pending, [filteredPatients] is the filter of
        [patients] with the current query ([filtered_matches_search]);
      - with well-typed data zero, one or two commits, and no other event,
        settle the render/effect cycle ([render_cycle_settles]);
      - the success path and the failure paths of [fetchPatients] behave as
        described ([fetch_success_replaces], [fetch_failure_keeps]);
      - the HTTP status is ignored ([response_status_ignored]);
      - a non-array body crashes the page ([non_array_body_crashes]);
      - the response that resolves last wins, even a stale one
        ([stale_response_wins]);
      - [loading] never returns to true, and while it is true nothing has
        been fetched ([loading_never_returns], [loading_shows_empty]);
      - every call of [fetchPatients] finishes whatever the network
        answers: settling the calls in flight oldest first ([finish_calls])
        leaves none, and on a mounted page the [finally] has cleared
        [loading] ([fetch_calls_terminate]).
    - Filter.  For ids of magnitude at most 2^53, which [toString] prints
      as their decimal digits ([number_toString_exact]), the search keeps
      exactly the records that satisfy the spec's case-insensitive
      predicate on the name, the decimal string form of the id and the
      diagnosis ([filter_patients_spec]), as a sublist in order.  Beyond
      2^53 the two part: [toString] prints the shortest digits that read
      back, and from 10^21 an exponent, so the id's own digits no longer
      find the record ([search_drops_large_ids]).  On JSON that passes the
      [Patient[]] type check the raw filter refines the typed one
      ([filter_js_decode]); on other JSON it throws, and the [||]
      short-circuit order decides when a malformed element throws
      ([matches_js_short_circuit]).
    - Numbers and strings (JsNumber.v, JsToString.v, JsString.v): the
      library lemmas the claims rest on.  [res.json()] reads integers up to
      2^53 exactly ([json_integers_exact]); [Number()] reads the text
      [toString] prints back as its double ([to_number_number_toString]);
      below 10^21 that text is digits and a sign ([number_toString_plain]),
      from 10^21 on the exponent form ([number_toString_exponent]);
      [includes] is substring containment ([includes_is_substring]).
    - Dates (JsDate.v).  The "Admitted" line of a card shows a date-only
      admission date at a UTC offset of zero or more and the day before at
      a negative one ([admitted_date_shift]); a date-time without offset is
      shown as written in every zone ([local_datetime_no_shift]).  They rest
      on the calendar lemmas: the day-number conversions are inverse
      bijections ([calendar_roundtrip]), consecutive years start
      [DaysInYear] apart ([day_from_year_succ]), and the months are checked
      by evaluation on the 366 days of both kinds of year ([month_table_ok],
      [date_table_ok]).
    - View.  A typed list renders one card per record, with the count and
      the empty state ([render_decoded]); every card shown for a query
      shows that query, up to case, in one of its text nodes
      ([shown_cards_show_query]).  Bed 0 renders a stray "0" instead of a
      badge ([bed_zero_renders_zero]); at UTC-5 the scenario's row is
      listed as admitted on 1/1/2025 ([asha_page_text]).
    - Navigation.  The Monitor link built from a typed row whose id is
      below 10^21 routes to the monitoring view, and [Number(patientId)]
      reads the double of that row's id ([monitor_link_roundtrip]).  From
      10^21 on, the [+] of the exponent form decodes to a space, and the
      [patientId] the route receives is a text [toString] prints for no
      number ([monitor_link_exponent_lost]).  The query loop terminates:
      any fuel above the query's length gives the reference reading, and
      [search_param] gives that much ([search_param_terminates]).
    Each claim with hypotheses has a witness that runs a concrete event
    trace ([trace_search], [trace_500], [trace_stale]) with [vm_compute].

    ** Modelling choices and bounds

    - One loop has fuel: [search_param_fuel], given one round more than
      the query has characters; each round consumes at least the [&] it
      cuts at, so that is enough ([search_param_terminates]).  Every other
      function is structural, and [step] is total on the states it
      accepts.  [render_cycle_settles] bounds React's re-render loop by two
      commits.
    - JSON numbers are integers ([Z]): the values of the body's integer
      literals after [round_double].  The controller, the filter and the
      view take the parsed value as given; System.v hands the page the
      backend's records through [parse_numbers], the conversion
      [res.json()] applies.  [number_toString] covers every integral
      double, plain and exponent forms; its digit loop [digits_acc] is
      structural on a fuel of [log2 a + 1] rounds, more than the number
      of decimal digits of [a] ([digit_fuel_enough]), and [shortest]
      searches from the exponent of the integer's own digits down to 0.
      [to_number] reads the literals [toString] prints and returns
      [None] for any other text.
    - Strings are lists of 8-bit code units.  [toLowerCase] is Unicode's
      simple mapping on U+0000..U+00FF; other code units are not modelled.
    - The network, the user and the dialogs are the environment: every
      response, keystroke and callback order is a possible event sequence.
    - React 18 batching is modelled by the atomicity of each [await]
      continuation, and effects run in declaration order after a commit.
      An uncaught exception in render or in an effect unmounts the tree,
      since the app has no error boundary in the repository.  StrictMode's
      double effects are not modelled: main.tsx is not in the repository.

    ** Not modelled

    - The following are not in the repository: [AddPatientDialog],
      [DeletePatientDialog], the [/api/patients] server, the route table
      (App.tsx) and the monitoring page.  Backend.v, System.v and
      Navigation.v model them from the spec; the dialogs' forms and
      validation are not modelled.  Spec section 6 names the three routes
      but not their paths; [route_of] uses the paths of the code's own
      links ([/], [/patients], [/dashboard]).
    - Home.tsx is modelled by its links and its feature cards; the hero,
      the statistics and the footer are constant text with no data.
    - Styling, icons and images are presentational, and react-router's
      [Link] and the card, button and input components are library code
      the page only calls: [Link] is modelled by its target.
    - The string built-ins are modelled on code units U+0000..U+00FF
      only.  Strings are Rocq strings of 8-bit code units; the lowercase
      mapping of the rest of UTF-16 needs Unicode's case tables, which
      neither the repository nor the installed libraries provide.
    - Numbers are the integral doubles.  Fractions, -0, NaN and Infinity
      (literals of 2^1024 - 2^970 and above) do not occur in the rows the
      spec describes, and [Number()] on texts [toString] never prints
      (whitespace, hexadecimal, [Infinity]) is [None].
    - [toLocaleDateString] is modelled for [en-US] at a fixed UTC offset,
      and [Date.parse] on the Date Time String Format.  Other locales'
      formats come from the host's CLDR data, daylight-saving changes from
      its time-zone database, and strings outside the format from the
      engine's own heuristics; none of them is part of the program. *)

From stdpp Require Import base list.


Declare Scope dd_scope.
Delimit Scope dd_scope with dd.

(** ** The error monad

    A computation of the modelled TypeScript either returns a value or
    raises an exception ([Err]).  The development uses it for the
    [TypeError]s that JavaScript raises on property accesses and method
    calls, and for the render errors of React. *)

Inductive result (E A : Type) : Type :=
| Ok (a : A)
| Err (e : E).
Arguments Ok {E A} a.
Arguments Err {E A} e.

Definition rbind {E A B} (m : result E A) (k : A -> result E B) : result E B :=
  match m with
  | Ok a => k a
  | Err e => Err e
  end.

Definition rmap {E A B} (f : A -> B) (m : result E A) : result E B :=
  rbind m (fun a => Ok (f a)).

Notation "x <- m ;; k" := (rbind m (fun x => k))
  (at level 100, m at level 99, right associativity) : dd_scope.

#[global] Instance result_eq_dec {E A} `{EqDecision E, EqDecision A} :
  EqDecision (result E A).
Proof. solve_decision. Defined.

Definition is_ok {E A} (m : result E A) : bool :=
  match m with Ok _ => true | Err _ => false end.

(** Array.prototype.filter with a callback that may throw: the callback is
    run on the elements in order, and the first exception escapes. *)
Fixpoint filterR {E A} (f : A -> result E bool) (l : list A) : result E (list A) :=
  match l with
  | [] => Ok []
  | x :: l' =>
      rbind (f x) (fun b =>
      rbind (filterR f l') (fun r =>
      Ok (if b then x :: r else r)))
  end.

(** Array.prototype.map with a callback that may throw. *)
Fixpoint mapR {E A B} (f : A -> result E B) (l : list A) : result E (list B) :=
  match l with
  | [] => Ok []
  | x :: l' =>
      rbind (f x) (fun y =>
      rbind (mapR f l') (fun r => Ok (y :: r)))
  end.

(** ** Tactics *)

Create HintDb dd discriminated.
Create Rewrite HintDb dd_rw.

(** Split a hypothesis [rbind m k = Ok v] on the outcome of [m]. *)
Ltac destruct_rbind :=
  repeat match goal with
  | H : context [rbind ?m _] |- _ =>
      let E := fresh "E" in destruct m eqn:E; simpl in H; try discriminate H
  | |- context [rbind ?m _] =>
      let E := fresh "E" in destruct m eqn:E; simpl
  end.

Ltac invc H := inversion H; subst; clear H.

(** ** Generic lemmas *)

Section ResultLemmas.
Context {E A B : Type}.

Lemma rbind_Ok (a : A) (k : A -> result E B) : rbind (Ok a) k = k a.
Proof. reflexivity. Qed.

Lemma rbind_Err (e : E) (k : A -> result E B) : rbind (Err e) k = Err e.
Proof. reflexivity. Qed.

Lemma rbind_Ok_inv (m : result E A) (k : A -> result E B) (b : B) :
  rbind m k = Ok b -> exists a, m = Ok a /\ k a = Ok b.
Proof. destruct m; simpl; [eauto | discriminate]. Qed.

Lemma filterR_pure (f : A -> bool) (l : list A) :
  filterR (E:=E) (fun x => Ok (f x)) l = Ok (List.filter f l).
Proof. induction l as [|x l IH]; simpl; [done|]. rewrite IH. by destruct (f x). Qed.

Lemma mapR_pure (f : A -> B) (l : list A) :
  mapR (E:=E) (fun x => Ok (f x)) l = Ok (map f l).
Proof. induction l as [|x l IH]; simpl; [done|]. by rewrite IH. Qed.

Lemma mapR_length (f : A -> result E B) (l : list A) (r : list B) :
  mapR f l = Ok r -> length r = length l.
Proof.
  revert r; induction l as [|x l IH]; simpl; intros r H; [by invc H|].
  destruct (f x); simpl in H; [|discriminate].
  destruct (mapR f l) eqn:Hm; simpl in H; [|discriminate].
  invc H. simpl. f_equal. by apply IH.
Qed.
End ResultLemmas.

#[export] Hint Rewrite @rbind_Ok @rbind_Err @filterR_pure @mapR_pure : dd_rw.

Section FilterLemmas.
Context {A : Type}.
Implicit Types (f g : A -> bool) (l : list A).

Lemma filter_sublist_of f l : List.filter f l `sublist_of` l.
Proof.
  induction l as [|x l IH]; simpl; [constructor|].
  destruct (f x); [by apply sublist_skip | by apply sublist_cons].
Qed.

Lemma filter_all_true f l : Forall (fun x => f x = true) l -> List.filter f l = l.
Proof. induction 1 as [|x l Hx _ IH]; simpl; [done|]. by rewrite Hx, IH. Qed.

Lemma filter_idem f l : List.filter f (List.filter f l) = List.filter f l.
Proof.
  apply filter_all_true, Forall_forall. intros x Hx.
  by apply list_elem_of_In, List.filter_In in Hx as [_ ?].
Qed.

(** A stronger predicate keeps a sublist of what a weaker one keeps. *)
Lemma filter_sublist_mono f g l :
  (forall x, f x = true -> g x = true) ->
  List.filter f l `sublist_of` List.filter g l.
Proof.
  intros Hfg. induction l as [|x l IH]; simpl; [constructor|].
  destruct (f x) eqn:Hf.
  - rewrite (Hfg x Hf). by apply sublist_skip.
  - destruct (g x); [by apply sublist_cons | done].
Qed.

Lemma filter_NoDup f l : NoDup l -> NoDup (List.filter f l).
Proof. intros H. eapply sublist_NoDup; [done | apply filter_sublist_of]. Qed.
End FilterLemmas.

#[export] Hint Resolve filter_sublist_of filter_NoDup : dd.

(** [forallb] decides [Forall] of a property each test decides. *)
Lemma forallb_iff {A} (f : A -> bool) (P : A -> Prop) l :
  (forall x, In x l -> f x = true <-> P x) ->
  forallb f l = true <-> List.Forall P l.
Proof.
  intros H. rewrite List.forallb_forall, List.Forall_forall.
  split; intros Hl x Hx; apply H; auto.
Qed.

Lemma forallb_ext {A} (f g : A -> bool) l :
  (forall x, f x = g x) -> forallb f l = forallb g l.
Proof. intros H. induction l as [|x l IH]; simpl; [done|]. by rewrite H, IH. Qed.

Section MapR.
Context {E A B C : Type}.

Lemma mapR_map (f : B -> result E C) (g : A -> B) (h : A -> C) (l : list A) :
  (forall x, f (g x) = Ok (h x)) -> mapR f (map g l) = Ok (map h l).
Proof. intros H. induction l as [|x l IH]; simpl; [done|]. by rewrite H, IH. Qed.

Lemma filterR_map (f : B -> result E bool) (g : A -> B) (p : A -> bool) (l : list A) :
  (forall x, f (g x) = Ok (p x)) -> filterR f (map g l) = Ok (map g (List.filter p l)).
Proof.
  intros H. induction l as [|x l IH]; simpl; [done|].
  rewrite H, IH. simpl. by destruct (p x).
Qed.
End MapR.
