(* ===== verification/JsNumber.v ===== *)
(** * JavaScript numbers: the integers [JSON.parse] can read

    [await res.json()] (PatientRecords.tsx, line 29) parses the body with
    the rules of [JSON.parse]: a numeric literal becomes the IEEE-754
    double nearest to its mathematical value, ties going to the even
    significand.  The spec's fields [patient_id], [age] and [bed_id] are
    integers without bound (spec section 2); this file states the
    conversion on integer literals ([round_mag] on magnitudes,
    [round_double] with the sign) and shows where it stops being exact:
    every integer of magnitude at most 2^53 is read exactly, 2^53 + 1 is
    read as 2^53, and beyond the error is at most half a unit in the last
    place.  The section on the grid of doubles proves what
    [Number.prototype.toString] (JsToString.v) relies on: rounding is
    monotone and idempotent, and the only integers that round to an exact
    value [v] are [v] itself and, for [v = 2^53], [2^53 + 1].  Literals from 2^1024 - 2^970 on become [Infinity];
    that overflow is not modelled (no record field of the spec comes near
    it, and the exactness and error theorems concern the range below). *)

From Stdlib Require Import ZArith Lia.
From stdpp Require Import base.
From S2P Require Import Prelude.

Local Open Scope Z_scope.
Local Open Scope bool_scope.

Module JsNumber.

(** The double nearest to a magnitude [a >= 0]: keep the 53 leading bits,
    round the [sh] bits below by the remainder [r] against half of their
    weight, ties to an even significand. *)
Definition round_mag (a : Z) : Z :=
  let sh := Z.log2 a - 52 in
  if sh <=? 0 then a
  else
    let q := Z.shiftr a sh in
    let r := a - Z.shiftl q sh in
    let half := Z.shiftl 1 (sh - 1) in
    let q' := if (half <? r) || ((r =? half) && Z.odd q) then q + 1 else q in
    Z.shiftl q' sh.

(** The double nearest to the integer [n]: the rounding is symmetric. *)
Definition round_double (n : Z) : Z := Z.sgn n * round_mag (Z.abs n).

(** The largest magnitude below which every integer is a double. *)
Definition max_exact : Z := 2 ^ 53.

(** ** Lemmas *)

Lemma round_mag_short a : Z.log2 a <= 52 -> round_mag a = a.
Proof.
  intros H. unfold round_mag. cbv zeta.
  destruct (Z.leb_spec (Z.log2 a - 52) 0); [reflexivity | lia].
Qed.

Lemma round_double_short n : Z.log2 (Z.abs n) <= 52 -> round_double n = n.
Proof. intros H. unfold round_double. rewrite round_mag_short by assumption. lia. Qed.

Lemma log2_below_2_53 n : Z.abs n < 2 ^ 53 -> Z.log2 (Z.abs n) <= 52.
Proof.
  intros H. destruct (Z.eq_dec n 0) as [->|Hn]; [simpl; lia|].
  assert (Z.log2 (Z.abs n) < 53); [|lia].
  apply Z.log2_lt_pow2; lia.
Qed.

(** The rounding of the bits below the significand: the chosen multiple of
    [2^sh] is within half of [2^sh] of [a]. *)
Lemma round_bits_error a sh :
  0 < sh ->
  let q := Z.shiftr a sh in
  let r := a - Z.shiftl q sh in
  let half := Z.shiftl 1 (sh - 1) in
  let q' := if (half <? r) || ((r =? half) && Z.odd q) then q + 1 else q in
  Z.abs (Z.shiftl q' sh - a) <= 2 ^ (sh - 1).
Proof.
  intros Hsh q r half q'.
  assert (Hp : 2 ^ sh = 2 * 2 ^ (sh - 1)).
  { rewrite <- Z.pow_succ_r by lia. f_equal. lia. }
  assert (Hq : q = a / 2 ^ sh) by (apply Z.shiftr_div_pow2; lia).
  assert (Hr : r = a mod 2 ^ sh).
  { unfold r. rewrite Z.shiftl_mul_pow2, Hq, Z.mod_eq by lia. lia. }
  assert (Hh : half = 2 ^ (sh - 1)) by (unfold half; rewrite Z.shiftl_mul_pow2 by lia; lia).
  assert (Hb : 0 <= r < 2 ^ sh) by (rewrite Hr; apply Z.mod_pos_bound; lia).
  assert (Ha : a = q * 2 ^ sh + r) by (rewrite Hr, Hq, Z.mod_eq by lia; lia).
  unfold q'. rewrite Z.shiftl_mul_pow2 by lia.
  destruct (Z.ltb_spec half r); simpl.
  - rewrite Ha. lia.
  - destruct (Z.eqb_spec r half); simpl; [destruct (Z.odd q)|]; rewrite Ha; lia.
Qed.

(** The sign comes back on the rounded magnitude. *)
Lemma sgn_abs_error n x b :
  0 <= b -> Z.abs (x - Z.abs n) <= b -> Z.abs (Z.sgn n * x - n) <= b.
Proof.
  destruct (Z.lt_trichotomy n 0) as [H|[H|H]];
    [rewrite Z.sgn_neg by lia | subst; simpl | rewrite Z.sgn_pos by lia]; lia.
Qed.

(** Half a unit in the last place: the error of the conversion. *)
Lemma round_double_error n :
  Z.abs (round_double n - n) <= 2 ^ (Z.log2 (Z.abs n) - 53).
Proof.
  unfold round_double, round_mag. cbv zeta.
  destruct (Z.leb_spec (Z.log2 (Z.abs n) - 52) 0).
  - replace (Z.sgn n * Z.abs n) with n by (destruct n; simpl; lia).
    rewrite Z.sub_diag. simpl. apply Z.pow_nonneg. lia.
  - apply sgn_abs_error; [apply Z.pow_nonneg; lia|].
    replace (Z.log2 (Z.abs n) - 53) with (Z.log2 (Z.abs n) - 52 - 1) by lia.
    apply round_bits_error. lia.
Qed.

Lemma round_double_exact_le n : Z.abs n <= max_exact -> round_double n = n.
Proof.
  unfold max_exact. intros H.
  destruct (Z.eq_dec (Z.abs n) (2 ^ 53)) as [E|E].
  - assert (n = 2 ^ 53 \/ n = - 2 ^ 53) as [-> | ->] by lia; vm_compute; reflexivity.
  - apply round_double_short, log2_below_2_53. lia.
Qed.

(** ** Rounding on the grid of doubles *)

(** The rounding with the shifts written as division and multiplication. *)
Lemma round_mag_split a :
  0 < Z.log2 a - 52 ->
  let sh := Z.log2 a - 52 in
  let c := if (2 ^ (sh - 1) <? a mod 2 ^ sh) ||
              ((a mod 2 ^ sh =? 2 ^ (sh - 1)) && Z.odd (a / 2 ^ sh)) then 1 else 0 in
  round_mag a = (a / 2 ^ sh + c) * 2 ^ sh.
Proof.
  intros Hsh sh c. unfold round_mag. fold sh.
  destruct (Z.leb_spec sh 0); [lia|].
  rewrite Z.shiftr_div_pow2, !Z.shiftl_mul_pow2, Z.mul_1_l by lia.
  replace (a - a / 2 ^ sh * 2 ^ sh) with (a mod 2 ^ sh) by (rewrite Z.mod_eq; lia).
  unfold c. destruct (_ || _); ring.
Qed.

(** The significand of a magnitude above 2^53 has 53 bits. *)
Lemma significand_range a :
  0 < Z.log2 a - 52 -> 2 ^ 52 <= a / 2 ^ (Z.log2 a - 52) < 2 ^ 53.
Proof.
  intros Hsh. assert (Ha : 0 < a) by (destruct (Z.le_gt_cases a 0); [rewrite Z.log2_nonpos in Hsh; lia | lia]).
  destruct (Z.log2_spec a Ha) as [Hlo Hhi].
  assert (E : 2 ^ Z.log2 a = 2 ^ 52 * 2 ^ (Z.log2 a - 52))
    by (rewrite <- Z.pow_add_r by lia; f_equal; lia).
  assert (E1 : 2 ^ Z.succ (Z.log2 a) = 2 ^ 53 * 2 ^ (Z.log2 a - 52))
    by (rewrite <- Z.pow_add_r by lia; f_equal; lia).
  split; [apply Z.div_le_lower_bound | apply Z.div_lt_upper_bound]; lia.
Qed.

Lemma round_mag_bounds a :
  0 < Z.log2 a - 52 ->
  a / 2 ^ (Z.log2 a - 52) * 2 ^ (Z.log2 a - 52) <= round_mag a <=
  (a / 2 ^ (Z.log2 a - 52) + 1) * 2 ^ (Z.log2 a - 52).
Proof.
  intros Hsh. rewrite round_mag_split by lia. cbv zeta.
  assert (0 < 2 ^ (Z.log2 a - 52)) by (apply Z.pow_pos_nonneg; lia).
  destruct (_ || _); nia.
Qed.

(** A number with a 53-bit significand is a double. *)
Lemma round_mag_grid m t : 2 ^ 52 <= m < 2 ^ 53 -> 0 <= t -> round_mag (m * 2 ^ t) = m * 2 ^ t.
Proof.
  intros Hm Ht. assert (Hl : Z.log2 m = 52) by (apply Z.log2_unique; lia).
  assert (HL : Z.log2 (m * 2 ^ t) = 52 + t) by (rewrite Z.log2_mul_pow2 by lia; lia).
  destruct (Z.eq_dec t 0) as [->|Ht0]; [apply round_mag_short; lia|].
  rewrite round_mag_split by lia. rewrite HL. replace (52 + t - 52) with t by lia.
  assert (0 < 2 ^ (t - 1)) by (apply Z.pow_pos_nonneg; lia).
  rewrite Z.mod_mul, Z.div_mul by (apply Z.pow_nonzero; lia).
  replace (2 ^ (t - 1) <? 0) with false by (symmetry; apply Z.ltb_ge; lia).
  replace (0 =? 2 ^ (t - 1)) with false by (symmetry; apply Z.eqb_neq; lia).
  simpl. lia.
Qed.

Lemma round_mag_nonneg a : 0 <= a -> 0 <= round_mag a.
Proof.
  intros Ha. destruct (Z.leb_spec (Z.log2 a - 52) 0).
  - rewrite round_mag_short by lia. lia.
  - pose proof (round_mag_bounds a ltac:(lia)). pose proof (significand_range a ltac:(lia)).
    assert (0 < 2 ^ (Z.log2 a - 52)) by (apply Z.pow_pos_nonneg; lia). nia.
Qed.

(** Rounding a double gives it back. *)
Lemma round_mag_idem a : 0 <= a -> round_mag (round_mag a) = round_mag a.
Proof.
  intros Ha. destruct (Z.leb_spec (Z.log2 a - 52) 0).
  - rewrite !(round_mag_short a) by lia; reflexivity.
  - rewrite (round_mag_split a) by lia. cbv zeta.
    pose proof (significand_range a ltac:(lia)) as Hq.
    set (sh := Z.log2 a - 52). set (q := a / 2 ^ sh). fold sh in Hq. fold q in Hq.
    destruct (_ || _).
    + destruct (Z.eq_dec (q + 1) (2 ^ 53)) as [E|E].
      * rewrite E. replace (2 ^ 53 * 2 ^ sh) with (2 ^ 52 * 2 ^ (sh + 1))
          by (rewrite Z.pow_add_r by lia; lia).
        apply round_mag_grid; lia.
      * apply round_mag_grid; lia.
    + rewrite Z.add_0_r. apply round_mag_grid; lia.
Qed.

(** The rounding is monotone. *)
Lemma round_mag_mono a b : 0 <= a <= b -> round_mag a <= round_mag b.
Proof.
  intros Hab. pose proof (Z.log2_le_mono a b ltac:(lia)) as HL.
  destruct (Z.leb_spec (Z.log2 b - 52) 0).
  { rewrite !round_mag_short by lia. lia. }
  pose proof (round_mag_bounds b ltac:(lia)) as Hb. pose proof (significand_range b ltac:(lia)) as Hqb.
  assert (Hpb : 2 ^ Z.log2 b = 2 ^ 52 * 2 ^ (Z.log2 b - 52))
    by (rewrite <- Z.pow_add_r by lia; f_equal; lia).
  destruct (Z.leb_spec (Z.log2 a - 52) 0).
  { rewrite (round_mag_short a) by lia.
    assert (a < 2 ^ 53).
    { destruct (Z.eq_dec a 0) as [->|]; [lia|].
      pose proof (Z.log2_spec a ltac:(lia)) as [_ Ha].
      assert (2 ^ Z.succ (Z.log2 a) <= 2 ^ 53) by (apply Z.pow_le_mono_r; lia). lia. }
    assert (2 ^ 53 <= 2 ^ Z.log2 b) by (apply Z.pow_le_mono_r; lia). nia. }
  pose proof (round_mag_bounds a ltac:(lia)) as Ha. pose proof (significand_range a ltac:(lia)) as Hqa.
  assert (Hpa : 2 ^ Z.succ (Z.log2 a) = 2 ^ 53 * 2 ^ (Z.log2 a - 52))
    by (rewrite <- Z.pow_add_r by lia; f_equal; lia).
  destruct (Z.lt_ge_cases (Z.log2 a) (Z.log2 b)).
  { assert (2 ^ Z.succ (Z.log2 a) <= 2 ^ Z.log2 b) by (apply Z.pow_le_mono_r; lia). nia. }
  assert (E : Z.log2 a = Z.log2 b) by lia.
  rewrite (round_mag_split a), (round_mag_split b) by lia. cbv zeta. rewrite E in *.
  set (sh := Z.log2 b - 52) in *.
  assert (Hp : 0 < 2 ^ sh) by (apply Z.pow_pos_nonneg; lia).
  pose proof (Z.div_le_mono a b (2 ^ sh) Hp ltac:(lia)) as Hq.
  destruct (Z.lt_ge_cases (a / 2 ^ sh) (b / 2 ^ sh)).
  { destruct (_ || _), (_ || _); nia. }
  assert (Eq : a / 2 ^ sh = b / 2 ^ sh) by lia.
  assert (Hr : a mod 2 ^ sh <= b mod 2 ^ sh) by (rewrite !Z.mod_eq by lia; lia).
  rewrite Eq. apply Z.mul_le_mono_nonneg_r; [lia|]. apply Z.add_le_mono_l.
  destruct (Z.ltb_spec (2 ^ (sh - 1)) (a mod 2 ^ sh)); simpl.
  - replace (2 ^ (sh - 1) <? b mod 2 ^ sh) with true by (symmetry; apply Z.ltb_lt; lia). simpl. lia.
  - destruct (Z.eqb_spec (a mod 2 ^ sh) (2 ^ (sh - 1))); simpl; [|destruct (_ || _); lia].
    destruct (Z.odd (b / 2 ^ sh)) eqn:Ho; [|rewrite andb_false_r, orb_false_r; destruct (_ <? _); lia].
    destruct (Z.ltb_spec (2 ^ (sh - 1)) (b mod 2 ^ sh)); simpl; [lia|].
    replace (b mod 2 ^ sh =? 2 ^ (sh - 1)) with true by (symmetry; apply Z.eqb_eq; lia). simpl. lia.
Qed.

Lemma round_mag_exact a : 0 <= a <= max_exact -> round_mag a = a.
Proof.
  unfold max_exact. intros Ha. destruct (Z.eq_dec a (2 ^ 53)) as [->|E].
  - reflexivity.
  - apply round_mag_short. destruct (Z.eq_dec a 0) as [->|]; [simpl; lia|].
    assert (Z.log2 a < 53) by (apply Z.log2_lt_pow2; lia). lia.
Qed.

(** The only integers read as a number up to 2^53 are that number and,
    for 2^53, the integer above it. *)
Lemma round_mag_preimage_exact y v :
  0 <= y -> 0 <= v <= max_exact -> round_mag y = v -> y = v \/ (v = max_exact /\ y = max_exact + 1).
Proof.
  unfold max_exact. intros Hy Hv E.
  destruct (Z.le_gt_cases y (2 ^ 53)).
  { left. rewrite <- E. symmetry. apply round_mag_exact. unfold max_exact. lia. }
  destruct (Z.eq_dec y (2 ^ 53 + 1)) as [->|Hne].
  { right. split; [|reflexivity]. rewrite <- E. reflexivity. }
  pose proof (round_mag_mono (2 ^ 53 + 2) y ltac:(lia)) as Hm.
  replace (round_mag (2 ^ 53 + 2)) with (2 ^ 53 + 2) in Hm by reflexivity. lia.
Qed.

Lemma round_double_abs n : round_double (Z.abs n) = round_mag (Z.abs n).
Proof.
  unfold round_double. rewrite (Z.abs_eq (Z.abs n)) by lia.
  destruct n; simpl; [reflexivity | lia | lia].
Qed.

(** ** Properties *)

(** Bounds of the number conversion of [res.json()]:
    every integer of magnitude at most 2^53 is read exactly; 2^53 + 1, the
    first integer above, is read as 2^53, so two distinct ids of the spec
    become one number on the page; and any integer is read within half a
    unit in the last place, 2^(log2 |n| - 53). *)
Lemma json_integers_exact :
  (forall n, Z.abs n <= max_exact -> round_double n = n) /\
  round_double (max_exact + 1) = round_double max_exact /\
  (forall n, Z.abs (round_double n - n) <= 2 ^ (Z.log2 (Z.abs n) - 53)).
Proof.
  split; [exact round_double_exact_le|]. split; [vm_compute; reflexivity|].
  exact round_double_error.
Qed.

End JsNumber.
