(* ===== verification/JsString.v ===== *)
(** * JavaScript string built-ins used by the search filter

    The search effect of [PatientRecords.tsx] (lines 44-48) calls three
    built-ins of the JavaScript standard library:
    [String.prototype.toLowerCase], [String.prototype.includes] and
    [Number.prototype.toString].  This file models them on strings of
    8-bit code units (Stdlib [string], a list of [ascii]).

    - [toLowerCase] lowercases code unit by code unit with the Unicode
      simple lowercase mapping restricted to U+0000..U+00FF: A-Z and the
      Latin-1 capitals U+00C0..U+00DE except U+00D7 move up by 0x20.  Code
      units above U+00FF are outside the model.
    - [includes s q] is the ECMAScript [StringIndexOf]-based search at
      position 0: some index [k] has [q] as the substring starting at [k].
    - [split_first] cuts a string at the first occurrence of a character,
      as the parsers of URLs and numbers do.
    [Number.prototype.toString], the third built-in, is in JsToString.v. *)

From stdpp Require Import base list strings.
From Stdlib Require Import ZArith Ascii String.
From S2P Require Import Prelude.

Local Open Scope stdpp_scope.

Module JsString.

(** ** Definitions *)

Definition lower_code (n : nat) : nat :=
  if (65 <=? n) && (n <=? 90) then n + 32
  else if (192 <=? n) && (n <=? 222) && negb (n =? 215) then n + 32
  else n.

Definition to_lower_char (c : ascii) : ascii :=
  ascii_of_nat (lower_code (nat_of_ascii c)).

(** [String.prototype.toLowerCase] *)
Fixpoint toLowerCase (s : string) : string :=
  match s with
  | EmptyString => EmptyString
  | String c s' => String (to_lower_char c) (toLowerCase s')
  end.

(** [s] starts with [q] (the inner comparison of [StringIndexOf]). *)
Fixpoint startsWith (s q : string) : bool :=
  match q, s with
  | EmptyString, _ => true
  | String a q', String b s' => Ascii.eqb a b && startsWith s' q'
  | String _ _, EmptyString => false
  end.

(** [String.prototype.includes]: [s.includes(q)]. *)
Fixpoint includes (s q : string) : bool :=
  startsWith s q ||
  match s with
  | EmptyString => false
  | String _ s' => includes s' q
  end.

Definition is_digit_char (c : ascii) : bool :=
  (48 <=? nat_of_ascii c) && (nat_of_ascii c <=? 57).

(** Characters of a decimal integer numeral. *)
Definition is_numeral_char (c : ascii) : bool := Ascii.eqb c "-"%char || is_digit_char c.

Fixpoint all_chars (p : ascii -> bool) (s : string) : bool :=
  match s with
  | EmptyString => true
  | String c s' => p c && all_chars p s'
  end.

(** [s] cut at the first [c]: the part before, and the rest after [c]. *)
Fixpoint split_first (c : ascii) (s : string) : string * option string :=
  match s with
  | EmptyString => (EmptyString, None)
  | String d s' =>
      if Ascii.eqb c d then (EmptyString, Some s')
      else let (pre, post) := split_first c s' in (String d pre, post)
  end.

Definition avoids (c : ascii) : ascii -> bool := fun d => negb (Ascii.eqb c d).

(** ** Lemmas on code units *)

(** Decide a property of one code unit by running through all 256. *)
Ltac by_all_code_units c :=
  destruct c as [[] [] [] [] [] [] [] []]; reflexivity.

Lemma to_lower_char_idem c : to_lower_char (to_lower_char c) = to_lower_char c.
Proof. by_all_code_units c. Qed.

Lemma to_lower_char_numeral c : is_numeral_char c = true -> to_lower_char c = c.
Proof. destruct c as [[] [] [] [] [] [] [] []]; (discriminate || reflexivity). Qed.

Lemma to_lower_char_numeral_iff c :
  is_numeral_char (to_lower_char c) = is_numeral_char c.
Proof. by_all_code_units c. Qed.

(** ** Lemmas on strings *)

(** stdpp declares [String.append] [simpl never]; this is its step. *)
Lemma string_app_cons c s1 s2 : String c s1 +:+ s2 = String c (s1 +:+ s2).
Proof. reflexivity. Qed.

Lemma toLowerCase_app s1 s2 :
  toLowerCase (s1 +:+ s2) = toLowerCase s1 +:+ toLowerCase s2.
Proof. induction s1 as [|c s1 IH]; simpl; [done|]. by rewrite IH. Qed.

Lemma toLowerCase_length s : String.length (toLowerCase s) = String.length s.
Proof. induction s as [|c s IH]; simpl; [done|]. by rewrite IH. Qed.

Lemma startsWith_spec s q :
  startsWith s q = true <-> exists post, s = q +:+ post.
Proof.
  revert s; induction q as [|a q IH]; intros [|b s]; simpl.
  - split; [by exists ""%string | done].
  - split; [by eexists | done].
  - split; [done | by intros [? ?]].
  - rewrite andb_true_iff, Ascii.eqb_eq, IH. split.
    + intros [-> [post ->]]. by exists post.
    + intros [post Hs]. injection Hs as -> ->. eauto.
Qed.

Lemma includes_nil q : includes EmptyString q = startsWith EmptyString q.
Proof. apply orb_false_r. Qed.

Lemma includes_cons c s q :
  includes (String c s) q = startsWith (String c s) q || includes s q.
Proof. reflexivity. Qed.

Lemma all_chars_app p s1 s2 :
  all_chars p (s1 +:+ s2) = all_chars p s1 && all_chars p s2.
Proof. induction s1 as [|c s1 IH]; simpl; [done|]. by rewrite IH, andb_assoc. Qed.

Lemma toLowerCase_all_numeral s :
  all_chars is_numeral_char s = true -> toLowerCase s = s.
Proof.
  induction s as [|c s IH]; simpl; [done|]. intros [Hc Hs]%andb_true_iff.
  by rewrite to_lower_char_numeral, IH.
Qed.

Lemma all_numeral_toLowerCase s :
  all_chars is_numeral_char (toLowerCase s) = all_chars is_numeral_char s.
Proof. induction s as [|c s IH]; simpl; [done|]. by rewrite to_lower_char_numeral_iff, IH. Qed.

#[export] Hint Rewrite toLowerCase_app all_chars_app all_numeral_toLowerCase : dd_rw.

Lemma includes_spec s q :
  includes s q = true <-> exists pre post, s = pre +:+ q +:+ post.
Proof.
  induction s as [|c s IH].
  - rewrite includes_nil, startsWith_spec. split.
    + intros [post Hq]. exists ""%string, post. done.
    + intros ([|? ?] & post & Hq); [by exists post | done].
  - rewrite includes_cons, orb_true_iff, startsWith_spec, IH. split.
    + intros [[post Hq] | (pre & post & ->)].
      * by exists ""%string, post.
      * by exists (String c pre), post.
    + intros ([|c' pre] & post & Hs); [left; by exists post|].
      injection Hs as -> ->. right. eauto.
Qed.

Lemma includes_all_chars p s q :
  all_chars p s = true -> includes s q = true -> all_chars p q = true.
Proof.
  intros Hs Hi. apply includes_spec in Hi as (pre & post & ->).
  autorewrite with dd_rw in Hs. by apply andb_true_iff in Hs as [_ [? _]%andb_true_iff].
Qed.

Lemma toLowerCase_idem s : toLowerCase (toLowerCase s) = toLowerCase s.
Proof. induction s as [|c s IH]; simpl; [done|]. by rewrite to_lower_char_idem, IH. Qed.

Lemma includes_toLowerCase s q :
  includes s q = true -> includes (toLowerCase s) (toLowerCase q) = true.
Proof.
  rewrite !includes_spec. intros (pre & post & ->).
  exists (toLowerCase pre), (toLowerCase post). by autorewrite with dd_rw.
Qed.

Lemma string_app_assoc s1 s2 s3 : s1 +:+ (s2 +:+ s3) = (s1 +:+ s2) +:+ s3.
Proof. induction s1 as [|c s1 IH]; [done|]. by rewrite !string_app_cons, IH. Qed.

Lemma includes_trans s q r :
  includes s q = true -> includes q r = true -> includes s r = true.
Proof.
  rewrite !includes_spec. intros (pre & post & ->) (pre' & post' & ->).
  exists (pre +:+ pre'), (post' +:+ post). by rewrite <- !string_app_assoc.
Qed.

Lemma includes_empty s : includes s EmptyString = true.
Proof. apply includes_spec. by exists EmptyString, s. Qed.

#[export] Hint Resolve includes_empty includes_toLowerCase : dd.

(** ** Properties *)

(** The naive search of [String.prototype.includes]
    answers exactly whether [q] occurs as a contiguous substring of [s]. *)
Lemma includes_is_substring s q :
  includes s q = true <-> exists pre post, s = pre +:+ q +:+ post.
Proof. apply includes_spec. Qed.

(** On a string made of digits and minus signs, such as the decimal form of
    a number, searching for [q] and for [q] lowercased give the same answer:
    the search on [patient_id.toString()], which does not lowercase the
    query, is case-insensitive all the same. *)
Lemma includes_numeral_lower s q :
  all_chars is_numeral_char s = true ->
  includes s q = includes s (toLowerCase q).
Proof.
  intros Hs. destruct (all_chars is_numeral_char q) eqn:Hq.
  - by rewrite toLowerCase_all_numeral.
  - destruct (includes s q) eqn:H1.
    + by rewrite (includes_all_chars _ _ _ Hs H1) in Hq.
    + destruct (includes s (toLowerCase q)) eqn:H2; [|done].
      apply (includes_all_chars _ _ _ Hs) in H2.
      by rewrite all_numeral_toLowerCase, Hq in H2.
Qed.

Lemma split_first_avoid c s :
  all_chars (avoids c) s = true -> split_first c s = (s, None).
Proof.
  induction s as [|d s IH]; simpl; [done|]. intros [Hd Hs]%andb_true_iff.
  apply negb_true_iff in Hd. by rewrite Hd, IH.
Qed.

Lemma split_first_app c pre post :
  all_chars (avoids c) pre = true -> split_first c (pre +:+ String c post) = (pre, Some post).
Proof.
  induction pre as [|d pre IH]; simpl.
  - by rewrite Ascii.eqb_refl.
  - intros [Hd Hs]%andb_true_iff. apply negb_true_iff in Hd. by rewrite Hd, IH.
Qed.

Lemma all_chars_impl (p p' : ascii -> bool) s :
  (forall c, p c = true -> p' c = true) -> all_chars p s = true -> all_chars p' s = true.
Proof.
  intros Hp. induction s as [|c s IH]; simpl; [done|].
  intros [Hc Hs]%andb_true_iff. by rewrite Hp, IH.
Qed.

(** A text of a class of characters avoids each character outside it. *)
Lemma all_chars_avoids (p : ascii -> bool) c s :
  p c = false -> all_chars p s = true -> all_chars (avoids c) s = true.
Proof.
  intros Hc. apply all_chars_impl. intros d Hd. unfold avoids.
  destruct (Ascii.eqb c d) eqn:E; [|done]. apply Ascii.eqb_eq in E. congruence.
Qed.

End JsString.
