(* ===== verification/JsToString.v ===== *)
(** * JavaScript numbers as text: [Number::toString] and [Number()]

    The page prints numbers in three places: the search compares the query
    with [patient.patient_id.toString()] (PatientRecords.tsx, line 45), the
    cards render [patient_id], [bed_id], [age] and the count as text (lines
    91, 117, 121, 126), and the Monitor link interpolates [patient_id] into
    [`/dashboard?patientId=${...}`] (line 150).  Each is
    [Number::toString(x, 10)] (ECMA-262, 6.1.6.1.20) of a double [x].  This
    file models it on the double nearest to an integer:
    - [decimal_string] and [parse_decimal] are decimal integer numerals;
    - [number_toString] picks the fewest significant digits [k] whose
      value [s * 10^(n-k)] rounds back to [x] ([shortest]), the closest such
      [s] and the even one on a tie (the choice the specification recommends
      and engines make), and prints them as [ddd000] up to 21 digits and as
      [d.ddde+nn] above ([format_decimal]);
    - [to_number] is [Number(s)] on the numerals of that form with an
      integer value.
    The lemmas: [Number(String(x))] gives [x] back for every double
    ([to_number_number_toString]); up to 2^53 the text is the integer's exact
    decimal digits ([number_toString_exact]); below 10^21 it is a plain
    numeral ([number_toString_plain]), from 10^21 on the exponent form
    ([number_toString_exponent]).  Above 2^53 the text is not the exact
    value: 2^60 prints as 1152921504606847000.  The claims that use them
    are about the page: the search (Filter.v) and the Monitor link
    (Navigation.v). *)

From stdpp Require Import base list strings.
From Stdlib Require Import ZArith Ascii String Lia.
From S2P Require Import Prelude JsNumber JsString.
Import JsNumber JsString.

Local Open Scope stdpp_scope.

Module JsToString.

Local Open Scope Z_scope.

(** ** Decimal numerals *)

(** The decimal digit [d] (0 to 9), and the value of a digit. *)
Definition digit_char (d : Z) : ascii := ascii_of_nat (Z.to_nat (48 + d)).

Definition digit (c : ascii) : option Z :=
  if is_digit_char c then Some (Z.of_nat (nat_of_ascii c) - 48) else None.

(** The digits of [n], most significant first, in front of [acc]: one round
    per digit, at most [fuel] rounds. *)
Fixpoint digits_acc (fuel : nat) (n : Z) (acc : string) : string :=
  match fuel with
  | O => acc
  | S f => if n =? 0 then acc else digits_acc f (n / 10) (String (digit_char (n mod 10)) acc)
  end.

(** An integer has fewer decimal digits than binary ones. *)
Definition digit_fuel (a : Z) : nat := Z.to_nat (Z.log2 a + 1).

(** The decimal digits of [a >= 0]. *)
Definition unsigned_digits (a : Z) : string :=
  if a =? 0 then "0" else digits_acc (digit_fuel a) a "".

(** The decimal representation of an integer. *)
Definition decimal_string (n : Z) : string :=
  if n <? 0 then String "-" (unsigned_digits (- n)) else unsigned_digits n.

Fixpoint zeros (k : nat) : string :=
  match k with O => EmptyString | S k' => String "0" (zeros k') end.

(** Decimal digits read most significant first, after the value [acc]. *)
Fixpoint read_digits (s : string) (acc : Z) : option Z :=
  match s with
  | EmptyString => Some acc
  | String c s' => d ← digit c; read_digits s' (10 * acc + d)
  end.

Definition parse_unsigned (s : string) : option Z :=
  match s with EmptyString => None | _ => read_digits s 0 end.

(** A decimal integer numeral with an optional minus sign. *)
Definition parse_decimal (s : string) : option Z :=
  match s with
  | EmptyString => None
  | String c s' => if Ascii.eqb c "-" then n ← parse_unsigned s'; Some (- n) else parse_unsigned s
  end.

(** ** [Number::toString(x, 10)] (ECMA-262, 6.1.6.1.20) *)

(** A significand [s > 0] of [v] at exponent [e]: [s * 10^e] rounds to
    the double [v].  Only [v / 10^e] and [v / 10^e + 1] can be the closest;
    of the two the closer to [v] is taken, ties to the even one. *)
Definition significand_at (v : Z) (e : nat) : option Z :=
  let p := 10 ^ Z.of_nat e in
  let q := v / p in
  let ok s := (0 <? s) && (round_mag (s * p) =? v) in
  match ok q, ok (q + 1) with
  | true, true =>
      let dq := v - q * p in
      let dq1 := (q + 1) * p - v in
      Some (if dq <? dq1 then q else if dq1 <? dq then q + 1 else if Z.even q then q else q + 1)
  | true, false => Some q
  | false, true => Some (q + 1)
  | false, false => None
  end.

(** Step 5: the largest exponent, from [e] down, at which [v] has a
    significand; it gives the fewest digits [k]. *)
Fixpoint shortest (v : Z) (e : nat) : Z * nat :=
  match significand_at v e with
  | Some s => (s, e)
  | None => match e with O => (v, O) | S e' => shortest v e' end
  end.

(** Steps 6 to 9 for [n >= k >= 1], with [ds] the [k] digits of [s] and
    [n = k + e]: the digits followed by [n - k] zeros up to 21 digits, the
    exponent form above. *)
Definition format_decimal (ds : string) (e : nat) : string :=
  let n := Z.of_nat (String.length ds + e) in
  if n <=? 21 then ds +:+ zeros e
  else
    match ds with
    | String c EmptyString => String c ("e+" +:+ decimal_string (n - 1))
    | String c rest => String c ("." +:+ rest +:+ "e+" +:+ decimal_string (n - 1))
    | EmptyString => EmptyString
    end.

(** [Number::toString(x, 10)] of the double nearest to the integer [x]
    (steps 2 and 3: zero, and the sign of a negative number). *)
Definition number_toString (x : Z) : string :=
  let v := round_mag (Z.abs x) in
  if v =? 0 then "0" else
  let '(s, e) := shortest v (String.length (decimal_string v)) in
  let body := format_decimal (decimal_string s) e in
  if x <? 0 then String "-" body else body.

(** ** [Number(s)] on the decimal literals with an integer value *)

Definition parse_exponent (s : string) : option Z :=
  match s with
  | EmptyString => None
  | String c s' => if Ascii.eqb c "+" then parse_unsigned s' else parse_decimal s
  end.

(** [StringToNumber] on the forms [-ddd.ddde+dd] whose value is an
    integer: the digits, scaled by the exponent less the number of digits
    after the point, rounded to a double.  Other strings are outside the
    model ([None]). *)
Definition to_number (s : string) : option Z :=
  let '(m, ex) := split_first "e" s in
  let '(ip, fp) := split_first "." m in
  let frac := default "" fp in
  v ← parse_decimal (ip +:+ frac);
  E ← (match ex with None => Some 0 | Some t => parse_exponent t end);
  let sh := E - Z.of_nat (String.length frac) in
  if 0 <=? sh then Some (round_double (v * 10 ^ sh))
  else if v mod 10 ^ (- sh) =? 0 then Some (round_double (v / 10 ^ (- sh))) else None.


(** Characters of the significand of the exponent form. *)
Definition is_mantissa_char (c : ascii) : bool := is_numeral_char c || Ascii.eqb c ".".

(** ** Lemmas on digits *)

Lemma digit_range c n : digit c = Some n -> 0 <= n <= 9.
Proof.
  unfold digit, is_digit_char. case_match eqn:E; [|discriminate]. intros [= <-].
  apply andb_true_iff in E as [E1 E2]. apply Nat.leb_le in E1, E2. lia.
Qed.

Lemma digit_cases d : 0 <= d <= 9 ->
  d = 0 \/ d = 1 \/ d = 2 \/ d = 3 \/ d = 4 \/ d = 5 \/ d = 6 \/ d = 7 \/ d = 8 \/ d = 9.
Proof. lia. Qed.

Lemma digit_char_digit d : 0 <= d <= 9 -> digit (digit_char d) = Some d.
Proof. intros Hd. destruct (digit_cases d Hd) as [->|[->|[->|[->|[->|[->|[->|[->|[->| ->]]]]]]]]]; reflexivity. Qed.

Lemma digit_char_is_digit d : 0 <= d <= 9 -> is_digit_char (digit_char d) = true.
Proof. intros Hd. destruct (digit_cases d Hd) as [->|[->|[->|[->|[->|[->|[->|[->|[->| ->]]]]]]]]]; reflexivity. Qed.

Lemma mod10_range n : 0 <= n mod 10 <= 9.
Proof. pose proof (Z.mod_pos_bound n 10). lia. Qed.

Lemma pow10_succ k : 10 ^ Z.of_nat (S k) = 10 * 10 ^ Z.of_nat k.
Proof. rewrite Nat2Z.inj_succ, Z.pow_succ_r by lia. lia. Qed.

Lemma pow10_pos k : 0 < 10 ^ Z.of_nat k.
Proof. apply Z.pow_pos_nonneg; lia. Qed.

(** What [digits_acc] prints: [k] digits of value [n], read after [acc]. *)
Lemma digits_acc_spec f n acc a :
  0 <= n < 10 ^ Z.of_nat f ->
  exists k, read_digits (digits_acc f n acc) a = read_digits acc (a * 10 ^ Z.of_nat k + n) /\
    String.length (digits_acc f n acc) = (k + String.length acc)%nat /\
    n < 10 ^ Z.of_nat k /\ (n = 0 -> k = 0%nat) /\ (0 < n -> 10 ^ (Z.of_nat k - 1) <= n).
Proof.
  revert n acc a. induction f as [|f IH]; intros n acc a Hn.
  - simpl in Hn. assert (n = 0) as -> by lia. exists 0%nat. simpl.
    rewrite Z.mul_1_r, Z.add_0_r. repeat split; lia.
  - cbn [digits_acc]. destruct (Z.eqb_spec n 0) as [->|Hn0].
    { exists 0%nat. simpl. rewrite Z.mul_1_r, Z.add_0_r. repeat split; lia. }
    pose proof (mod10_range n). pose proof (Z.div_mod n 10 ltac:(lia)).
    rewrite pow10_succ in Hn.
    assert (Hq : 0 <= n / 10 < 10 ^ Z.of_nat f) by (split; [apply Z.div_pos|]; lia).
    destruct (IH (n / 10) (String (digit_char (n mod 10)) acc) a Hq) as (k & Hr & Hl & Hlt & Hk0 & Hge).
    exists (S k). rewrite Hr. cbn [read_digits]. rewrite digit_char_digit by done. simpl.
    rewrite Hl, pow10_succ. cbn [String.length]. pose proof (pow10_pos k).
    split; [f_equal; nia|]. split; [lia|]. split; [nia|]. split; [lia|].
    intros _. rewrite Nat2Z.inj_succ, Z.sub_1_r, Z.pred_succ.
    destruct (Z.eqb_spec (n / 10) 0) as [E|E].
    + rewrite (Hk0 E). simpl. lia.
    + destruct k as [|k]; [simpl in Hlt; lia|].
      rewrite pow10_succ. rewrite Nat2Z.inj_succ, Z.sub_1_r, Z.pred_succ in Hge. nia.
Qed.

Lemma digits_acc_digits f n acc :
  all_chars is_digit_char acc = true -> all_chars is_digit_char (digits_acc f n acc) = true.
Proof.
  revert n acc. induction f as [|f IH]; intros n acc Hacc; cbn [digits_acc]; [done|].
  destruct (n =? 0); [done|]. apply IH. cbn [all_chars].
  by rewrite digit_char_is_digit, Hacc by apply mod10_range.
Qed.

Lemma digit_fuel_enough a : 0 <= a -> a < 10 ^ Z.of_nat (digit_fuel a).
Proof.
  intros Ha. unfold digit_fuel. pose proof (Z.log2_nonneg a). rewrite Z2Nat.id by lia.
  assert (a < 2 ^ (Z.log2 a + 1)).
  { destruct (Z.eq_dec a 0) as [->|]; [simpl; lia|].
    pose proof (Z.log2_spec a ltac:(lia)) as [_ Hs]. by rewrite <- Z.add_1_r in Hs. }
  assert (2 ^ (Z.log2 a + 1) <= 10 ^ (Z.log2 a + 1)) by (apply Z.pow_le_mono_l; lia). lia.
Qed.

(** The digits of [a >= 0]: read back as [a], [L] of them with
    [10^(L-1) <= a < 10^L] when [a > 0]. *)
Lemma unsigned_digits_spec a :
  0 <= a ->
  (forall b, read_digits (unsigned_digits a) b =
             Some (b * 10 ^ Z.of_nat (String.length (unsigned_digits a)) + a)) /\
  all_chars is_digit_char (unsigned_digits a) = true /\
  (1 <= String.length (unsigned_digits a))%nat /\
  (0 < a -> 10 ^ (Z.of_nat (String.length (unsigned_digits a)) - 1) <= a <
            10 ^ Z.of_nat (String.length (unsigned_digits a))).
Proof.
  intros Ha. unfold unsigned_digits. destruct (Z.eqb_spec a 0) as [->|Ha0].
  { split; [intros b; simpl; f_equal;
      change (Z.of_nat (nat_of_ascii "0") - 48) with 0; change (10 ^ Z.of_nat 1) with 10; lia|].
    split; [done|]. split; [simpl; lia | lia]. }
  pose proof (digit_fuel_enough a Ha).
  split; [|split; [apply digits_acc_digits; done|]].
  - intros b. destruct (digits_acc_spec (digit_fuel a) a "" b ltac:(lia)) as (k & Hr & Hl & _).
    rewrite Hr, Hl. simpl. by rewrite Nat.add_0_r.
  - destruct (digits_acc_spec (digit_fuel a) a "" 0 ltac:(lia)) as (k & _ & Hl & Hlt & _ & Hge).
    rewrite Hl, Nat.add_0_r. simpl. split; [destruct k; simpl in Hlt; lia|].
    intros _. split; [apply Hge; lia | done].
Qed.

Lemma read_digits_app s1 s2 b :
  read_digits (s1 +:+ s2) b = (c ← read_digits s1 b; read_digits s2 c).
Proof.
  revert b. induction s1 as [|ch s1 IH]; intros b; [done|].
  cbn [read_digits]. rewrite string_app_cons. cbn [read_digits].
  destruct (digit ch); simpl; [apply IH | done].
Qed.

Lemma digit_zero : digit "0" = Some 0.
Proof. reflexivity. Qed.

Lemma read_zeros e b : read_digits (zeros e) b = Some (b * 10 ^ Z.of_nat e).
Proof.
  revert b. induction e as [|e IH]; intros b; cbn [zeros read_digits].
  - f_equal. rewrite Nat2Z.inj_0, Z.pow_0_r. lia.
  - rewrite digit_zero. simpl. rewrite IH, pow10_succ. f_equal. lia.
Qed.

Lemma zeros_digits e : all_chars is_digit_char (zeros e) = true.
Proof. induction e; simpl; auto. Qed.

Lemma string_app_nil_r s : s +:+ "" = s.
Proof. induction s as [|c s IH]; [done|]. by rewrite string_app_cons, IH. Qed.

Lemma zeros_snoc e acc : zeros e +:+ String "0" acc = String "0" (zeros e +:+ acc).
Proof. induction e as [|e IH]; [done|]. cbn [zeros]. by rewrite !string_app_cons, IH. Qed.

(** Enough fuel, more fuel: the same digits. *)
Lemma digits_acc_fuel f f' n acc :
  0 <= n < 10 ^ Z.of_nat f -> (f <= f')%nat -> digits_acc f n acc = digits_acc f' n acc.
Proof.
  revert f' n acc. induction f as [|f IH]; intros f' n acc Hn Hf.
  - simpl in Hn. assert (n = 0) as -> by lia. destruct f'; reflexivity.
  - destruct f' as [|f']; [lia|]. cbn [digits_acc]. destruct (n =? 0); [done|].
    rewrite pow10_succ in Hn. apply IH; [|lia].
    split; [apply Z.div_pos; lia | apply Z.div_lt_upper_bound; lia].
Qed.

Lemma digits_acc_app f n acc t : digits_acc f n (acc +:+ t) = digits_acc f n acc +:+ t.
Proof.
  revert n acc. induction f as [|f IH]; intros n acc; cbn [digits_acc]; [done|].
  destruct (n =? 0); [done|]. by rewrite <- IH.
Qed.

Lemma digits_acc_shift s e f acc :
  0 < s -> s * 10 ^ Z.of_nat e < 10 ^ Z.of_nat f ->
  digits_acc f (s * 10 ^ Z.of_nat e) acc = digits_acc (f - e) s (zeros e +:+ acc).
Proof.
  intros Hs. revert f acc. induction e as [|e IH]; intros f acc Hlt.
  { simpl. rewrite Z.mul_1_r, Nat.sub_0_r. done. }
  pose proof (pow10_pos e). rewrite pow10_succ in Hlt |- *.
  destruct f as [|f]; [simpl in Hlt; nia|]. rewrite pow10_succ in Hlt.
  cbn [digits_acc]. replace (s * (10 * 10 ^ Z.of_nat e) =? 0) with false by (symmetry; apply Z.eqb_neq; nia).
  replace (s * (10 * 10 ^ Z.of_nat e)) with (s * 10 ^ Z.of_nat e * 10) by ring.
  rewrite Z.div_mul, Z.mod_mul by lia. cbn [zeros]. simpl Nat.sub.
  rewrite IH by nia. by rewrite zeros_snoc.
Qed.

(** Multiplying by [10^e] appends [e] zeros. *)
Lemma unsigned_digits_shift s e :
  0 < s -> unsigned_digits (s * 10 ^ Z.of_nat e) = unsigned_digits s +:+ zeros e.
Proof.
  intros Hs. pose proof (pow10_pos e). unfold unsigned_digits.
  replace (s * 10 ^ Z.of_nat e =? 0) with false by (symmetry; apply Z.eqb_neq; nia).
  replace (s =? 0) with false by (symmetry; apply Z.eqb_neq; lia).
  pose proof (digit_fuel_enough (s * 10 ^ Z.of_nat e) ltac:(nia)) as Hf.
  assert (He : (e <= digit_fuel (s * 10 ^ Z.of_nat e))%nat).
  { destruct (Nat.le_gt_cases e (digit_fuel (s * 10 ^ Z.of_nat e))) as [|Hgt]; [done|].
    assert (10 ^ Z.of_nat (digit_fuel (s * 10 ^ Z.of_nat e)) <= 10 ^ Z.of_nat e)
      by (apply Z.pow_le_mono_r; lia). nia. }
  rewrite digits_acc_shift by done. rewrite string_app_nil_r.
  rewrite (digits_acc_app _ _ "" (zeros e) : digits_acc _ s (zeros e) = _). f_equal.
  assert (Hs1 : s < 10 ^ Z.of_nat (digit_fuel (s * 10 ^ Z.of_nat e) - e)).
  { set (f := digit_fuel (s * 10 ^ Z.of_nat e)) in *.
    rewrite <- (Nat.sub_add e f He), Nat2Z.inj_add, Z.pow_add_r in Hf by lia. nia. }
  pose proof (digit_fuel_enough s ltac:(lia)) as Hs2.
  destruct (Nat.le_ge_cases (digit_fuel (s * 10 ^ Z.of_nat e) - e) (digit_fuel s));
    [|symmetry]; apply digits_acc_fuel; lia.
Qed.

Lemma all_digits_numeral s : all_chars is_digit_char s = true -> all_chars is_numeral_char s = true.
Proof. apply all_chars_impl. intros c Hc. unfold is_numeral_char. by rewrite Hc, orb_true_r. Qed.

(** A nonempty string of digits is read by [parse_decimal] as by [read_digits]. *)
Lemma parse_decimal_digits s :
  (1 <= String.length s)%nat -> all_chars is_digit_char s = true -> parse_decimal s = read_digits s 0.
Proof.
  destruct s as [|c s]; [simpl; lia|]. intros _ [Hc _]%andb_true_iff. cbn [parse_decimal].
  replace (Ascii.eqb c "-") with false; [done|].
  symmetry. apply Ascii.eqb_neq. intros ->. discriminate Hc.
Qed.

Lemma parse_decimal_neg s :
  (1 <= String.length s)%nat -> parse_decimal (String "-" s) = (n ← read_digits s 0; Some (- n)).
Proof. destruct s; [simpl; lia | reflexivity]. Qed.

Lemma parse_decimal_decimal_string n : parse_decimal (decimal_string n) = Some n.
Proof.
  unfold decimal_string. destruct (Z.ltb_spec n 0).
  - destruct (unsigned_digits_spec (- n) ltac:(lia)) as (Hr & _ & Hl & _).
    rewrite parse_decimal_neg, Hr by done. simpl. f_equal; lia.
  - destruct (unsigned_digits_spec n ltac:(lia)) as (Hr & Hd & Hl & _).
    rewrite parse_decimal_digits, Hr by done. f_equal; lia.
Qed.

Lemma decimal_string_numeral n : all_chars is_numeral_char (decimal_string n) = true.
Proof.
  unfold decimal_string. destruct (Z.ltb_spec n 0).
  - destruct (unsigned_digits_spec (- n) ltac:(lia)) as (_ & Hd & _).
    cbn [all_chars]. by rewrite all_digits_numeral.
  - destruct (unsigned_digits_spec n ltac:(lia)) as (_ & Hd & _). by apply all_digits_numeral.
Qed.

Lemma decimal_string_nonneg n : 0 <= n -> decimal_string n = unsigned_digits n.
Proof. intros Hn. unfold decimal_string. by replace (n <? 0) with false by (symmetry; apply Z.ltb_ge; lia). Qed.

Lemma decimal_string_neg n : n < 0 -> decimal_string n = String "-" (unsigned_digits (- n)).
Proof. intros Hn. unfold decimal_string. by replace (n <? 0) with true by (symmetry; apply Z.ltb_lt; lia). Qed.

(** ** Lemmas on the significand *)

Ltac bool_facts :=
  repeat match goal with
  | H : (_ && _) = true |- _ => apply andb_true_iff in H as [? ?]
  | H : (_ <? _) = true |- _ => apply Z.ltb_lt in H
  | H : (_ =? _) = true |- _ => apply Z.eqb_eq in H
  end.

Lemma significand_at_spec v e s :
  significand_at v e = Some s -> 0 < s /\ round_mag (s * 10 ^ Z.of_nat e) = v.
Proof.
  unfold significand_at. cbv zeta.
  destruct ((0 <? v / 10 ^ Z.of_nat e) && _) eqn:H1, ((0 <? v / 10 ^ Z.of_nat e + 1) && _) eqn:H2;
    intros Hs; try discriminate Hs; injection Hs as <-; bool_facts;
    repeat (case_match; try done); done.
Qed.

(** The search always ends with a significand of a double [v > 0]. *)
Lemma shortest_spec v e :
  0 < v -> round_mag v = v ->
  0 < fst (shortest v e) /\ round_mag (fst (shortest v e) * 10 ^ Z.of_nat (snd (shortest v e))) = v.
Proof.
  intros Hv Hr. induction e as [|e IH]; cbn [shortest].
  - destruct (significand_at v 0) as [s|] eqn:E; [by apply significand_at_spec|].
    simpl. by rewrite Z.mul_1_r.
  - destruct (significand_at v (S e)) as [s|] eqn:E; [by apply significand_at_spec | done].
Qed.

Lemma div_bounds v p : 0 < p -> v / p * p <= v < (v / p + 1) * p.
Proof. intros Hp. pose proof (Z.div_mod v p ltac:(lia)). pose proof (Z.mod_pos_bound v p Hp). nia. Qed.

(** Up to 2^53 the significand found is the number's own digits: no other
    multiple of [10^e] rounds to it ([2^53 + 1] is odd). *)
Lemma significand_at_exact v e s :
  0 < v <= max_exact -> significand_at v e = Some s -> s * 10 ^ Z.of_nat e = v.
Proof.
  intros Hv. unfold significand_at. cbv zeta.
  set (p := 10 ^ Z.of_nat e). set (q := v / p).
  assert (Hp : 0 < p) by apply pow10_pos. pose proof (div_bounds v p Hp) as Hq. fold q in Hq.
  destruct ((0 <? q) && (round_mag (q * p) =? v)) eqn:H1,
           ((0 <? q + 1) && (round_mag ((q + 1) * p) =? v)) eqn:H2;
    intros Hs; try discriminate Hs; injection Hs as <-; bool_facts.
  - destruct (round_mag_preimage_exact (q * p) v ltac:(nia) ltac:(lia) ltac:(done)) as [E|[_ E]]; [|lia].
    rewrite E, Z.sub_diag. by replace (0 <? (q + 1) * p - v) with true by (symmetry; apply Z.ltb_lt; lia).
  - destruct (round_mag_preimage_exact (q * p) v ltac:(nia) ltac:(lia) ltac:(done)) as [E|[_ E]]; lia.
  - exfalso.
    destruct (round_mag_preimage_exact ((q + 1) * p) v ltac:(nia) ltac:(lia) ltac:(done))
      as [E|[_ E]]; [lia|].
    destruct e as [|e].
    + unfold q, p in H1. simpl in H1. rewrite Z.div_1_r, Z.mul_1_r, round_mag_exact in H1 by lia.
      rewrite (proj2 (Z.ltb_lt 0 v)), Z.eqb_refl in H1 by lia. discriminate H1.
    + unfold p in E. rewrite pow10_succ in E. apply (f_equal (fun z => z mod 2)) in E.
      replace ((q + 1) * (10 * 10 ^ Z.of_nat e)) with (5 * (q + 1) * 10 ^ Z.of_nat e * 2) in E by ring.
      rewrite Z.mod_mul in E by lia. discriminate E.
Qed.

Lemma shortest_exact v e :
  0 < v <= max_exact -> fst (shortest v e) * 10 ^ Z.of_nat (snd (shortest v e)) = v.
Proof.
  intros Hv. induction e as [|e IH]; cbn [shortest].
  - destruct (significand_at v 0) as [s|] eqn:E; [by apply significand_at_exact|]. simpl. lia.
  - destruct (significand_at v (S e)) as [s|] eqn:E; [by apply significand_at_exact | done].
Qed.

(** ** Lemmas on the text *)

Lemma round_double_pos y : 0 <= y -> round_double y = round_mag y.
Proof. intros Hy. rewrite <- (Z.abs_eq y) at 1 by done. rewrite round_double_abs. by rewrite Z.abs_eq. Qed.

Lemma round_double_neg y : 0 <= y -> round_double (- y) = - round_mag y.
Proof.
  intros Hy. unfold round_double. rewrite Z.abs_opp, Z.abs_eq by done.
  destruct (Z.eq_dec y 0) as [->|]; [reflexivity|]. rewrite Z.sgn_neg by lia. lia.
Qed.

Lemma round_mag_ge1 a : 1 <= a -> 1 <= round_mag a.
Proof. intros Ha. pose proof (round_mag_mono 1 a ltac:(lia)). by transitivity (round_mag 1). Qed.

(** The digits of [s], then [e] zeros, when they are at most 21. *)
Lemma format_decimal_plain s e :
  0 < s -> (String.length (unsigned_digits s) + e <= 21)%nat ->
  format_decimal (unsigned_digits s) e = unsigned_digits (s * 10 ^ Z.of_nat e).
Proof.
  intros Hs Hn. unfold format_decimal.
  replace (Z.of_nat (String.length (unsigned_digits s) + e) <=? 21) with true
    by (symmetry; apply Z.leb_le; lia).
  by rewrite unsigned_digits_shift.
Qed.

(** A significand and exponent of a value below [10^m] have at most [m]
    digits in all. *)
Lemma digits_count_le s e m :
  0 < s -> s * 10 ^ Z.of_nat e < 10 ^ Z.of_nat m ->
  (String.length (unsigned_digits s) + e <= m)%nat.
Proof.
  intros Hs Hlt. destruct (unsigned_digits_spec s ltac:(lia)) as (_ & _ & Hl & Hb).
  destruct (Hb Hs) as [Hlo _].
  destruct (Nat.le_gt_cases (String.length (unsigned_digits s) + e) m) as [|Hgt]; [done|].
  assert (10 ^ Z.of_nat m <= 10 ^ (Z.of_nat (String.length (unsigned_digits s)) - 1) * 10 ^ Z.of_nat e).
  { rewrite <- Z.pow_add_r by lia. apply Z.pow_le_mono_r; lia. }
  pose proof (pow10_pos e). nia.
Qed.

(** The sign in front of the digits of [|x|]. *)
Lemma signed_digits x :
  (if x <? 0 then String "-" (unsigned_digits (Z.abs x)) else unsigned_digits (Z.abs x)) = decimal_string x.
Proof.
  destruct (Z.ltb_spec x 0).
  - rewrite decimal_string_neg by done. by rewrite Z.abs_neq by lia.
  - rewrite decimal_string_nonneg by done. by rewrite Z.abs_eq.
Qed.

(** The sign of [number_toString] in front of a text. *)
Definition sgn_str (neg : bool) (t : string) : string := if neg then String "-" t else t.

Lemma parse_signed_digits neg s :
  0 < s -> parse_decimal (sgn_str neg (unsigned_digits s)) = Some (if neg then - s else s).
Proof.
  intros Hs. destruct (unsigned_digits_spec s ltac:(lia)) as (Hr & Hd & Hl & _).
  destruct neg; cbn [sgn_str].
  - rewrite parse_decimal_neg, Hr by done. simpl. f_equal; lia.
  - rewrite parse_decimal_digits, Hr by done. f_equal; lia.
Qed.

Lemma parse_exponent_plus N : 0 <= N -> parse_exponent (String "+" (decimal_string N)) = Some N.
Proof.
  intros HN. destruct (unsigned_digits_spec N HN) as (Hr & _ & Hl & _).
  cbn [parse_exponent]. rewrite Ascii.eqb_refl, decimal_string_nonneg by done.
  unfold parse_unsigned. destruct (unsigned_digits N) eqn:E; [simpl in Hl; lia|].
  rewrite Hr. f_equal; lia.
Qed.

Lemma numeral_no_e s : all_chars is_numeral_char s = true -> all_chars (avoids "e") s = true.
Proof. apply (all_chars_avoids is_numeral_char). reflexivity. Qed.

Lemma sgn_str_numeral neg t :
  all_chars is_numeral_char t = true -> all_chars is_numeral_char (sgn_str neg t) = true.
Proof. destruct neg; [cbn; intros ->; done | done]. Qed.

(** [Number] of a numeral is its rounded value. *)
Lemma to_number_numeral t :
  all_chars is_numeral_char t = true -> to_number t = (v ← parse_decimal t; Some (round_double v)).
Proof.
  intros Ht. unfold to_number.
  rewrite split_first_avoid by apply numeral_no_e, Ht.
  rewrite split_first_avoid by (apply (all_chars_avoids is_numeral_char); [reflexivity | done]).
  cbn [default]. rewrite string_app_nil_r.
  destruct (parse_decimal t) as [v|]; simpl; [|done]. by rewrite Z.mul_1_r.
Qed.

Lemma digit_numeral c : is_digit_char c = true -> is_numeral_char c = true.
Proof. intros Hc. unfold is_numeral_char. by rewrite Hc, orb_true_r. Qed.

(** [Number] of the exponent forms [d e+N] and [d.ddd e+N]. *)
Lemma to_number_exp_nodot neg c N :
  is_digit_char c = true -> 0 <= N ->
  to_number (sgn_str neg (String c ("e+" +:+ decimal_string N))) =
  (v ← parse_decimal (sgn_str neg (String c "")); Some (round_double (v * 10 ^ N))).
Proof.
  intros Hc HN. unfold to_number.
  replace (sgn_str neg (String c ("e+" +:+ decimal_string N))) with
    (sgn_str neg (String c "") +:+ String "e" (String "+" (decimal_string N))) by (destruct neg; reflexivity).
  rewrite split_first_app
    by (apply numeral_no_e, sgn_str_numeral; cbn [all_chars]; by rewrite digit_numeral).
  rewrite (split_first_avoid "." (sgn_str neg (String c "")))
    by (apply (all_chars_avoids is_numeral_char); [reflexivity|]; apply sgn_str_numeral; cbn [all_chars]; by rewrite digit_numeral).
  cbn [default]. rewrite string_app_nil_r, parse_exponent_plus by done.
  destruct (parse_decimal _) as [v|]; simpl; [|done].
  rewrite Z.sub_0_r. by replace (0 <=? N) with true by (symmetry; apply Z.leb_le; lia).
Qed.

Lemma to_number_exp_dot neg c rest N :
  is_digit_char c = true -> all_chars is_digit_char rest = true ->
  Z.of_nat (String.length rest) <= N ->
  to_number (sgn_str neg (String c ("." +:+ rest +:+ "e+" +:+ decimal_string N))) =
  (v ← parse_decimal (sgn_str neg (String c rest));
   Some (round_double (v * 10 ^ (N - Z.of_nat (String.length rest))))).
Proof.
  intros Hc Hr HN. unfold to_number.
  replace (sgn_str neg (String c ("." +:+ rest +:+ "e+" +:+ decimal_string N))) with
    (sgn_str neg (String c ("." +:+ rest)) +:+ String "e" (String "+" (decimal_string N)))
    by (destruct neg; reflexivity).
  assert (Hpre : all_chars is_numeral_char (sgn_str neg (String c "")) = true)
    by (apply sgn_str_numeral; cbn [all_chars]; by rewrite digit_numeral).
  rewrite split_first_app.
  2: { replace (sgn_str neg (String c ("." +:+ rest))) with (sgn_str neg (String c "") +:+ String "." rest)
         by (destruct neg; reflexivity).
       rewrite all_chars_app. apply andb_true_intro. split; [by apply numeral_no_e|].
       cbn [all_chars]. apply andb_true_intro. split; [reflexivity|].
       by apply numeral_no_e, all_digits_numeral. }
  replace (sgn_str neg (String c ("." +:+ rest))) with (sgn_str neg (String c "") +:+ String "." rest)
    by (destruct neg; reflexivity).
  rewrite split_first_app by (apply (all_chars_avoids is_numeral_char); [reflexivity | done]).
  cbn [default id]. rewrite parse_exponent_plus by lia.
  replace (sgn_str neg (String c "") +:+ rest) with (sgn_str neg (String c rest)) by (destruct neg; reflexivity).
  destruct (parse_decimal _) as [v|]; simpl; [|done].
  by replace (0 <=? N - Z.of_nat (String.length rest)) with true by (symmetry; apply Z.leb_le; lia).
Qed.

Lemma round_double_sign x :
  round_double x = if x <? 0 then - round_mag (Z.abs x) else round_mag (Z.abs x).
Proof.
  unfold round_double. destruct (Z.ltb_spec x 0); [rewrite Z.sgn_neg by lia; lia|].
  destruct (Z.eq_dec x 0) as [->|]; [reflexivity|]. rewrite Z.sgn_pos by lia. lia.
Qed.

Lemma round_double_signed (neg : bool) y :
  0 <= y -> round_double (if neg then - y else y) = if neg then - round_mag y else round_mag y.
Proof. intros Hy. destruct neg; [apply round_double_neg | apply round_double_pos]; done. Qed.

Lemma signed_scale (neg : bool) s p :
  0 <= s -> 0 <= p ->
  Some (round_double ((if neg then - s else s) * p)) =
  Some (if neg then - round_mag (s * p) else round_mag (s * p)).
Proof.
  intros Hs Hp. f_equal. destruct neg.
  - by rewrite Z.mul_opp_l, round_double_neg by nia.
  - by rewrite round_double_pos by nia.
Qed.

(** The text of a nonzero [x]: the sign, then the significand [s] of the
    double [v] of [|x|] at exponent [e] in the format of steps 6 to 9. *)
Lemma number_toString_shape x :
  x <> 0 ->
  exists s e, 0 < s /\ round_mag (s * 10 ^ Z.of_nat e) = round_mag (Z.abs x) /\
    number_toString x = sgn_str (x <? 0) (format_decimal (unsigned_digits s) e).
Proof.
  intros Hx. set (v := round_mag (Z.abs x)).
  assert (Hv : 1 <= v) by (apply round_mag_ge1; lia).
  pose proof (shortest_spec v (String.length (decimal_string v)) ltac:(lia)
                (round_mag_idem (Z.abs x) ltac:(lia))) as [Hs Hr].
  unfold number_toString. fold v. replace (v =? 0) with false by (symmetry; apply Z.eqb_neq; lia).
  destruct (shortest v _) as [s e]. cbn [fst snd] in *. rewrite decimal_string_nonneg by lia.
  exists s, e. split; [done|]. split; [done|]. by destruct (x <? 0).
Qed.

Lemma unsigned_digits_head s :
  0 < s -> exists c rest, unsigned_digits s = String c rest /\ is_digit_char c = true /\
    all_chars is_digit_char rest = true.
Proof.
  intros Hs. destruct (unsigned_digits_spec s ltac:(lia)) as (_ & Hd & Hl & _).
  destruct (unsigned_digits s) as [|c rest]; [simpl in Hl; lia|].
  apply andb_true_iff in Hd as [Hc Hr]. eauto.
Qed.

(** [Number] reads back what [number_toString] prints. *)
Lemma to_number_number_toString x : to_number (number_toString x) = Some (round_double x).
Proof.
  destruct (Z.eq_dec x 0) as [->|Hx]; [reflexivity|].
  destruct (number_toString_shape x Hx) as (s & e & Hs & Hr & ->).
  rewrite round_double_sign, <- Hr. pose proof (pow10_pos e) as Hp.
  destruct (unsigned_digits_spec s ltac:(lia)) as (_ & Hd & Hl & _).
  destruct (Nat.le_gt_cases (String.length (unsigned_digits s) + e) 21) as [Hn|Hn].
  - rewrite format_decimal_plain by done.
    destruct (unsigned_digits_spec (s * 10 ^ Z.of_nat e) ltac:(nia)) as (_ & Hd' & _).
    rewrite to_number_numeral by (apply sgn_str_numeral, all_digits_numeral, Hd').
    rewrite parse_signed_digits by nia. simpl. by rewrite round_double_signed by nia.
  - unfold format_decimal.
    replace (Z.of_nat (String.length (unsigned_digits s) + e) <=? 21) with false
      by (symmetry; apply Z.leb_gt; lia).
    destruct (unsigned_digits_head s Hs) as (c & rest & Eds & Hc & Hrest).
    rewrite Eds in Hl |- *. cbn [String.length] in Hl |- *. destruct rest as [|c' rest'].
    + rewrite to_number_exp_nodot by (done || lia). rewrite <- Eds, parse_signed_digits by done.
      simpl. replace (Z.of_nat (S e) - 1) with (Z.of_nat e) by lia. apply signed_scale; lia.
    + rewrite to_number_exp_dot by (done || cbn [String.length]; lia).
      rewrite <- Eds, parse_signed_digits by done. simpl.
      replace (Z.of_nat (S (S (String.length rest' + e))) - 1 - Z.of_nat (S (String.length rest')))
        with (Z.of_nat e) by lia. apply signed_scale; lia.
Qed.

(** Below 10^21 the text is a plain numeral: a sign and digits. *)
Lemma number_toString_plain x :
  round_mag (Z.abs x) < 10 ^ 21 -> all_chars is_numeral_char (number_toString x) = true.
Proof.
  intros Hx. destruct (Z.eq_dec x 0) as [->|Hx0]; [reflexivity|].
  destruct (number_toString_shape x Hx0) as (s & e & Hs & Hr & ->).
  pose proof (pow10_pos e).
  assert (Hlt : s * 10 ^ Z.of_nat e < 10 ^ Z.of_nat 21).
  { destruct (Z.lt_ge_cases (s * 10 ^ Z.of_nat e) (10 ^ Z.of_nat 21)) as [|Hge]; [done|].
    pose proof (round_mag_mono (10 ^ Z.of_nat 21) (s * 10 ^ Z.of_nat e) ltac:(lia)) as Hm.
    replace (round_mag (10 ^ Z.of_nat 21)) with (10 ^ 21) in Hm by reflexivity. lia. }
  rewrite format_decimal_plain by (done || by apply digits_count_le).
  apply sgn_str_numeral, all_digits_numeral, (unsigned_digits_spec (s * 10 ^ Z.of_nat e) ltac:(nia)).
Qed.

Lemma digits_mantissa t : all_chars is_digit_char t = true -> all_chars is_mantissa_char t = true.
Proof.
  apply all_chars_impl. intros d Hd. unfold is_mantissa_char. by rewrite digit_numeral.
Qed.

Lemma sgn_mantissa neg t :
  all_chars is_mantissa_char t = true -> all_chars is_mantissa_char (sgn_str neg t) = true.
Proof. by destruct neg. Qed.

(** From 10^21 on the text is in exponent form [d.ddde+nn]. *)
Lemma number_toString_exponent x :
  10 ^ 21 <= round_mag (Z.abs x) ->
  exists pre post, number_toString x = pre +:+ String "e" (String "+" post) /\
    all_chars is_mantissa_char pre = true /\ all_chars is_digit_char post = true.
Proof.
  intros Hx. assert (Hx0 : x <> 0) by (intros ->; change (round_mag (Z.abs 0)) with 0 in Hx; lia).
  destruct (Z.eq_dec (round_mag (Z.abs x)) (10 ^ 21)) as [E|E].
  { unfold number_toString. rewrite E.
    replace (shortest (10 ^ 21) (String.length (decimal_string (10 ^ 21)))) with (1, 21%nat)
      by (vm_compute; reflexivity).
    change (format_decimal (decimal_string 1) 21) with (String "1" ("e+" +:+ "21")).
    cbn zeta iota. replace (10 ^ 21 =? 0) with false by reflexivity.
    exists (sgn_str (x <? 0) "1"), "21". split; [by destruct (x <? 0)|].
    split; [apply sgn_mantissa; reflexivity | reflexivity]. }
  destruct (number_toString_shape x Hx0) as (s & e & Hs & Hr & ->).
  pose proof (pow10_pos e) as Hp.
  destruct (unsigned_digits_spec s ltac:(lia)) as (_ & Hd & Hl & Hb).
  assert (Hy : 10 ^ Z.of_nat 21 <= s * 10 ^ Z.of_nat e).
  { destruct (Z.lt_ge_cases (s * 10 ^ Z.of_nat e) (10 ^ Z.of_nat 21)) as [Hlt|]; [|done].
    pose proof (round_mag_mono (s * 10 ^ Z.of_nat e) (10 ^ Z.of_nat 21) ltac:(lia)) as Hm.
    replace (round_mag (10 ^ Z.of_nat 21)) with (10 ^ 21) in Hm by reflexivity. lia. }
  assert (Hn : (21 < String.length (unsigned_digits s) + e)%nat).
  { destruct (Nat.le_gt_cases (String.length (unsigned_digits s) + e) 21) as [Hle|]; [|done].
    destruct (Hb Hs) as [_ Hlt].
    assert (10 ^ Z.of_nat (String.length (unsigned_digits s)) * 10 ^ Z.of_nat e <= 10 ^ Z.of_nat 21)
      by (rewrite <- Z.pow_add_r by lia; apply Z.pow_le_mono_r; lia).
    nia. }
  unfold format_decimal.
  replace (Z.of_nat (String.length (unsigned_digits s) + e) <=? 21) with false
    by (symmetry; apply Z.leb_gt; lia).
  destruct (unsigned_digits_head s Hs) as (c & rest & Eds & Hc & Hrest). rewrite Eds in Hn |- *.
  set (N := Z.of_nat (String.length (String c rest) + e) - 1).
  assert (HN : 0 <= N) by lia. rewrite (decimal_string_nonneg N HN).
  destruct (unsigned_digits_spec N HN) as (_ & HdN & _).
  destruct rest as [|c' rest'].
  - exists (sgn_str (x <? 0) (String c "")), (unsigned_digits N).
    split; [by destruct (x <? 0)|]. split; [|done].
    apply sgn_mantissa, digits_mantissa. cbn [all_chars]. by rewrite Hc.
  - exists (sgn_str (x <? 0) (String c ("." +:+ String c' rest'))), (unsigned_digits N).
    split; [destruct (x <? 0); reflexivity|]. split; [|done].
    apply sgn_mantissa.
    change (all_chars is_mantissa_char (String c ("." +:+ String c' rest'))) with
      (is_mantissa_char c && (is_mantissa_char "." && all_chars is_mantissa_char (String c' rest'))).
    unfold is_mantissa_char at 1. by rewrite (digit_numeral c Hc), (digits_mantissa _ Hrest).
Qed.

(** Distinct doubles print distinct texts. *)
Lemma number_toString_inj x y :
  number_toString x = number_toString y -> round_double x = round_double y.
Proof.
  intros E. pose proof (to_number_number_toString x) as Hx.
  rewrite E, to_number_number_toString in Hx. by injection Hx.
Qed.

(** A plain numeral has no letters: searching it for [q] or for [q]
    lowercased gives the same answer. *)
Lemma number_toString_search_lower n q :
  round_mag (Z.abs n) < 10 ^ 21 ->
  includes (number_toString n) q = includes (toLowerCase (number_toString n)) (toLowerCase q).
Proof.
  intros Hn. pose proof (number_toString_plain n Hn) as Hp.
  rewrite (toLowerCase_all_numeral (number_toString n)) by done.
  by apply includes_numeral_lower.
Qed.

(** Up to 2^53 in magnitude, [Number.prototype.toString] prints the
    integer's own decimal digits: the shortest-digits search finds nothing
    shorter. *)
Lemma number_toString_exact x :
  Z.abs x <= max_exact -> number_toString x = decimal_string x.
Proof.
  intros Hx. unfold number_toString. rewrite (round_mag_exact (Z.abs x)) by lia.
  destruct (Z.eqb_spec (Z.abs x) 0) as [E|E]; [by assert (x = 0) as -> by lia|].
  set (e0 := String.length (decimal_string (Z.abs x))).
  pose proof (shortest_exact (Z.abs x) e0 ltac:(lia)) as Hx'.
  pose proof (shortest_spec (Z.abs x) e0 ltac:(lia) ltac:(apply round_mag_exact; lia)) as [Hs _].
  destruct (shortest (Z.abs x) e0) as [s e]. cbn [fst snd] in *.
  rewrite decimal_string_nonneg, format_decimal_plain by (try apply digits_count_le; unfold max_exact in *; lia).
  rewrite Hx'. apply signed_digits.
Qed.

(** Above 2^53 the text is not the exact integer, and from 10^21 on it
    is in exponent form. *)
Example number_toString_examples :
  number_toString (2 ^ 60) = "1152921504606847000" /\
  number_toString (10 ^ 21) = "1e+21" /\
  number_toString (2 ^ 70) = "1.1805916207174113e+21" /\
  number_toString (-120) = "-120".
Proof. vm_compute. repeat split. Qed.

End JsToString.
