(* ===== verification/Json.v ===== *)
(** * JSON values, JavaScript property access, and the [Patient] interface

    [fetchPatients] stores whatever [res.json()] returns (a JSON value) in
    React state without checking it against the TypeScript interface
    [Patient] (PatientRecords.tsx, lines 10-18); the filter and the render
    then read its properties.  This file models
    - the JSON values of [JSON.parse] ([json]; numbers are integers), and
      the conversion of the body's numeric literals to doubles
      ([parse_numbers], by [round_double] of JsNumber.v);
    - JavaScript values reachable from them ([jsval]: a JSON value or
      [undefined]) and the exceptions the code can raise ([js_error]);
    - property access [v.k] ([get_prop]), the method calls
      [v.toLowerCase()] and [v.toString()], and the abstract operation
      [ToString] used by template literals;
    - the interface [Patient] as a record, with the JSON encoding the backend
      sends ([encode_patient]) and the type check it implies
      ([decode_patient]). *)

From stdpp Require Import base list strings.
From Stdlib Require Import ZArith Ascii String.
From S2P Require Import Prelude JsNumber JsString JsToString.
Import JsNumber JsString JsToString.

Local Open Scope stdpp_scope.

Module Json.

(** ** Values *)

#[warnings="-register-all"]
Inductive json : Type :=
| JNull
| JBool (b : bool)
| JNum (n : Z)
| JStr (s : string)
| JArr (l : list json)
| JObj (fields : list (string * json)).

(** A JavaScript value read from a parsed JSON document. *)
Inductive jsval : Type :=
| Undefined
| Val (v : json).

(** The exceptions of the modelled code. *)
Inductive js_error : Type :=
| ReadOfNullish (prop : string)  (** TypeError: Cannot read properties of undefined/null *)
| NotAFunction (meth : string)   (** TypeError: v.meth is not a function *)
| NoPrimitive                    (** TypeError: Cannot convert object to primitive value *)
| InvalidChild.                  (** React: Objects are not valid as a React child *)

Abbreviation throws := (result js_error).

(** ** Property access *)

(** [JSON.parse] keeps the last of duplicate keys. *)
Definition get_field (k : string) (fs : list (string * json)) : jsval :=
  fold_left (fun acc kv => if String.eqb k kv.1 then Val kv.2 else acc) fs Undefined.

(** [v.k] for a key [k] that is not a property of the built-in prototypes
    (all the keys the code reads: [patient_id], [patient_name], ...). *)
Definition get_prop (v : jsval) (k : string) : throws jsval :=
  match v with
  | Undefined | Val JNull => Err (ReadOfNullish k)
  | Val (JObj fs) => Ok (get_field k fs)
  | Val _ => Ok Undefined
  end.

(** [v.toLowerCase()] *)
Definition call_toLowerCase (v : jsval) : throws string :=
  match v with
  | Undefined | Val JNull => Err (ReadOfNullish "toLowerCase")
  | Val (JStr s) => Ok (toLowerCase s)
  | Val _ => Err (NotAFunction "toLowerCase")
  end.

(** An own property of a JSON object shadows a method of
    [Object.prototype]; JSON values are never callable. *)
Definition shadowed (m : string) (fs : list (string * json)) : bool :=
  match get_field m fs with Undefined => false | Val _ => true end.

(** The abstract operation [ToString] on a JSON value; on an array it is
    [Array.prototype.join(",")], which prints [null] elements as "". *)
Fixpoint js_ToString (j : json) : throws string :=
  match j with
  | JNull => Ok "null"
  | JBool b => Ok (if b then "true" else "false")
  | JNum n => Ok (number_toString n)
  | JStr s => Ok s
  | JArr l =>
      (fix join (l : list json) : throws string :=
         match l with
         | [] => Ok ""
         | e :: l' =>
             rbind (match e with JNull => Ok "" | _ => js_ToString e end) (fun s =>
             match l' with
             | [] => Ok s
             | _ => rmap (fun r => s +:+ "," +:+ r) (join l')
             end)
         end) l
  | JObj fs => if shadowed "toString" fs then Err NoPrimitive else Ok "[object Object]"
  end.

(** [v.toString()] *)
Definition call_toString (v : jsval) : throws string :=
  match v with
  | Undefined | Val JNull => Err (ReadOfNullish "toString")
  | Val (JObj fs) => if shadowed "toString" fs then Err (NotAFunction "toString")
                     else Ok "[object Object]"
  | Val j => js_ToString j
  end.

(** A template literal [`...${v}...`] *)
Definition template_ToString (v : jsval) : throws string :=
  match v with
  | Undefined => Ok "undefined"
  | Val j => js_ToString j
  end.

(** ** The interface [Patient] *)

Record Patient : Type := mkPatient {
  patient_id : Z;
  patient_name : string;
  age : Z;
  gender : string;
  diagnosis : string;
  admission_date : string;
  bed_id : option Z
}.

#[global] Instance Patient_eq_dec : EqDecision Patient.
Proof. solve_decision. Defined.

(** The backend's row, as [GET /api/patients] sends it. *)
Definition encode_patient (p : Patient) : json :=
  JObj [("patient_id", JNum (patient_id p));
        ("patient_name", JStr (patient_name p));
        ("age", JNum (age p));
        ("gender", JStr (gender p));
        ("diagnosis", JStr (diagnosis p));
        ("admission_date", JStr (admission_date p));
        ("bed_id", match bed_id p with Some b => JNum b | None => JNull end)].

Definition as_num (v : jsval) : option Z :=
  match v with Val (JNum n) => Some n | _ => None end.
Definition as_str (v : jsval) : option string :=
  match v with Val (JStr s) => Some s | _ => None end.
Definition as_num_or_null (v : jsval) : option (option Z) :=
  match v with Val (JNum n) => Some (Some n) | Val JNull => Some None | _ => None end.

(** The type check the interface states (and the code never performs). *)
Definition decode_patient (j : json) : option Patient :=
  match j with
  | JObj fs =>
      id ← as_num (get_field "patient_id" fs) ;
      nm ← as_str (get_field "patient_name" fs) ;
      ag ← as_num (get_field "age" fs) ;
      gd ← as_str (get_field "gender" fs) ;
      dg ← as_str (get_field "diagnosis" fs) ;
      ad ← as_str (get_field "admission_date" fs) ;
      bd ← as_num_or_null (get_field "bed_id" fs) ;
      Some (mkPatient id nm ag gd dg ad bd)
  | _ => None
  end.

Definition encode_patients (ps : list Patient) : json := JArr (map encode_patient ps).

Definition decode_patients (j : json) : option (list Patient) :=
  match j with
  | JArr l => mapM decode_patient l
  | _ => None
  end.

(** ** The numbers [res.json()] reads *)

(** [JSON.parse] turns each numeric literal of the body into the nearest
    double (line 29); the rest of the value is kept as written. *)
Fixpoint parse_numbers (j : json) : json :=
  match j with
  | JNum n => JNum (round_double n)
  | JArr l => JArr (map parse_numbers l)
  | JObj fs => JObj (map (fun kv => (kv.1, parse_numbers kv.2)) fs)
  | _ => j
  end.

(** The record the page reads from a row of the backend. *)
Definition round_patient (p : Patient) : Patient :=
  mkPatient (round_double (patient_id p)) (patient_name p) (round_double (age p))
    (gender p) (diagnosis p) (admission_date p) (round_double <$> bed_id p).

(** A record whose numbers [JSON.parse] reads exactly. *)
Definition safe_int (n : Z) : bool := (Z.abs n <=? max_exact)%Z.

Definition safe_patient (p : Patient) : bool :=
  safe_int (patient_id p) && safe_int (age p) &&
  match bed_id p with Some b => safe_int b | None => true end.

(** ** Lemmas *)

Section PatientFields.
Variable p : Patient.

Lemma get_prop_patient_id :
  get_prop (Val (encode_patient p)) "patient_id" = Ok (Val (JNum (patient_id p))).
Proof. reflexivity. Qed.

Lemma get_prop_patient_name :
  get_prop (Val (encode_patient p)) "patient_name" = Ok (Val (JStr (patient_name p))).
Proof. reflexivity. Qed.

Lemma get_prop_diagnosis :
  get_prop (Val (encode_patient p)) "diagnosis" = Ok (Val (JStr (diagnosis p))).
Proof. reflexivity. Qed.

Lemma get_prop_gender :
  get_prop (Val (encode_patient p)) "gender" = Ok (Val (JStr (gender p))).
Proof. reflexivity. Qed.

Lemma get_prop_age :
  get_prop (Val (encode_patient p)) "age" = Ok (Val (JNum (age p))).
Proof. reflexivity. Qed.

Lemma get_prop_admission_date :
  get_prop (Val (encode_patient p)) "admission_date" = Ok (Val (JStr (admission_date p))).
Proof. reflexivity. Qed.

Lemma get_prop_bed_id :
  get_prop (Val (encode_patient p)) "bed_id" =
  Ok (Val (match bed_id p with Some b => JNum b | None => JNull end)).
Proof. reflexivity. Qed.
End PatientFields.

#[export] Hint Rewrite get_prop_patient_id get_prop_patient_name get_prop_diagnosis
  get_prop_gender get_prop_age get_prop_admission_date get_prop_bed_id : dd_rw.

Lemma call_toString_num n : call_toString (Val (JNum n)) = Ok (number_toString n).
Proof. reflexivity. Qed.

Lemma call_toLowerCase_str s : call_toLowerCase (Val (JStr s)) = Ok (toLowerCase s).
Proof. reflexivity. Qed.

#[export] Hint Rewrite call_toString_num call_toLowerCase_str : dd_rw.

Lemma decode_encode p : decode_patient (encode_patient p) = Some p.
Proof. by destruct p as [? ? ? ? ? ? [b|]]. Qed.

Lemma decode_encode_patients ps : decode_patients (encode_patients ps) = Some ps.
Proof.
  unfold decode_patients, encode_patients.
  induction ps as [|p ps IH]; [done|]. cbn [map mapM].
  by rewrite decode_encode, IH.
Qed.

Lemma parse_encode_patient p :
  parse_numbers (encode_patient p) = encode_patient (round_patient p).
Proof. by destruct p as [? ? ? ? ? ? [b|]]. Qed.

Lemma parse_encode_patients ps :
  parse_numbers (encode_patients ps) = encode_patients (map round_patient ps).
Proof.
  unfold encode_patients. cbn [parse_numbers]. f_equal. rewrite !map_map.
  apply map_ext, parse_encode_patient.
Qed.

Lemma safe_int_exact n : safe_int n = true -> round_double n = n.
Proof. intros H. apply round_double_exact_le. by apply Z.leb_le. Qed.

Lemma round_patient_safe p : safe_patient p = true -> round_patient p = p.
Proof.
  destruct p as [i nm a g d ad [b|]]; unfold safe_patient, round_patient; simpl;
    rewrite ?andb_true_iff; intros H; decompose [and] H; by rewrite !safe_int_exact.
Qed.

Lemma encode_patient_inj : Inj (=) (=) encode_patient.
Proof.
  intros p q H. apply (f_equal decode_patient) in H.
  rewrite !decode_encode in H. by injection H.
Qed.

Lemma as_num_Some v n : as_num v = Some n -> v = Val (JNum n).
Proof. destruct v as [|[]]; simpl; intros H; congruence. Qed.

Lemma as_str_Some v s : as_str v = Some s -> v = Val (JStr s).
Proof. destruct v as [|[]]; simpl; intros H; congruence. Qed.

Lemma as_num_or_null_Some v b :
  as_num_or_null v = Some b -> v = Val (match b with Some n => JNum n | None => JNull end).
Proof. destruct v as [|[]]; simpl; intros H; try discriminate; by injection H as <-. Qed.

(** What the type check establishes: an object whose seven fields have the
    declared types (in any order, with any further fields). *)
Lemma decode_patient_fields j p :
  decode_patient j = Some p ->
  exists fs, j = JObj fs /\
    get_field "patient_id" fs = Val (JNum (patient_id p)) /\
    get_field "patient_name" fs = Val (JStr (patient_name p)) /\
    get_field "age" fs = Val (JNum (age p)) /\
    get_field "gender" fs = Val (JStr (gender p)) /\
    get_field "diagnosis" fs = Val (JStr (diagnosis p)) /\
    get_field "admission_date" fs = Val (JStr (admission_date p)) /\
    get_field "bed_id" fs = Val (match bed_id p with Some b => JNum b | None => JNull end).
Proof.
  destruct j as [| | | | |fs]; simpl; try discriminate.
  destruct (as_num (get_field "patient_id" fs)) eqn:E1; simpl; [|discriminate].
  destruct (as_str (get_field "patient_name" fs)) eqn:E2; simpl; [|discriminate].
  destruct (as_num (get_field "age" fs)) eqn:E3; simpl; [|discriminate].
  destruct (as_str (get_field "gender" fs)) eqn:E4; simpl; [|discriminate].
  destruct (as_str (get_field "diagnosis" fs)) eqn:E5; simpl; [|discriminate].
  destruct (as_str (get_field "admission_date" fs)) eqn:E6; simpl; [|discriminate].
  destruct (as_num_or_null (get_field "bed_id" fs)) eqn:E7; simpl; [|discriminate].
  intros [= <-]. exists fs. simpl.
  apply as_num_Some in E1, E3. apply as_str_Some in E2, E4, E5, E6.
  apply as_num_or_null_Some in E7. auto 10.
Qed.

Lemma decode_patients_cons e l ps :
  decode_patients (JArr (e :: l)) = Some ps ->
  exists p ps', ps = p :: ps' /\ decode_patient e = Some p /\ decode_patients (JArr l) = Some ps'.
Proof.
  simpl. destruct (decode_patient e) as [p|]; simpl; [|discriminate].
  destruct (mapM decode_patient l) as [ps'|] eqn:E; simpl; [|discriminate].
  intros [= <-]. eauto.
Qed.

Lemma decode_patients_array j ps : decode_patients j = Some ps -> exists l, j = JArr l.
Proof. destruct j; simpl; try discriminate. eauto. Qed.

(** ** Properties *)

(** Round trip over the wire: a row the backend
    sends for a record whose numbers are integers of magnitude at most 2^53
    reaches the page as that record: [res.json()] reads its numbers exactly,
    and the parsed row passes the type check of [Patient] and decodes back
    to the record. *)
Lemma wire_patient_roundtrip p :
  safe_patient p = true -> decode_patient (parse_numbers (encode_patient p)) = Some p.
Proof. intros H. by rewrite parse_encode_patient, decode_encode, round_patient_safe. Qed.

(** Beyond 2^53 the page cannot tell rows apart: the rows with ids 2^53 and
    2^53 + 1 of an otherwise equal record reach it as the same record. *)
Example wire_ids_collide :
  decode_patient (parse_numbers (encode_patient
    (mkPatient (max_exact + 1) "Asha Rao" 34 "F" "Pneumonia" "2025-01-02" None))) =
  decode_patient (parse_numbers (encode_patient
    (mkPatient max_exact "Asha Rao" 34 "F" "Pneumonia" "2025-01-02" None))).
Proof. vm_compute. reflexivity. Qed.

End Json.
