(* ===== verification/JsDate.v ===== *)
(** * JavaScript dates: the "Admitted" line of a card

    Each card shows [new Date(patient.admission_date).toLocaleDateString()]
    (PatientRecords.tsx, line 147).  This file models that expression:
    - the proleptic Gregorian calendar of ECMAScript (ECMA-262, 21.4.1):
      [day_from_year] ([DayFromYear]), [year_from_day] ([YearFromTime]:
      the largest year whose first day is not after the given day, computed
      from an estimate at most one year off), [month_from_day]
      ([MonthFromTime]), and [days_from_civil] ([MakeDay]) and
      [civil_from_days] (year, month and [DateFromTime]) on day numbers
      from 1970-01-01;
    - [parse_iso] and [date_parse], [Date.parse] on the Date Time String
      Format (ECMA-262, 21.4.1.32): [YYYY], [YYYY-MM] or [YYYY-MM-DD],
      optionally followed by [THH:mm], [THH:mm:ss] or [THH:mm:ss.sss] and an
      offset [Z], [+HH:mm] or [-HH:mm]; [time_of_form] reads a date-only
      form as UTC and a date-time form without offset as local time;
    - [new_Date], the time value [new Date(v)] gives for each kind of
      JSON value;
    - [toLocaleDateString] at a host whose local time is [off] minutes east
      of UTC, in the [en-US] format [M/D/YYYY].
    Expanded years ([+YYYYYY]), strings outside the format and illegal
    element values (read by engine-specific heuristics: V8 reads
    [2025-02-30] as 2 March), locales other than [en-US], years before 1
    (printed with an era) and daylight-saving changes of the offset are
    outside the model ([OutsideModel]).  The theorems: the calendar
    conversions are inverse bijections ([calendar_roundtrip]); a date-only
    admission date prints the day before west of UTC
    ([admitted_date_shift]); a local date-time prints the written date in
    every zone ([local_datetime_no_shift]). *)

From stdpp Require Import base list strings.
From Stdlib Require Import ZArith Ascii String Lia.
From S2P Require Import Prelude JsString JsToString Json.
Import JsString JsToString Json.

Local Open Scope Z_scope.

Module JsDate.

(** ** The calendar (ECMA-262, 21.4.1) *)

Definition ms_per_day : Z := 86400000.

(** [DaysInYear]: 366 in the years divisible by 4, except the centuries not
    divisible by 400. *)
Definition is_leap (y : Z) : bool :=
  (Z.eqb (y mod 4) 0 && negb (Z.eqb (y mod 100) 0)) || Z.eqb (y mod 400) 0.

(** [InLeapYear]. *)
Definition leap_of (y : Z) : Z := if is_leap y then 1 else 0.

(** [DayFromYear]: the day number of the first day of year [y]. *)
Definition day_from_year (y : Z) : Z :=
  365 * (y - 1970) + (y - 1969) / 4 - (y - 1901) / 100 + (y - 1601) / 400.

(** The day within the year on which month [m] (1 to 12) starts, in a year
    with [l] leap days: the thresholds of [MonthFromTime]. *)
Definition month_start (m l : Z) : Z :=
  if m =? 1 then 0 else if m =? 2 then 31 else if m =? 3 then 59 + l
  else if m =? 4 then 90 + l else if m =? 5 then 120 + l else if m =? 6 then 151 + l
  else if m =? 7 then 181 + l else if m =? 8 then 212 + l else if m =? 9 then 243 + l
  else if m =? 10 then 273 + l else if m =? 11 then 304 + l else 334 + l.

(** [MonthFromTime], on the day within the year. *)
Definition month_from_day (doy l : Z) : Z :=
  if doy <? 31 then 1 else if doy <? 59 + l then 2 else if doy <? 90 + l then 3
  else if doy <? 120 + l then 4 else if doy <? 151 + l then 5 else if doy <? 181 + l then 6
  else if doy <? 212 + l then 7 else if doy <? 243 + l then 8 else if doy <? 273 + l then 9
  else if doy <? 304 + l then 10 else if doy <? 334 + l then 11 else 12.

(** The length of month [m] in a year with [l] leap days. *)
Definition month_length (m l : Z) : Z :=
  if m =? 2 then 28 + l
  else if (m =? 4) || (m =? 6) || (m =? 9) || (m =? 11) then 30
  else 31.

(** [DaysInMonth], as [MonthFromTime]'s thresholds imply. *)
Definition days_in_month (y m : Z) : Z := month_length m (leap_of y).

(** A date of the calendar: a month 1 to 12 and a day of that month. *)
Definition valid_date (y m d : Z) : bool :=
  (1 <=? m) && (m <=? 12) && (1 <=? d) && (d <=? days_in_month y m).

(** [YearFromTime], on day numbers: the largest [y] whose first day is at
    most [z], found from the estimate [1970 + 400 z / 146097], which is at
    most one year off. *)
Definition year_from_day (z : Z) : Z :=
  let y0 := 1970 + 400 * z / 146097 in
  if day_from_year (y0 + 1) <=? z then y0 + 1
  else if day_from_year y0 <=? z then y0 else y0 - 1.

(** [MakeDay(y, m - 1, d)]. *)
Definition days_from_civil (y m d : Z) : Z :=
  day_from_year y + month_start m (leap_of y) + d - 1.

(** [YearFromTime], [MonthFromTime] and [DateFromTime] of the day [z]. *)
Definition civil_from_days (z : Z) : Z * Z * Z :=
  let y := year_from_day z in
  let doy := z - day_from_year y in
  let m := month_from_day doy (leap_of y) in
  (y, m, doy - month_start m (leap_of y) + 1).

(** ** [Date.parse] on the Date Time String Format (ECMA-262, 21.4.1.32) *)

(** Two decimal digits ([digit] is that of JsToString.v). *)
Definition number2 (a b : ascii) : option Z :=
  x ← digit a; y ← digit b; Some (10 * x + y).

(** Two, three and four decimal digits at the start of a string. *)
Definition take2 (s : string) : option (Z * string) :=
  match s with
  | String a (String b r) => n ← number2 a b; Some (n, r)
  | _ => None
  end.

Definition take3 (s : string) : option (Z * string) :=
  match s with
  | String a r => x ← digit a; '(n, r) ← take2 r; Some (100 * x + n, r)
  | _ => None
  end.

Definition take4 (s : string) : option (Z * string) :=
  '(hi, r) ← take2 s; '(lo, r) ← take2 r; Some (100 * hi + lo, r).

(** The character [c], then the rest. *)
Definition expect (c : ascii) (s : string) : option string :=
  match s with
  | String c' r => if Ascii.eqb c c' then Some r else None
  | EmptyString => None
  end.

(** A string of the format: [YYYY], [YYYY-MM] or [YYYY-MM-DD], then
    optionally [THH:mm], [THH:mm:ss] or [THH:mm:ss.sss] with an optional
    offset [Z] or [+HH:mm] / [-HH:mm] (in minutes east of UTC).  The absent
    month and day are 1, the absent seconds and milliseconds 0. *)
Inductive iso_form : Type :=
| IsoForm (y m d : Z) (time : option (Z * Z * Z * Z)) (offset : option Z).

Definition date_fields (s : string) : option (Z * Z * Z * string) :=
  '(y, r) ← take4 s;
  match expect "-" r with
  | Some r =>
      '(m, r) ← take2 r;
      match expect "-" r with
      | Some r => '(d, r) ← take2 r; Some (y, m, d, r)
      | None => Some (y, m, 1, r)
      end
  | None => Some (y, 1, 1, r)
  end.

Definition time_fields (s : string) : option (Z * Z * Z * Z * string) :=
  '(h, r) ← take2 s; r ← expect ":" r; '(mi, r) ← take2 r;
  match expect ":" r with
  | Some r =>
      '(sec, r) ← take2 r;
      match expect "." r with
      | Some r => '(ms, r) ← take3 r; Some (h, mi, sec, ms, r)
      | None => Some (h, mi, sec, 0, r)
      end
  | None => Some (h, mi, 0, 0, r)
  end.

(** The offset, which ends the string: [None] when there is none. *)
Definition offset_field (s : string) : option (option Z) :=
  match s with
  | EmptyString => Some None
  | String c r =>
      if Ascii.eqb c "Z" then (if String.eqb r "" then Some (Some 0) else None)
      else
        sign ← (if Ascii.eqb c "+" then Some 1 else if Ascii.eqb c "-" then Some (-1) else None);
        '(hh, r) ← take2 r; r ← expect ":" r; '(mm, r) ← take2 r;
        if String.eqb r "" && (hh <? 24) && (mm <? 60) then Some (Some (sign * (60 * hh + mm)))
        else None
  end.

Definition iso_syntax (s : string) : option iso_form :=
  '(y, m, d, r) ← date_fields s;
  match r with
  | EmptyString => Some (IsoForm y m d None None)
  | String c r =>
      if Ascii.eqb c "T" then
        '(h, mi, sec, ms, r) ← time_fields r; o ← offset_field r;
        Some (IsoForm y m d (Some (h, mi, sec, ms)) o)
      else None
  end.

(** The element values are legal: a valid date, and a time of day from
    [00:00] to [24:00], where [24] is allowed only as [24:00:00.000]. *)
Definition form_valid (f : iso_form) : bool :=
  let 'IsoForm y m d tm _ := f in
  valid_date y m d &&
  match tm with
  | None => true
  | Some (h, mi, sec, ms) =>
      ((h <? 24) && (mi <? 60) && (sec <? 60)) ||
      ((h =? 24) && (mi =? 0) && (sec =? 0) && (ms =? 0))
  end.

(** A string of the format with legal values.  A string outside the format
    is read by implementation-specific heuristics, and engines differ on
    illegal values (V8 reads [2025-02-30] as 2 March): both are left out
    of the model ([None]). *)
Definition parse_iso (s : string) : option iso_form :=
  f ← iso_syntax s; if form_valid f then Some f else None.

(** The time value of a form at a host [off] minutes east of UTC: a
    date-only form is UTC, a date-time form without offset is local time. *)
Definition time_of_form (off : Z) (f : iso_form) : Z :=
  let 'IsoForm y m d tm o := f in
  let day := days_from_civil y m d * ms_per_day in
  match tm with
  | None => day
  | Some (h, mi, sec, ms) => day + ((h * 60 + mi) * 60 + sec) * 1000 + ms - default off o * 60000
  end.

(** [Date.parse(s)] at a host [off] minutes east of UTC. *)
Definition date_parse (off : Z) (s : string) : option Z :=
  f ← parse_iso s; Some (time_of_form off f).

(** ** [new Date(v)] and [toLocaleDateString()] *)

(** The outcome of [new Date(v)]: a time value, [NaN], or a value the
    model does not determine. *)
Inductive time_value : Type :=
| Time (t : Z)
| TimeNaN
| TimeOutside.

Definition max_time : Z := 8640000000000000.

(** [TimeClip] of an integral number of milliseconds. *)
Definition time_clip (n : Z) : time_value :=
  if Z.abs n <=? max_time then Time n else TimeNaN.

(** [new Date(v)] with one argument: a string is parsed, anything else is
    converted with [ToNumber] ([null] is 0, [undefined] is [NaN]); an
    object is first converted to a string, which is parsed. *)
Definition new_Date (off : Z) (v : jsval) : time_value :=
  match v with
  | Undefined => TimeNaN
  | Val JNull => Time 0
  | Val (JBool b) => Time (if b then 1 else 0)
  | Val (JNum n) => time_clip n
  | Val (JStr s) => match date_parse off s with Some t => Time t | None => TimeOutside end
  | Val (JArr _) | Val (JObj _) => TimeOutside
  end.

(** The calendar date at time [t] in a zone [off] minutes east of UTC. *)
Definition local_date (off t : Z) : Z * Z * Z :=
  civil_from_days ((t + off * 60000) / ms_per_day).

Inductive date_text : Type :=
| Shown (s : string)
| InvalidDate
| OutsideModel.

Definition format_en_US (ymd : Z * Z * Z) : date_text :=
  let '(y, m, d) := ymd in
  if 1 <=? y then
    Shown (number_toString m +:+ "/" +:+ number_toString d +:+ "/" +:+ number_toString y)
  else OutsideModel.

(** [new Date(v).toLocaleDateString()] in [en-US] at offset [off]. *)
Definition toLocaleDateString (off : Z) (v : jsval) : date_text :=
  match new_Date off v with
  | Time t => format_en_US (local_date off t)
  | TimeNaN => InvalidDate
  | TimeOutside => OutsideModel
  end.

(** ** Lemmas: the years *)

(** The quotient and remainder of [a] by the constant [n], for [lia]. *)
Ltac div_facts a n :=
  pose proof (Z.div_mod a n ltac:(lia)); pose proof (Z.mod_pos_bound a n ltac:(lia)).

Lemma div_succ a n :
  0 < n -> (a + 1) / n = a / n + (if (a + 1) mod n =? 0 then 1 else 0).
Proof.
  intros Hn. pose proof (Z.div_mod a n ltac:(lia)). pose proof (Z.mod_pos_bound a n Hn).
  pose proof (Z.div_mod (a + 1) n ltac:(lia)). pose proof (Z.mod_pos_bound (a + 1) n Hn).
  destruct (Z.eqb_spec ((a + 1) mod n) 0); nia.
Qed.

Lemma leap_of_range y : 0 <= leap_of y <= 1.
Proof. unfold leap_of. destruct (is_leap y); lia. Qed.

(** Consecutive years start [DaysInYear] apart. *)
Lemma day_from_year_succ y : day_from_year (y + 1) = day_from_year y + 365 + leap_of y.
Proof.
  unfold day_from_year, leap_of, is_leap.
  replace (y + 1 - 1969) with (y - 1969 + 1) by lia.
  replace (y + 1 - 1901) with (y - 1901 + 1) by lia.
  replace (y + 1 - 1601) with (y - 1601 + 1) by lia.
  rewrite !div_succ by lia.
  div_facts (y - 1969 + 1) 4. div_facts (y - 1901 + 1) 100. div_facts (y - 1601 + 1) 400.
  div_facts y 4. div_facts y 100. div_facts y 400.
  repeat match goal with |- context [Z.eqb ?a ?b] => destruct (Z.eqb_spec a b) end;
    cbn [negb andb orb]; lia.
Qed.

Lemma day_from_year_mono a n :
  day_from_year a + 365 * Z.of_nat n <= day_from_year (a + Z.of_nat n).
Proof.
  induction n as [|n IH]; [rewrite Nat2Z.inj_0, Z.mul_0_r, !Z.add_0_r; lia|].
  rewrite Nat2Z.inj_succ. replace (a + Z.succ (Z.of_nat n)) with (a + Z.of_nat n + 1) by lia.
  rewrite day_from_year_succ. pose proof (leap_of_range (a + Z.of_nat n)). lia.
Qed.

Lemma day_from_year_le a b : a < b -> day_from_year (a + 1) <= day_from_year b.
Proof.
  intros H. pose proof (day_from_year_mono (a + 1) (Z.to_nat (b - (a + 1)))) as M.
  rewrite Z2Nat.id in M by lia. replace (a + 1 + (b - (a + 1))) with b in M by lia. lia.
Qed.

(** The estimate of [year_from_day] is at most one year off. *)
Lemma year_estimate z :
  let y0 := 1970 + 400 * z / 146097 in
  day_from_year (y0 - 1) <= z < day_from_year (y0 + 2).
Proof.
  cbv zeta. unfold day_from_year.
  div_facts (400 * z) 146097. set (q := 400 * z / 146097) in *.
  replace (1970 + q - 1 - 1969) with q by lia.
  replace (1970 + q - 1 - 1901) with (q + 68) by lia.
  replace (1970 + q - 1 - 1601) with (q + 368) by lia.
  replace (1970 + q + 2 - 1969) with (q + 3) by lia.
  replace (1970 + q + 2 - 1901) with (q + 71) by lia.
  replace (1970 + q + 2 - 1601) with (q + 371) by lia.
  div_facts q 4. div_facts (q + 68) 100. div_facts (q + 368) 400.
  div_facts (q + 3) 4. div_facts (q + 71) 100. div_facts (q + 371) 400.
  lia.
Qed.

(** [year_from_day z] is the largest year whose first day is at most [z]. *)
Lemma year_from_day_spec z :
  day_from_year (year_from_day z) <= z < day_from_year (year_from_day z + 1).
Proof.
  pose proof (year_estimate z) as E. cbv zeta in E. unfold year_from_day. cbv zeta.
  set (y0 := 1970 + 400 * z / 146097) in *.
  destruct (Z.leb_spec (day_from_year (y0 + 1)) z).
  - split; [done|]. replace (y0 + 1 + 1) with (y0 + 2) by lia. lia.
  - destruct (Z.leb_spec (day_from_year y0) z); [lia|].
    replace (y0 - 1 + 1) with y0 by lia. lia.
Qed.

Lemma year_from_day_unique y z :
  day_from_year y <= z < day_from_year (y + 1) -> year_from_day z = y.
Proof.
  intros Hy. pose proof (year_from_day_spec z) as Hs.
  destruct (Z.lt_trichotomy (year_from_day z) y) as [H|[H|H]]; [|done|].
  - pose proof (day_from_year_le _ _ H). lia.
  - pose proof (day_from_year_le _ _ H). lia.
Qed.

(** ** Lemmas: the months, checked by evaluation *)

(** [p] holds at [lo], [lo + 1], ..., [lo + n - 1]. *)
Fixpoint forall_range (n : nat) (lo : Z) (p : Z -> bool) : bool :=
  match n with
  | O => true
  | S n' => if p lo then forall_range n' (lo + 1) p else false
  end.

Lemma forall_range_spec n lo p :
  forall_range n lo p = true -> forall x, lo <= x < lo + Z.of_nat n -> p x = true.
Proof.
  revert lo. induction n as [|n IH]; intros lo H x Hx; simpl in *; [lia|].
  destruct (p lo) eqn:E; [|discriminate].
  destruct (Z.eq_dec x lo) as [->|Hne]; [done|]. apply (IH (lo + 1)); [done | lia].
Qed.

(** The date within the year [doy] of a year with [l] leap days is a day of
    a month of that year. *)
Definition doy_ok (l doy : Z) : bool :=
  let m := month_from_day doy l in
  let d := doy - month_start m l + 1 in
  (1 <=? m) && (m <=? 12) && (1 <=? d) && (d <=? month_length m l).

(** Day [d] of month [m] falls within the year and in month [m]. *)
Definition md_ok (l m d : Z) : bool :=
  let doy := month_start m l + d - 1 in
  (0 <=? doy) && (doy <? 365 + l) && (month_from_day doy l =? m).

Lemma month_table_ok :
  forall_range 2 0 (fun l => forall_range 366 0 (fun doy => negb (doy <? 365 + l) || doy_ok l doy))
  = true.
Proof. vm_compute. reflexivity. Qed.

Lemma date_table_ok :
  forall_range 2 0 (fun l => forall_range 12 1 (fun m =>
    forall_range 31 1 (fun d => negb (d <=? month_length m l) || md_ok l m d))) = true.
Proof. vm_compute. reflexivity. Qed.

Lemma month_length_le m l : l <= 1 -> month_length m l <= 31.
Proof. unfold month_length. intros. repeat case_match; lia. Qed.

(** Every day number is the day number of its date, which is valid. *)
Lemma civil_from_days_ok z :
  let '(y, m, d) := civil_from_days z in valid_date y m d = true /\ days_from_civil y m d = z.
Proof.
  unfold civil_from_days, valid_date, days_in_month, days_from_civil. cbv zeta.
  pose proof (year_from_day_spec z) as Hs. rewrite day_from_year_succ in Hs.
  pose proof (leap_of_range (year_from_day z)) as Hl.
  pose proof (forall_range_spec _ _ _ month_table_ok (leap_of (year_from_day z))
                ltac:(simpl; lia)) as H1.
  pose proof (forall_range_spec _ _ _ H1 (z - day_from_year (year_from_day z))
                ltac:(simpl; lia)) as H2.
  cbv beta in H2. apply orb_prop in H2 as [H2|H2]; [apply negb_true_iff, Z.ltb_ge in H2; lia|].
  unfold doy_ok in H2. cbv zeta in H2. split; [exact H2 | lia].
Qed.

(** Every valid date is the date of its day number. *)
Lemma days_from_civil_ok y m d :
  valid_date y m d = true -> civil_from_days (days_from_civil y m d) = (y, m, d).
Proof.
  unfold valid_date, days_in_month. rewrite !andb_true_iff, !Z.leb_le. intros [[[Hm1 Hm2] Hd1] Hd2].
  pose proof (leap_of_range y) as Hl.
  pose proof (month_length_le m (leap_of y) ltac:(lia)).
  pose proof (forall_range_spec _ _ _ date_table_ok (leap_of y) ltac:(simpl; lia)) as H1.
  pose proof (forall_range_spec _ _ _ H1 m ltac:(simpl; lia)) as H2.
  pose proof (forall_range_spec _ _ _ H2 d ltac:(simpl; lia)) as H3.
  cbv beta in H3. apply orb_prop in H3 as [H3|H3]; [apply negb_true_iff, Z.leb_gt in H3; lia|].
  unfold md_ok in H3. cbv zeta in H3. rewrite !andb_true_iff, Z.leb_le, Z.ltb_lt, Z.eqb_eq in H3.
  destruct H3 as [[Hd0 Hdy] Hmd].
  unfold civil_from_days, days_from_civil. cbv zeta.
  rewrite (year_from_day_unique y); [|rewrite day_from_year_succ; lia].
  replace (day_from_year y + month_start m (leap_of y) + d - 1 - day_from_year y)
    with (month_start m (leap_of y) + d - 1) by lia.
  rewrite Hmd. f_equal. lia.
Qed.

(** ** Lemmas: the date a card shows *)

(** The fields of the format are read from decimal digits. *)
Lemma take2_range s n r : take2 s = Some (n, r) -> 0 <= n <= 99.
Proof.
  destruct s as [|a [|b r']]; try discriminate. cbn [take2]. unfold number2.
  intros (n' & Hn & [= <- _])%bind_Some.
  apply bind_Some in Hn as (x & Hx & Hn). apply bind_Some in Hn as (y & Hy & [= <-]).
  apply digit_range in Hx, Hy. lia.
Qed.

Lemma take3_range s n r : take3 s = Some (n, r) -> 0 <= n <= 999.
Proof.
  destruct s as [|a r']; [discriminate|]. cbn [take3].
  intros (x & Hx & H)%bind_Some. apply bind_Some in H as ([n' r''] & Hn & [= <- _]).
  apply digit_range in Hx. apply take2_range in Hn. lia.
Qed.

Ltac split_pairs := repeat match goal with p : _ * _ |- _ => destruct p end.

(** Peel the [option] binds of a parser's hypothesis [H]. *)
Ltac peel H :=
  repeat (apply bind_Some in H as (?x & ?Hx & H); split_pairs; cbn beta iota in H).

Lemma time_fields_range s h mi sec ms r :
  time_fields s = Some (h, mi, sec, ms, r) -> 0 <= h /\ 0 <= mi /\ 0 <= sec /\ 0 <= ms <= 999.
Proof.
  unfold time_fields. intros H. peel H.
  repeat match goal with Hx : take2 _ = Some _ |- _ => apply take2_range in Hx end.
  destruct (expect ":" _) in H; [peel H|]; [destruct (expect "." _) in H; [peel H|]|];
    simplify_eq; try (apply take2_range in Hx2); try (apply take3_range in Hx3); lia.
Qed.

Lemma parse_iso_form s f : parse_iso s = Some f -> iso_syntax s = Some f /\ form_valid f = true.
Proof.
  unfold parse_iso. intros (f' & Hs & H)%bind_Some.
  destruct (form_valid f') eqn:Hv; [|discriminate]. by injection H as <-.
Qed.

(** [Date.parse] accepts only valid dates. *)
Lemma parse_iso_valid s y m d tm o :
  parse_iso s = Some (IsoForm y m d tm o) -> valid_date y m d = true.
Proof. intros [_ Hv]%parse_iso_form. cbn [form_valid] in Hv. by apply andb_true_iff in Hv as [? _]. Qed.

Lemma iso_syntax_time s y m d h mi sec ms o :
  iso_syntax s = Some (IsoForm y m d (Some (h, mi, sec, ms)) o) ->
  0 <= h /\ 0 <= mi /\ 0 <= sec /\ 0 <= ms <= 999.
Proof.
  unfold iso_syntax. intros H. peel H. destruct s0 as [|c r]; [discriminate|].
  destruct (Ascii.eqb c "T"); [|discriminate]. peel H. simplify_eq.
  by eapply time_fields_range.
Qed.

(** A legal time of day is less than a day, or exactly one at [24:00]. *)
Lemma time_of_day_div h mi sec ms :
  0 <= h -> 0 <= mi -> 0 <= sec -> 0 <= ms <= 999 ->
  ((h <? 24) && (mi <? 60) && (sec <? 60)) || ((h =? 24) && (mi =? 0) && (sec =? 0) && (ms =? 0)) = true ->
  (((h * 60 + mi) * 60 + sec) * 1000 + ms) / ms_per_day = if h =? 24 then 1 else 0.
Proof.
  intros ? ? ? ? Ht. rewrite orb_true_iff, !andb_true_iff, !Z.ltb_lt, !Z.eqb_eq in Ht.
  unfold ms_per_day. destruct (Z.eqb_spec h 24) as [->|].
  - destruct Ht as [? | [[[_ ->] ->] ->]]; [lia | reflexivity].
  - apply Z.div_small. lia.
Qed.

Lemma date_only_new_Date off s y m d :
  parse_iso s = Some (IsoForm y m d None None) ->
  new_Date off (Val (JStr s)) = Time (days_from_civil y m d * ms_per_day).
Proof. intros H. unfold new_Date, date_parse. by rewrite H. Qed.

(** Midnight UTC of day [D] falls on day [D] east of UTC and on day [D - 1]
    west of it. *)
Lemma local_date_midnight D off :
  -1440 < off < 1440 ->
  local_date off (D * ms_per_day) = civil_from_days (D + if off <? 0 then -1 else 0).
Proof.
  intros Hoff. unfold local_date, ms_per_day. f_equal.
  rewrite Z.div_add_l by lia. f_equal.
  destruct (Z.ltb_spec off 0).
  - symmetry. apply Z.div_unique with (off * 60000 + 86400000); [left|]; lia.
  - apply Z.div_small. lia.
Qed.

Lemma previous_day_differs y m d :
  civil_from_days (days_from_civil y m d - 1) <> (y, m, d).
Proof.
  intros E. pose proof (civil_from_days_ok (days_from_civil y m d - 1)) as H.
  rewrite E in H. destruct H as [_ H]. lia.
Qed.

(** ** Properties *)

(** Round trip of the calendar of [Date]: every day
    number is the day number of its date, which is a valid date, and every
    valid date is the date of its day number; the two conversions are
    inverse bijections between the integers and the valid dates of the
    proleptic Gregorian calendar. *)
Lemma calendar_roundtrip :
  (forall z, let '(y, m, d) := civil_from_days z in
             valid_date y m d = true /\ days_from_civil y m d = z) /\
  (forall y m d, valid_date y m d = true -> civil_from_days (days_from_civil y m d) = (y, m, d)).
Proof. split; [exact civil_from_days_ok | exact days_from_civil_ok]. Qed.

(** C25: The "Admitted" line of a card shows the admission
    date only east of UTC: for an [admission_date] in a date-only form
    ([YYYY-MM-DD], [YYYY-MM] or [YYYY]), [new Date(...)] is midnight UTC,
    and [toLocaleDateString()] at a zone [off] minutes from UTC (less than a
    day) prints that date when [off >= 0] and the day before, a different
    date, when [off < 0]. *)
Theorem admitted_date_shift s y m d off :
  parse_iso s = Some (IsoForm y m d None None) -> -1440 < off < 1440 ->
  toLocaleDateString off (Val (JStr s)) =
    format_en_US (if off <? 0 then civil_from_days (days_from_civil y m d - 1) else (y, m, d)) /\
  (off < 0 -> civil_from_days (days_from_civil y m d - 1) <> (y, m, d)).
Proof.
  intros Hs Hoff. split; [|intros _; apply previous_day_differs].
  unfold toLocaleDateString. rewrite (date_only_new_Date _ _ _ _ _ Hs), local_date_midnight by done.
  f_equal. destruct (off <? 0).
  - f_equal; lia.
  - rewrite Z.add_0_r. by apply days_from_civil_ok, (parse_iso_valid s y m d None None).
Qed.

Lemma admitted_date_shift_witness :
  parse_iso "2025-01-02" = Some (IsoForm 2025 1 2 None None) /\ -1440 < -300 < 1440 /\
  toLocaleDateString (-300) (Val (JStr "2025-01-02")) =
    format_en_US (if -300 <? 0 then civil_from_days (days_from_civil 2025 1 2 - 1)
                  else (2025, 1, 2)) /\
  (-300 < 0 -> civil_from_days (days_from_civil 2025 1 2 - 1) <> (2025, 1, 2)).
Proof.
  assert (H1 : parse_iso "2025-01-02" = Some (IsoForm 2025 1 2 None None)) by reflexivity.
  assert (H2 : -1440 < -300 < 1440) by lia.
  split; [exact H1|]. split; [exact H2|]. exact (admitted_date_shift _ _ _ _ _ H1 H2).
Defined.

(** C26: A date-time form without offset ([YYYY-MM-DDTHH:mm], with
    optional seconds and milliseconds) is local time, so the "Admitted" line
    prints the date as written in every time zone; [24:00] is midnight at
    the end of that day and prints the next date. *)
Theorem local_datetime_no_shift s y m d h mi sec ms off :
  parse_iso s = Some (IsoForm y m d (Some (h, mi, sec, ms)) None) ->
  toLocaleDateString off (Val (JStr s)) =
    format_en_US (if h =? 24 then civil_from_days (days_from_civil y m d + 1) else (y, m, d)).
Proof.
  intros Hs. destruct (parse_iso_form _ _ Hs) as [Hsyn Hv].
  cbn [form_valid] in Hv. apply andb_true_iff in Hv as [Hd Ht].
  destruct (iso_syntax_time _ _ _ _ _ _ _ _ _ Hsyn) as (? & ? & ? & ?).
  unfold toLocaleDateString, new_Date, date_parse. rewrite Hs. cbn [mbind option_bind].
  cbn [time_of_form default]. unfold local_date. f_equal.
  rewrite Z.sub_add, <- !Z.add_assoc, Z.div_add_l by (unfold ms_per_day; lia).
  rewrite time_of_day_div by done. destruct (h =? 24); [done|].
  rewrite Z.add_0_r. by apply days_from_civil_ok.
Qed.

Lemma local_datetime_no_shift_witness :
  parse_iso "2025-01-02T09:30" = Some (IsoForm 2025 1 2 (Some (9, 30, 0, 0)) None) /\
  toLocaleDateString (-300) (Val (JStr "2025-01-02T09:30")) =
    format_en_US (if 9 =? 24 then civil_from_days (days_from_civil 2025 1 2 + 1) else (2025, 1, 2)).
Proof.
  assert (H : parse_iso "2025-01-02T09:30" = Some (IsoForm 2025 1 2 (Some (9, 30, 0, 0)) None))
    by reflexivity.
  split; [exact H | exact (local_datetime_no_shift _ _ _ _ _ _ _ _ (-300) H)].
Defined.

(** At New York's winter offset the card of the spec's scenario row,
    admitted on 2 January 2025, reads "1/1/2025" when the backend sends the
    date-only form or the same midnight in UTC, and "1/2/2025" when it sends
    a local date-time; at India's offset it reads "1/2/2025". *)
Example admitted_scenario :
  toLocaleDateString (-300) (Val (JStr "2025-01-02")) = Shown "1/1/2025" /\
  toLocaleDateString (-300) (Val (JStr "2025-01-02T00:00:00.000Z")) = Shown "1/1/2025" /\
  toLocaleDateString (-300) (Val (JStr "2025-01-02T00:00")) = Shown "1/2/2025" /\
  toLocaleDateString 330 (Val (JStr "2025-01-02")) = Shown "1/2/2025".
Proof. repeat split; vm_compute; reflexivity. Qed.

End JsDate.
