(* ===== verification/TsTypes.v ===== *)
(** * The TypeScript types of the patient data

    PatientRecords.tsx declares the shape of a record as the interface
    [Patient] (lines 10-18) and the state slots as [Patient[]] (lines 21-22).
    TypeScript's types are structural: an object has an interface type
    when each declared property is present with the declared type, whatever
    else it holds.  This file states that typing of JSON values as a
    judgement ([has_type]) and as a checker ([type_check]), and proves that
    the type check [decode_patients] used throughout the development accepts
    exactly the values of type [Patient[]]: the "typed" answers of Spec.v are
    the answers whose type is the one the code declares (and never checks). *)

From stdpp Require Import base list strings.
From Stdlib Require Import ZArith Ascii String.
From S2P Require Import Prelude Json.
Import Json.

Local Open Scope stdpp_scope.

Module TsTypes.

#[local] Set Warnings "-register-all".

(** The type language of the declarations. *)
Inductive ty : Type :=
| TNumber
| TString
| TNull
| TUnion (a b : ty)
| TArray (t : ty)
| TObject (fields : list (string * ty)).

(** [interface Patient] (lines 10-18). *)
Definition patient_ty : ty :=
  TObject [("patient_id", TNumber); ("patient_name", TString); ("age", TNumber);
           ("gender", TString); ("diagnosis", TString); ("admission_date", TString);
           ("bed_id", TUnion TNumber TNull)].

(** [useState<Patient[]>([])] (lines 21-22). *)
Definition patients_ty : ty := TArray patient_ty.

(** Structural typing of a JSON value. *)
Inductive has_type : json -> ty -> Prop :=
| ht_number n : has_type (JNum n) TNumber
| ht_string s : has_type (JStr s) TString
| ht_null : has_type JNull TNull
| ht_union_l j a b : has_type j a -> has_type j (TUnion a b)
| ht_union_r j a b : has_type j b -> has_type j (TUnion a b)
| ht_array l t : Forall (fun j => has_type j t) l -> has_type (JArr l) (TArray t)
| ht_object fs tys :
    Forall (fun kt => exists v, get_field kt.1 fs = Val v /\ has_type v kt.2) tys ->
    has_type (JObj fs) (TObject tys).

#[export] Hint Constructors has_type : dd.

(** The same typing, decided. *)
Fixpoint type_check (t : ty) (j : json) : bool :=
  match t with
  | TNumber => match j with JNum _ => true | _ => false end
  | TString => match j with JStr _ => true | _ => false end
  | TNull => match j with JNull => true | _ => false end
  | TUnion a b => type_check a j || type_check b j
  | TArray t' => match j with JArr l => forallb (type_check t') l | _ => false end
  | TObject tys =>
      match j with
      | JObj fs =>
          forallb (fun kt => match get_field kt.1 fs with
                             | Val v => type_check kt.2 v
                             | Undefined => false
                             end) tys
      | _ => false
      end
  end.

(** ** Lemmas *)

(** Induction on types, with the hypothesis for the fields of an object
    type (the generated principle has none, [ty] being nested in [list]). *)
Section ty_ind'.
Context (P : ty -> Prop) (HNumber : P TNumber) (HString : P TString) (HNull : P TNull)
  (HUnion : forall a b, P a -> P b -> P (TUnion a b))
  (HArray : forall t, P t -> P (TArray t))
  (HObject : forall tys, List.Forall (fun kt => P kt.2) tys -> P (TObject tys)).

Fixpoint ty_ind' (t : ty) : P t :=
  match t with
  | TNumber => HNumber
  | TString => HString
  | TNull => HNull
  | TUnion a b => HUnion a b (ty_ind' a) (ty_ind' b)
  | TArray t' => HArray t' (ty_ind' t')
  | TObject tys =>
      HObject tys
        ((fix go (l : list (string * ty)) : List.Forall (fun kt => P kt.2) l :=
            match l with
            | [] => List.Forall_nil _
            | kt :: l' => @List.Forall_cons _ _ kt l' (ty_ind' kt.2) (go l')
            end) tys)
  end.
End ty_ind'.

Lemma field_check_iff (t : ty) fs k :
  (forall j, type_check t j = true <-> has_type j t) ->
  (match get_field k fs with Val v => type_check t v | Undefined => false end = true <->
   exists v, get_field k fs = Val v /\ has_type v t).
Proof.
  intros Ht. destruct (get_field k fs) as [|v].
  - split; [discriminate | by intros (? & ? & ?)].
  - rewrite Ht. split; [eauto | by intros (? & [= <-] & ?)].
Qed.

(** The checker decides the judgement. *)
Lemma type_check_correct t j : type_check t j = true <-> has_type j t.
Proof.
  revert j. induction t as [| | |a b IHa IHb|t IH|tys IH] using ty_ind'; intros j; simpl.
  - destruct j; split; intros H; try invc H; eauto with dd; discriminate.
  - destruct j; split; intros H; try invc H; eauto with dd; discriminate.
  - destruct j; split; intros H; try invc H; eauto with dd; discriminate.
  - rewrite orb_true_iff, IHa, IHb.
    split; [intros [|]; eauto with dd | intros H; invc H; auto].
  - destruct j as [| | | |l|]; try (split; [discriminate | intros H; invc H]).
    rewrite (forallb_iff _ (fun j => has_type j t)) by auto.
    split; [auto with dd | intros H; by invc H].
  - destruct j as [| | | | |fs]; try (split; [discriminate | intros H; invc H]).
    rewrite (forallb_iff _ (fun kt => exists v, get_field kt.1 fs = Val v /\ has_type v kt.2)).
    + split; [auto with dd | intros H; by invc H].
    + intros kt Hkt. apply field_check_iff.
      exact (proj1 (List.Forall_forall _ _) IH kt Hkt).
Qed.

Ltac field_case v :=
  destruct v as [|[]]; cbn; try (split; [intros [? ?]; discriminate | discriminate]).

(** The decoder accepts a row exactly when the checker accepts it at the
    interface's type (the field lookups are generalised first: unfolding
    them would compare the keys of [fs]). *)
Lemma decode_patient_check j : is_Some (decode_patient j) <-> type_check patient_ty j = true.
Proof.
  destruct j as [| | | | |fs]; cbn [decode_patient type_check patient_ty].
  all: try (split; [by intros [? ?] | discriminate]).
  unfold as_num, as_str, as_num_or_null. cbn [forallb fst snd type_check].
  generalize (get_field "patient_id" fs) (get_field "patient_name" fs) (get_field "age" fs)
    (get_field "gender" fs) (get_field "diagnosis" fs) (get_field "admission_date" fs)
    (get_field "bed_id" fs).
  intros v1 v2 v3 v4 v5 v6 v7.
  field_case v1. field_case v2. field_case v3. field_case v4. field_case v5. field_case v6.
  field_case v7; split; by eauto.
Qed.

Lemma decode_patients_check j : is_Some (decode_patients j) <-> type_check patients_ty j = true.
Proof.
  destruct j as [| | | |l|]; cbn [decode_patients type_check patients_ty].
  all: try (split; [by intros [? ?] | discriminate]).
  induction l as [|e l IH]; cbn [mapM forallb]; [by split; [|eexists]|].
  rewrite andb_true_iff, <- IH, <- decode_patient_check.
  destruct (decode_patient e), (mapM decode_patient l); cbn; unfold is_Some; naive_solver.
Qed.

Lemma decode_patients_has_type j : is_Some (decode_patients j) <-> has_type j patients_ty.
Proof. by rewrite decode_patients_check, type_check_correct. Qed.

(** ** Properties *)

(** The decoding of a [GET /api/patients] body that the
    development calls "typed" is TypeScript's structural typing at the type
    the code declares: a JSON value decodes as a list of records exactly when
    it has the type [Patient[]] of lines 10-22, and a row decodes exactly when
    it has the type [Patient]. *)
Lemma decode_patients_typed j :
  (is_Some (decode_patients j) <-> has_type j patients_ty) /\
  (is_Some (decode_patient j) <-> has_type j patient_ty).
Proof.
  split; [apply decode_patients_has_type|].
  by rewrite decode_patient_check, type_check_correct.
Qed.

End TsTypes.
