(* ===== verification/Backend.v ===== *)
(** * The backend REST service (spec sections 3 and 6)

    The server behind [/api/patients] is not in the repository.  This file
    models it from the spec: the records are keyed by their [patient_id]
    in a finite map (stdpp's [gmap]); [GET /api/patients] answers with the
    array of all records; creation (the add dialog's request) assigns the
    next unused positive id; deletion (the delete dialog's request) removes
    a record by id and fails when there is none.  The order of the array
    [GET] answers with is the map's enumeration order: the spec does not
    fix one, and no theorem depends on it.  Ids are never reused: the
    counter [next_id] only grows. *)

From stdpp Require Import base list gmap strings.
From Stdlib Require Import ZArith String.
From S2P Require Import Prelude Json.
Import Json.

Local Open Scope stdpp_scope.

Module Backend.

Record db : Type := mkDb {
  rows : gmap Z Patient;
  next_id : Z
}.

(** The spec's data invariant: every record is stored under its own id, a
    positive integer below the counter. *)
Definition db_wf (d : db) : Prop :=
  (0 < next_id d)%Z /\
  map_Forall (fun k p => patient_id p = k /\ (0 < k < next_id d)%Z) (rows d).

(** [GET /api/patients] *)
Definition list_patients (d : db) : list Patient := snd <$> map_to_list (rows d).

Definition get_patients (d : db) : json := encode_patients (list_patients d).

(** The fields the add dialog sends. *)
Record new_patient : Type := mkNewPatient {
  np_name : string;
  np_age : Z;
  np_gender : string;
  np_diagnosis : string;
  np_admission_date : string;
  np_bed_id : option Z
}.

(** The row the server stores for the dialog's fields under id [id]. *)
Definition created_row (np : new_patient) (id : Z) : Patient :=
  mkPatient id (np_name np) (np_age np) (np_gender np) (np_diagnosis np)
    (np_admission_date np) (np_bed_id np).

(** [POST /api/patients]: the new record gets the next id. *)
Definition create (np : new_patient) (d : db) : db :=
  let id := next_id d in
  mkDb (<[id := created_row np id]> (rows d)) (id + 1)%Z.

(** [DELETE /api/patients/:id]: [None] is the 404 answer. *)
Definition delete_patient (id : Z) (d : db) : option db :=
  match rows d !! id with
  | Some _ => Some (mkDb (delete id (rows d)) (next_id d))
  | None => None
  end.

Definition ids (R : list Patient) : list Z := patient_id <$> R.

(** ** Lemmas *)

Lemma wf_create np d : db_wf d -> db_wf (create np d).
Proof.
  intros [Hn Hr]. split; simpl; [lia|].
  apply map_Forall_insert_2; simpl; [lia|].
  eapply map_Forall_impl; [exact Hr|]. intros k p [? ?]. split; [done | lia].
Qed.

Lemma wf_delete id d d' : db_wf d -> delete_patient id d = Some d' -> db_wf d'.
Proof.
  intros [Hn Hr]. unfold delete_patient. destruct (rows d !! id); [|discriminate].
  intros [= <-]. split; [done|]. by apply map_Forall_delete.
Qed.

Lemma elem_of_list_patients d p :
  p ∈ list_patients d <-> exists k, rows d !! k = Some p.
Proof.
  unfold list_patients. rewrite list_elem_of_fmap. split.
  - intros ([k p'] & -> & Hin). apply elem_of_map_to_list in Hin. eauto.
  - intros [k Hk]. exists (k, p). split; [done|]. by apply elem_of_map_to_list.
Qed.

(** The ids [GET] answers with are the keys of the map. *)
Lemma ids_list_patients d :
  db_wf d -> ids (list_patients d) = fst <$> map_to_list (rows d).
Proof.
  intros [_ Hr]. unfold ids, list_patients. rewrite <- list_fmap_compose.
  apply list_fmap_ext. intros i [k p] Hi. simpl.
  apply list_elem_of_lookup_2, elem_of_map_to_list in Hi. by destruct (Hr k p Hi).
Qed.

(** Spec section 3: ids are unique within the record set. *)
Lemma ids_NoDup d : db_wf d -> NoDup (ids (list_patients d)).
Proof. intros Hd. rewrite ids_list_patients by done. apply NoDup_fst_map_to_list. Qed.

Lemma elem_of_ids d id : db_wf d -> id ∈ ids (list_patients d) <-> is_Some (rows d !! id).
Proof.
  intros Hd. rewrite ids_list_patients by done. split.
  - intros ([k p] & -> & Hin)%list_elem_of_fmap. apply elem_of_map_to_list in Hin.
    simpl. by exists p.
  - intros [p Hp]. apply list_elem_of_fmap. exists (id, p). split; [done|].
    by apply elem_of_map_to_list.
Qed.

(** The id the next [POST] gets is not in use. *)
Lemma next_id_free d : db_wf d -> rows d !! next_id d = None.
Proof.
  intros [_ Hr]. destruct (rows d !! next_id d) as [p|] eqn:Hp; [|done].
  specialize (Hr _ _ Hp). simpl in Hr. lia.
Qed.

Lemma next_id_fresh d : db_wf d -> next_id d ∉ ids (list_patients d).
Proof. intros Hd. rewrite elem_of_ids, next_id_free by done. by intros [? ?]. Qed.

(** Storing a row under a free id adds it to the list, in some position. *)
Lemma list_patients_insert d id p n :
  rows d !! id = None -> list_patients (mkDb (<[id := p]> (rows d)) n) ≡ₚ p :: list_patients d.
Proof. intros Hid. unfold list_patients. simpl. by rewrite map_to_list_insert. Qed.

Lemma delete_removes id d d' :
  db_wf d -> delete_patient id d = Some d' -> id ∉ ids (list_patients d').
Proof.
  intros Hd Hdel. rewrite (elem_of_ids _ _ (wf_delete _ _ _ Hd Hdel)).
  unfold delete_patient in Hdel. destruct (rows d !! id); [|discriminate].
  injection Hdel as <-. simpl. rewrite lookup_delete_eq. by intros [? ?].
Qed.

Lemma decode_get_patients d : decode_patients (get_patients d) = Some (list_patients d).
Proof. apply decode_encode_patients. Qed.

Lemma delete_next_id id d d' : delete_patient id d = Some d' -> next_id d' = next_id d.
Proof. unfold delete_patient. destruct (rows d !! id); [|discriminate]. by intros [= <-]. Qed.

(** Every record [GET] answers with has an id between 0 and the counter. *)
Lemma list_patients_bound d p :
  db_wf d -> p ∈ list_patients d -> (0 < patient_id p < next_id d)%Z.
Proof. intros [_ Hr] [k Hk]%elem_of_list_patients. by destruct (Hr k p Hk) as [-> ?]. Qed.

End Backend.
