(* ===== verification/Filter.v ===== *)
(** * The search filter of the patient list

    The second effect of [PatientRecords] (PatientRecords.tsx, lines 43-50)
    recomputes [filteredPatients] as
    [patients.filter(patient => name.toLowerCase().includes(q.toLowerCase())
                             || patient_id.toString().includes(q)
                             || diagnosis.toLowerCase().includes(q.toLowerCase()))].
    - [matches] and [filter_patients] are the callback and the filter on
      well-typed patients;
    - [matches_js] and [filter_js] are the same code on the JSON value the
      state really holds, with the [TypeError]s of its property reads and
      method calls and the short-circuit order of [||];
    - [spec_match] is the predicate of the specification (a case-insensitive
      substring match on the name, the decimal string form of the id, or
      the diagnosis).
    The theorems show the filter keeps, in order, exactly the patients that
    satisfy [spec_match] when their ids are at most 2^53, and that it drops
    ids beyond whose digits [toString] does not print; that it refines to
    [filter_js] on decoded data; and what [filter_js] does on data that
    does not fit [Patient]. *)

From stdpp Require Import base list strings.
From Stdlib Require Import ZArith Ascii String.
From S2P Require Import Prelude JsNumber JsString JsToString Json.
Import JsNumber JsString JsToString Json.

Local Open Scope stdpp_scope.
Local Open Scope dd_scope.

Module Filter.

(** ** The callback on typed patients *)

Definition matches (searchQuery : string) (patient : Patient) : bool :=
  includes (toLowerCase (patient_name patient)) (toLowerCase searchQuery) ||
  includes (number_toString (patient_id patient)) searchQuery ||
  includes (toLowerCase (diagnosis patient)) (toLowerCase searchQuery).

Definition filter_patients (searchQuery : string) (patients : list Patient) : list Patient :=
  List.filter (matches searchQuery) patients.

(** ** The same code on JSON data *)

Definition matches_js (searchQuery : string) (patient : json) : throws bool :=
  name <- get_prop (Val patient) "patient_name" ;;
  lname <- call_toLowerCase name ;;
  if includes lname (toLowerCase searchQuery) then Ok true else
  id <- get_prop (Val patient) "patient_id" ;;
  sid <- call_toString id ;;
  if includes sid searchQuery then Ok true else
  dg <- get_prop (Val patient) "diagnosis" ;;
  ldg <- call_toLowerCase dg ;;
  Ok (includes ldg (toLowerCase searchQuery)).

(** [patients.filter(...)] on whatever [setPatients] stored. *)
Definition filter_js (searchQuery : string) (patients : json) : throws (list json) :=
  match patients with
  | JNull => Err (ReadOfNullish "filter")
  | JArr l => filterR (matches_js searchQuery) l
  | _ => Err (NotAFunction "filter")
  end.

(** ** The specification's predicate *)

Definition contains (s t : string) : Prop := exists pre post, s = pre +:+ t +:+ post.

(** Spec section 4.1: the lowercase search text is a substring of the
    lowercase name, of the decimal string form of [patientId], or of the
    lowercase diagnosis. *)
Definition spec_match (text : string) (p : Patient) : Prop :=
  contains (toLowerCase (patient_name p)) (toLowerCase text) \/
  contains (toLowerCase (decimal_string (patient_id p))) (toLowerCase text) \/
  contains (toLowerCase (diagnosis p)) (toLowerCase text).

(** ** Lemmas *)

(** Every record the search keeps shows the query, up to case, in its
    name, in the text [toString] prints for its id, or in its diagnosis. *)
Lemma matches_text q p :
  matches q p = true ->
  contains (toLowerCase (patient_name p)) (toLowerCase q) \/
  contains (toLowerCase (number_toString (patient_id p))) (toLowerCase q) \/
  contains (toLowerCase (diagnosis p)) (toLowerCase q).
Proof.
  unfold matches, contains. rewrite !orb_true_iff, <- !includes_spec.
  intros [[H|H]|H]; auto using includes_toLowerCase.
Qed.

(** For an id of magnitude at most 2^53, [toString] prints the decimal
    digits, which have no letter, so the code's case-sensitive id test is
    the spec's. *)
Lemma matches_spec q p :
  (Z.abs (patient_id p) <= max_exact)%Z -> (matches q p = true <-> spec_match q p).
Proof.
  intros Hid. unfold matches, spec_match, contains.
  assert (Hb : (round_mag (Z.abs (patient_id p)) < 10 ^ 21)%Z)
    by (rewrite round_mag_exact by lia; unfold max_exact in Hid; lia).
  rewrite (number_toString_search_lower _ _ Hb), (number_toString_exact _ Hid).
  rewrite !orb_true_iff, !includes_spec. tauto.
Qed.

Lemma matches_js_encode q p : matches_js q (encode_patient p) = Ok (matches q p).
Proof.
  unfold matches_js, matches. autorewrite with dd_rw.
  by destruct (includes _ (toLowerCase q)), (includes _ q).
Qed.

#[export] Hint Rewrite matches_js_encode : dd_rw.

(** The same holds for any JSON that passes the type check of [Patient],
    whatever the order of its keys and whatever other fields it carries. *)
Lemma matches_js_decode q e p : decode_patient e = Some p -> matches_js q e = Ok (matches q p).
Proof.
  intros H. destruct (decode_patient_fields e p H) as (fs & -> & H1 & H2 & _ & _ & H5 & _ & _).
  unfold matches_js, matches. simpl. rewrite H2, H1, H5. simpl.
  by destruct (includes _ (toLowerCase q)), (includes _ q).
Qed.

Lemma matches_empty p : matches "" p = true.
Proof. unfold matches. by rewrite includes_empty. Qed.

Lemma matches_narrow q q' p :
  includes q' q = true -> matches q' p = true -> matches q p = true.
Proof.
  intros Hq. pose proof (includes_toLowerCase _ _ Hq) as Hlq.
  unfold matches. rewrite !orb_true_iff.
  intros [[H|H]|H]; eauto 6 using includes_trans.
Qed.

(** ** Properties *)

(** C6: A patient whose id is at most 2^53 in magnitude
    (every id [res.json()] reads exactly) is in the filtered list exactly
    when it is in the full list and the lowercased query occurs in its
    lowercased name, in the decimal string form of its id, or in its
    lowercased diagnosis: the spec's case-insensitive search. *)
Theorem filter_patients_spec q R x :
  (Z.abs (patient_id x) <= max_exact)%Z ->
  (x ∈ filter_patients q R <-> x ∈ R /\ spec_match q x).
Proof.
  intros Hx. unfold filter_patients.
  by rewrite !list_elem_of_In, List.filter_In, (matches_spec q x Hx).
Qed.

Definition ravi : Patient := mkPatient 7 "Ravi" 60 "M" "Asthma" "2025-02-01" None.

Lemma filter_patients_spec_witness :
  (Z.abs (patient_id ravi) <= max_exact)%Z /\
  (ravi ∈ filter_patients "ASTH" [ravi] <-> ravi ∈ [ravi] /\ spec_match "ASTH" ravi).
Proof.
  assert (H : (Z.abs (patient_id ravi) <= max_exact)%Z) by (vm_compute; discriminate).
  split; [exact H | exact (filter_patients_spec _ _ _ H)].
Defined.

(** The filtered list is a sublist of the full list: the search only drops
    records, and keeps the backend's order. *)
Lemma filter_patients_sublist q R : filter_patients q R `sublist_of` R.
Proof. apply filter_sublist_of. Qed.

(** The empty query keeps every record, in
    order. *)
Lemma filter_patients_empty_query R : filter_patients "" R = R.
Proof. apply filter_all_true, Forall_forall. intros p _. apply matches_empty. Qed.

(** Typing more characters only narrows the
    result: if the new query contains the old one, the new result is a
    sublist of the old one. *)
Theorem filter_patients_narrow q q' R :
  includes q' q = true -> filter_patients q' R `sublist_of` filter_patients q R.
Proof. intros Hq. apply filter_sublist_mono. eauto using matches_narrow. Qed.

Lemma filter_patients_narrow_witness :
  includes "pneu" "pn" = true /\
  filter_patients "pneu" [] `sublist_of` filter_patients "pn" [].
Proof. split; [reflexivity | apply (filter_patients_narrow "pn" "pneu" []); reflexivity]. Defined.

Lemma filter_patients_idem q R :
  filter_patients q (filter_patients q R) = filter_patients q R.
Proof. apply filter_idem. Qed.

Lemma filter_patients_ids_NoDup q R :
  NoDup (patient_id <$> R) -> NoDup (patient_id <$> filter_patients q R).
Proof.
  intros H. eapply sublist_NoDup; [exact H|].
  apply fmap_sublist, filter_sublist_of.
Qed.

(** On the canonical encoding of [Patient[]] the raw filter returns the
    encoding of [filter_patients]. *)
Lemma filter_js_refines q R :
  filter_js q (encode_patients R) = Ok (map encode_patient (filter_patients q R)).
Proof.
  unfold filter_js, encode_patients, filter_patients.
  induction R as [|p R IH]; [done|]. simpl. rewrite matches_js_encode. simpl.
  rewrite IH. simpl. by destruct (matches q p).
Qed.

Lemma decode_patients_cons_intro e l p ps :
  decode_patient e = Some p -> decode_patients (JArr l) = Some ps ->
  decode_patients (JArr (e :: l)) = Some (p :: ps).
Proof. simpl. intros -> H. simpl in H. simpl. by rewrite H. Qed.

Lemma filter_js_decode_ok q j R :
  decode_patients j = Some R ->
  exists l, filter_js q j = Ok l /\ decode_patients (JArr l) = Some (filter_patients q R).
Proof.
  intros HR. destruct (decode_patients_array j R HR) as [l0 ->]. revert R HR.
  induction l0 as [|e l0 IH]; intros R HR.
  - simpl in HR. injection HR as <-. by exists [].
  - destruct (decode_patients_cons e l0 R HR) as (p & R' & -> & He & Hl).
    destruct (IH R' Hl) as (l & Hf & Hd). simpl in Hf. simpl.
    rewrite (matches_js_decode q e p He), Hf. simpl. unfold filter_patients in *. simpl.
    destruct (matches q p); eexists; split; eauto using decode_patients_cons_intro.
Qed.

(** C27: On any JSON array that passes the type check of
    [Patient[]] (keys in any order, extra fields allowed) the filter that runs
    on the raw value never throws, and what it keeps decodes to
    [filter_patients] of the decoded records. *)
Theorem filter_js_decode q j R :
  decode_patients j = Some R ->
  exists l, filter_js q j = Ok l /\ decode_patients (JArr l) = Some (filter_patients q R).
Proof. apply filter_js_decode_ok. Qed.

Lemma filter_js_decode_witness :
  decode_patients (JArr [JObj [("bed_id", JNull); ("diagnosis", JStr "Asthma");
    ("admission_date", JStr "2025-02-01"); ("gender", JStr "M"); ("age", JNum 60);
    ("patient_name", JStr "Ravi"); ("patient_id", JNum 7); ("ward", JStr "ICU")]]) =
    Some [mkPatient 7 "Ravi" 60 "M" "Asthma" "2025-02-01" None] /\
  exists l, filter_js "asth" (JArr [JObj [("bed_id", JNull); ("diagnosis", JStr "Asthma");
    ("admission_date", JStr "2025-02-01"); ("gender", JStr "M"); ("age", JNum 60);
    ("patient_name", JStr "Ravi"); ("patient_id", JNum 7); ("ward", JStr "ICU")]]) = Ok l /\
    decode_patients (JArr l) =
      Some (filter_patients "asth" [mkPatient 7 "Ravi" 60 "M" "Asthma" "2025-02-01" None]).
Proof. split; [reflexivity | apply filter_js_decode; reflexivity]. Defined.

(** When the stored data is not an array (an error object, a string,
    [null], ...), the filter effect throws a [TypeError]. *)
Lemma filter_js_not_array q j :
  (forall l, j <> JArr l) -> exists e, filter_js q j = Err e.
Proof. intros H. destruct j; simpl; eauto. by destruct (H l). Qed.

(** C28: The three tests run left to right and stop
    at the first match: an element whose [patient_name] matches is kept
    without reading its other fields, and an element whose name does not match
    and which has no [patient_id] makes the filter throw. *)
Theorem matches_js_short_circuit q fs n :
  get_field "patient_name" fs = Val (JStr n) ->
  (includes (toLowerCase n) (toLowerCase q) = true ->
     matches_js q (JObj fs) = Ok true) /\
  (includes (toLowerCase n) (toLowerCase q) = false ->
     get_field "patient_id" fs = Undefined ->
     matches_js q (JObj fs) = Err (ReadOfNullish "toString")).
Proof.
  intros Hn. unfold matches_js. simpl. rewrite Hn. simpl.
  split; intros Hi; rewrite Hi; [done|]. intros Hid. by rewrite Hid.
Qed.

Lemma matches_js_short_circuit_witness :
  get_field "patient_name" [("patient_name", JStr "Asha")] = Val (JStr "Asha") /\
  matches_js "as" (JObj [("patient_name", JStr "Asha")]) = Ok true /\
  matches_js "zz" (JObj [("patient_name", JStr "Asha")]) = Err (ReadOfNullish "toString").
Proof.
  pose proof (matches_js_short_circuit "as" [("patient_name", JStr "Asha")] "Asha"
                eq_refl) as [H1 _].
  pose proof (matches_js_short_circuit "zz" [("patient_name", JStr "Asha")] "Asha"
                eq_refl) as [_ H2].
  split; [reflexivity|]. split; [apply H1; reflexivity | apply H2; reflexivity].
Defined.

(** C29: Beyond 2^53 the search and the spec part: for a
    record whose id is 2^60 (a double [res.json()] reads exactly), typing
    the id's decimal digits matches it by the spec's predicate, but the
    code tests the digits [toString] prints, [1152921504606847000], and
    drops it; for the id 10^21, which [toString] prints as [1e+21], the
    same holds, and the query [1E+21] finds nothing either, since the code
    does not lowercase the query for the id test. *)
Theorem search_drops_large_ids :
  let p := mkPatient (2 ^ 60)%Z "Asha Rao" 34 "F" "Pneumonia" "2025-01-02" None in
  let p' := mkPatient (10 ^ 21)%Z "Asha Rao" 34 "F" "Pneumonia" "2025-01-02" None in
  round_double (patient_id p) = patient_id p /\ round_double (patient_id p') = patient_id p' /\
  spec_match "1152921504606846976" p /\ filter_patients "1152921504606846976" [p] = [] /\
  spec_match "1000000000000000000000" p' /\ filter_patients "1000000000000000000000" [p'] = [] /\
  filter_patients "1E+21" [p'] = [] /\ filter_patients "1e+21" [p'] = [p'].
Proof.
  intros p p'. repeat split; try (vm_compute; reflexivity);
    right; left; exists "", ""; vm_compute; reflexivity.
Qed.

End Filter.
