(* ===== verification/View.v ===== *)
(** * The render function of [PatientRecords]

    [render] models the JSX of PatientRecords.tsx, lines 52-186, on the
    state the component holds: the search box shows [searchQuery]; the
    counter shows [filteredPatients.length]; while [loading] six skeleton
    blocks replace the cards; otherwise [filteredPatients.map] builds one
    card per element; the empty state appears when
    [!loading && filteredPatients.length === 0].

    Rendering happens in two phases, as in React: the component function
    evaluates every property read and method call of the JSX in source
    order (the [TypeError]s of [make_card]), then React reconciles the
    children and rejects a plain object as a child ([InvalidChild]).  A card
    keeps the raw values of its children; [reconcile_card] turns them into
    text.  A card keeps the argument of [new Date(d).toLocaleDateString()]
    ([c_admitted]) and the [TypeError] that [new Date] raises when that
    argument has no primitive value; the text it prints is
    [JsDate.toLocaleDateString] of that argument (JsDate.v).  [page_text]
    lists the text nodes of the page in document order, as a reader of the
    screen meets them. *)

From stdpp Require Import base list sets strings.
From Stdlib Require Import ZArith Ascii String.
From S2P Require Import Prelude JsString JsToString Json JsDate Filter.
Import JsString JsToString Json JsDate Filter.

Local Open Scope stdpp_scope.
Local Open Scope dd_scope.

Module View.

(** ** JavaScript and React helpers *)

(** Truthiness, for [a && b]. *)
Definition truthy (v : jsval) : bool :=
  match v with
  | Undefined | Val JNull => false
  | Val (JBool b) => b
  | Val (JNum n) => negb (Z.eqb n 0)
  | Val (JStr s) => negb (String.eqb s "")
  | Val (JArr _) | Val (JObj _) => true
  end.

(** The text React renders for a child value. *)
Fixpoint child_text (j : json) : throws (list string) :=
  match j with
  | JNull | JBool _ => Ok []
  | JNum n => Ok [number_toString n]
  | JStr s => Ok [s]
  | JArr l =>
      (fix go (l : list json) : throws (list string) :=
         match l with
         | [] => Ok []
         | e :: l' => t <- child_text e ;; r <- go l' ;; Ok (t ++ r)
         end) l
  | JObj _ => Err InvalidChild
  end.

Definition render_child (v : jsval) : throws (list string) :=
  match v with Undefined => Ok [] | Val j => child_text j end.

(** [v.charAt(0)] *)
Definition call_charAt0 (v : jsval) : throws string :=
  match v with
  | Undefined | Val JNull => Err (ReadOfNullish "charAt")
  | Val (JStr EmptyString) => Ok ""
  | Val (JStr (String c _)) => Ok (String c EmptyString)
  | Val _ => Err (NotAFunction "charAt")
  end.

(** [new Date(v)]: an object argument is converted to a primitive first. *)
Definition date_arg (v : jsval) : throws unit :=
  match v with
  | Val ((JArr _ | JObj _) as j) => rmap (fun _ => tt) (js_ToString j)
  | _ => Ok tt
  end.

(** [v.length] *)
Definition get_length (j : json) : throws jsval :=
  match j with
  | JNull => Err (ReadOfNullish "length")
  | JArr l => Ok (Val (JNum (Z.of_nat (List.length l))))
  | JStr s => Ok (Val (JNum (Z.of_nat (String.length s))))
  | _ => Ok Undefined
  end.

(** ** Cards *)

(** The element tree of one card before reconciliation (lines 105-165). *)
Record card_elem : Type := mkCardElem {
  ce_key : jsval;              (** key={patient.patient_id} *)
  ce_initial : string;         (** patient.patient_name.charAt(0) *)
  ce_name : jsval;             (** {patient.patient_name} *)
  ce_id : jsval;               (** ID: #{patient.patient_id} *)
  ce_bed : jsval;              (** {patient.bed_id && (...)} *)
  ce_gender : jsval;
  ce_age : jsval;
  ce_diagnosis : jsval;
  ce_admitted : jsval;         (** new Date(patient.admission_date) *)
  ce_href : string;            (** `/dashboard?patientId=${patient.patient_id}` *)
  ce_delete_id : jsval;        (** DeletePatientDialog patientId *)
  ce_delete_name : jsval       (** DeletePatientDialog patientName *)
}.

Definition make_card (patient : json) : throws card_elem :=
  let p := Val patient in
  key <- get_prop p "patient_id" ;;
  nm <- get_prop p "patient_name" ;;
  initial <- call_charAt0 nm ;;
  nm' <- get_prop p "patient_name" ;;
  id <- get_prop p "patient_id" ;;
  bed <- get_prop p "bed_id" ;;
  gd <- get_prop p "gender" ;;
  ag <- get_prop p "age" ;;
  dg <- get_prop p "diagnosis" ;;
  ad <- get_prop p "admission_date" ;;
  _ <- date_arg ad ;;
  id' <- get_prop p "patient_id" ;;
  sid <- template_ToString id' ;;
  did <- get_prop p "patient_id" ;;
  dnm <- get_prop p "patient_name" ;;
  Ok (mkCardElem key initial nm' id bed gd ag dg ad
        ("/dashboard?patientId=" +:+ sid) did dnm).

(** The bed badge: a truthy [bed_id] shows "Bed #n"; a falsy one is itself
    rendered as a child, which prints nothing for [null] and "0" for [0]. *)
Inductive bed_view : Type :=
| BedBadge (text : list string)
| BedFalsy (text : list string).

(** A card as it appears on screen. *)
Record card : Type := mkCard {
  c_key : jsval;
  c_initial : string;
  c_name : list string;
  c_id : list string;
  c_bed : bed_view;
  c_gender : list string;
  c_age : list string;
  c_diagnosis : list string;
  c_admitted : jsval;
  c_href : string;
  c_delete_id : jsval;
  c_delete_name : jsval
}.

Definition reconcile_bed (v : jsval) : throws bed_view :=
  if truthy v then rmap BedBadge (render_child v) else rmap BedFalsy (render_child v).

Definition reconcile_card (ce : card_elem) : throws card :=
  nm <- render_child (ce_name ce) ;;
  id <- render_child (ce_id ce) ;;
  bed <- reconcile_bed (ce_bed ce) ;;
  gd <- render_child (ce_gender ce) ;;
  ag <- render_child (ce_age ce) ;;
  dg <- render_child (ce_diagnosis ce) ;;
  Ok (mkCard (ce_key ce) (ce_initial ce) nm id bed gd ag dg (ce_admitted ce)
        (ce_href ce) (ce_delete_id ce) (ce_delete_name ce)).

(** ** The page *)

Inductive body : Type :=
| Skeletons (n : nat)        (** lines 97-101 *)
| Cards (cs : list card).    (** lines 103-167 *)

Record view : Type := mkView {
  v_search : string;         (** Input value={searchQuery} *)
  v_count : list string;     (** {filteredPatients.length} patients found *)
  v_body : body;
  v_empty_state : bool       (** lines 170-183 *)
}.

(** [filteredPatients.map(...)] *)
Definition map_cards (filtered : json) : throws (list card_elem) :=
  match filtered with
  | JNull => Err (ReadOfNullish "map")
  | JArr l => mapR make_card l
  | _ => Err (NotAFunction "map")
  end.

Definition is_zero (v : jsval) : bool :=
  match v with Val (JNum 0) => true | _ => false end.

Definition render (loading : bool) (searchQuery : string) (filtered : json) : throws view :=
  len <- get_length filtered ;;
  elems <- (if loading then Ok [] else map_cards filtered) ;;
  len' <- (if loading then Ok Undefined else get_length filtered) ;;
  count <- render_child len ;;
  cards <- mapR reconcile_card elems ;;
  Ok (mkView searchQuery count
        (if loading then Skeletons 6 else Cards cards)
        (negb loading && is_zero len')).

(** ** The card of a well-typed patient *)

Definition bed_of (b : option Z) : bed_view :=
  match b with
  | None => BedFalsy []
  | Some 0%Z => BedFalsy ["0"]
  | Some n => BedBadge [number_toString n]
  end.

Definition initial_of (s : string) : string :=
  match s with EmptyString => "" | String c _ => String c EmptyString end.

Definition card_of_patient (p : Patient) : card :=
  mkCard (Val (JNum (patient_id p))) (initial_of (patient_name p))
    [patient_name p] [number_toString (patient_id p)] (bed_of (bed_id p))
    [gender p] [number_toString (age p)] [diagnosis p]
    (Val (JStr (admission_date p)))
    ("/dashboard?patientId=" +:+ number_toString (patient_id p))
    (Val (JNum (patient_id p))) (Val (JStr (patient_name p))).

(** Sample rows, as in the specification's scenario (section 8). *)
Definition asha : Patient :=
  mkPatient 1 "Asha Rao" 34 "F" "Pneumonia" "2025-01-02" (Some 5%Z).
Definition asha_bed0 : Patient :=
  mkPatient 1 "Asha Rao" 34 "F" "Pneumonia" "2025-01-02" (Some 0%Z).

(** ** The text on screen *)

(** What [toLocaleDateString] prints: an invalid date prints
    "Invalid Date" (ECMA-402, [Date.prototype.toLocaleDateString], step 2). *)
Definition date_string (t : date_text) : option string :=
  match t with
  | Shown s => Some s
  | InvalidDate => Some "Invalid Date"
  | OutsideModel => None
  end.

(** [{patient.bed_id && (<><span>•</span><span>Bed #{patient.bed_id}</span></>)}]
    (lines 118-123). *)
Definition bed_nodes (b : bed_view) : list string :=
  match b with
  | BedBadge t => ["•"; "Bed #"] ++ t
  | BedFalsy t => t
  end.

(** The text nodes of a card in document order (lines 109-152), given the
    text of its Admitted line; the trigger of [DeletePatientDialog] is drawn
    by that component, which is not in the repository. *)
Definition card_nodes (admitted : string) (c : card) : list string :=
  [c_initial c] ++ c_name c ++ ["ID: #"] ++ c_id c ++ bed_nodes (c_bed c) ++
  ["•"] ++ c_gender c ++ ["•"] ++ c_age c ++ [" yrs"] ++
  ["Diagnosis"] ++ c_diagnosis c ++ ["Admitted: "; admitted; "Monitor"].

(** A card's text at a host [off] minutes east of UTC (line 147). *)
Definition card_text (off : Z) (c : card) : option (list string) :=
  a ← date_string (toLocaleDateString off (c_admitted c)); Some (card_nodes a c).

Definition shown_cards (v : view) : list card :=
  match v_body v with Cards cs => cs | Skeletons _ => [] end.

(** Lines 63-64 and 69-71. *)
Definition header_nodes : list string :=
  ["Patient Records"; "Manage and monitor patient status"; "Back to Home"].

(** Lines 176-179. *)
Definition empty_nodes : list string :=
  ["No patients found"; "Try adjusting your search terms or add a new patient to the system."].

(** The page's text in document order: the header, the counter
    (lines 90-92), the cards (skeletons have none) and the empty state. *)
Definition page_text (off : Z) (v : view) : option (list string) :=
  cards ← mapM (card_text off) (shown_cards v);
  Some (header_nodes ++ v_count v ++ [" patients found"] ++ List.concat cards ++
        (if v_empty_state v then empty_nodes else [])).

(** ** Lemmas *)

Lemma make_reconcile_card_decode e p :
  decode_patient e = Some p ->
  exists ce, make_card e = Ok ce /\ reconcile_card ce = Ok (card_of_patient p).
Proof.
  intros H. destruct (decode_patient_fields e p H) as (fs & -> & H1 & H2 & H3 & H4 & H5 & H6 & H7).
  unfold make_card. simpl. rewrite H1, H2, H3, H4, H5, H6, H7. simpl.
  destruct p as [id [|c nm] ag gd dg ad [[|b|b]|]]; eexists; split; reflexivity.
Qed.

Lemma map_cards_decode l F :
  decode_patients (JArr l) = Some F ->
  exists ces, mapR make_card l = Ok ces /\
              mapR reconcile_card ces = Ok (map card_of_patient F) /\
              List.length l = List.length F.
Proof.
  revert F. induction l as [|e l IH]; intros F HF.
  - simpl in HF. injection HF as <-. by exists [].
  - destruct (decode_patients_cons e l F HF) as (p & F' & -> & He & Hl).
    destruct (IH F' Hl) as (ces & H1 & H2 & H3).
    destruct (make_reconcile_card_decode e p He) as (ce & H4 & H5).
    exists (ce :: ces). simpl. rewrite H1, H4. simpl. rewrite H2, H5. simpl. auto.
Qed.

Lemma render_decoded_eq q j F :
  decode_patients j = Some F ->
  render false q j =
  Ok (mkView q [number_toString (Z.of_nat (List.length F))]
        (Cards (map card_of_patient F)) (bool_decide (F = []))).
Proof.
  intros HF. destruct (decode_patients_array j F HF) as [l ->].
  destruct (map_cards_decode l F HF) as (ces & H1 & H2 & H3).
  unfold render. simpl. rewrite H1. simpl. rewrite H2. simpl. rewrite H3. by destruct F.
Qed.

Lemma render_not_array q j :
  (forall l, j <> JArr l) -> exists e, render false q j = Err e.
Proof. intros H. destruct j; try (eexists; reflexivity). by destruct (H l). Qed.

Lemma render_decode_ok lo q j F :
  decode_patients j = Some F -> exists v, render lo q j = Ok v.
Proof.
  intros HF. destruct lo; [|eexists; by apply render_decoded_eq].
  destruct (decode_patients_array j F HF) as [l ->]. by eexists.
Qed.

(** ** Properties *)

(** C21: Once loading is over, a filtered list that passes the
    type check of [Patient[]] renders without error as one card per patient in
    list order; the counter shows its length, and the empty state appears
    exactly when the list is empty. *)
Theorem render_decoded q j F :
  decode_patients j = Some F ->
  render false q j =
  Ok (mkView q [number_toString (Z.of_nat (List.length F))]
        (Cards (map card_of_patient F)) (bool_decide (F = []))).
Proof. apply render_decoded_eq. Qed.

Lemma render_decoded_witness :
  decode_patients (encode_patients [asha]) = Some [asha] /\
  render false "" (encode_patients [asha]) =
  Ok (mkView "" [number_toString (Z.of_nat (List.length [asha]))]
        (Cards (map card_of_patient [asha])) (bool_decide ([asha] = []))).
Proof. split; [reflexivity | apply render_decoded; reflexivity]. Defined.

Lemma render_typed q ps :
  render false q (encode_patients ps) =
  Ok (mkView q [number_toString (Z.of_nat (List.length ps))]
        (Cards (map card_of_patient ps)) (bool_decide (ps = []))).
Proof. apply render_decoded_eq, decode_encode_patients. Qed.

(** C24: A patient in bed 0 gets no "Bed #0" badge: the
    JSX [{patient.bed_id && ...}] renders the falsy number itself, so the card
    shows a stray "0" where the badge should be. *)
Theorem bed_zero_renders_zero q p :
  bed_id p = Some 0%Z ->
  exists c, render false q (encode_patients [p]) =
              Ok (mkView q ["1"] (Cards [c]) false) /\ c_bed c = BedFalsy ["0"].
Proof.
  intros Hb. exists (card_of_patient p). rewrite render_typed. simpl.
  split; [done|]. unfold card_of_patient. by rewrite Hb.
Qed.

Lemma bed_zero_renders_zero_witness :
  bed_id asha_bed0 = Some 0%Z /\
  exists c, render false "" (encode_patients [asha_bed0]) =
              Ok (mkView "" ["1"] (Cards [c]) false) /\ c_bed c = BedFalsy ["0"].
Proof. split; [reflexivity | apply bed_zero_renders_zero; reflexivity]. Defined.

(** C22: What the search shows is on screen: on the page rendered
    after loading from the filtered records, every card shows the search
    text, up to case, inside one of its text nodes (its name, the digits of
    its id or its diagnosis), whatever its Admitted line prints. *)
Theorem shown_cards_show_query q R a v c :
  render false q (encode_patients (filter_patients q R)) = Ok v -> c ∈ shown_cards v ->
  exists t, t ∈ card_nodes a c /\ contains (toLowerCase t) (toLowerCase q).
Proof.
  rewrite render_typed. intros [= <-]. cbn [shown_cards v_body].
  rewrite list_elem_of_In, in_map_iff. intros (p & <- & Hp).
  apply List.filter_In in Hp as [_ Hm]. apply matches_text in Hm as [H|[H|H]];
    eexists; (split; [|exact H]); unfold card_nodes; cbn; set_solver.
Qed.

Lemma shown_cards_show_query_witness :
  let v := mkView "pneu" ["1"] (Cards [card_of_patient asha]) false in
  render false "pneu" (encode_patients (filter_patients "pneu" [asha])) = Ok v /\
  card_of_patient asha ∈ shown_cards v /\
  exists t, t ∈ card_nodes "1/1/2025" (card_of_patient asha) /\
    contains (toLowerCase t) (toLowerCase "pneu").
Proof.
  intros v. assert (H : render false "pneu" (encode_patients (filter_patients "pneu" [asha])) = Ok v)
    by (vm_compute; reflexivity).
  assert (Hc : card_of_patient asha ∈ shown_cards v) by (cbn; left).
  split; [exact H|]. split; [exact Hc|]. exact (shown_cards_show_query _ _ _ _ _ H Hc).
Defined.

(** The page of the scenario of spec section 8 at a host five hours west
    of UTC (UTC-5): Asha Rao, admitted on 2025-01-02, is listed as admitted
    on 1/1/2025. *)
Example asha_page_text :
  match render false "" (encode_patients [asha]) with
  | Ok v => page_text (-300) v
  | Err _ => None
  end =
  Some ["Patient Records"; "Manage and monitor patient status"; "Back to Home";
        "1"; " patients found";
        "A"; "Asha Rao"; "ID: #"; "1"; "•"; "Bed #"; "5"; "•"; "F"; "•"; "34"; " yrs";
        "Diagnosis"; "Pneumonia"; "Admitted: "; "1/1/2025"; "Monitor"].
Proof. vm_compute. reflexivity. Qed.

End View.
