(* ===== verification/Navigation.v ===== *)
(** * Navigation: the landing page, the links of the records page, routes

    [Home.tsx] is a static page: its only behaviour is two react-router
    [Link]s to [/patients] (lines 25-30 and 135-140) and a list of three
    feature cards rendered with [map] and [key={idx}] (lines 101-130).  The
    records page links back to [/] (PatientRecords.tsx, lines 68-72) and,
    on each card, to the monitoring view [/dashboard?patientId=<id>]
    (lines 151-156).

    The route table (App.tsx) and the monitoring page are not in the
    repository; spec section 6 names three routes (the landing page, the
    list, and the monitoring view parameterised by [patientId]), which
    [route_of] models: the path before [?] selects the route and the
    monitoring view reads [patientId] with [URLSearchParams.get]: the
    query is parsed as application/x-www-form-urlencoded (sequences
    separated by [&], empty ones skipped, name and value split at the first
    [=], [+] read as a space and [%XY] escapes decoded) and the value of
    the first pair with that name is returned.  Strings are 8-bit code
    units, so the UTF-8 decoding of escaped bytes above 0x7F is not
    modelled; the links the code builds contain none.  A link whose id
    prints in exponent form ([1e+21]) loses its [+] to the form decoding:
    the route receives [1e 21], the text of no number.  [monitored_id]
    reads the parameter as [Number(patientId)] on the literals [toString]
    prints ([to_number] of JsToString.v). *)

From stdpp Require Import base list strings.
From Stdlib Require Import ZArith Ascii String.
From Equations Require Import Equations.
From Equations.Prop Require Import Logic.
From S2P Require Import Prelude JsNumber JsString JsToString Json View.
Import JsNumber JsString JsToString Json View.

Local Open Scope stdpp_scope.

Module Navigation.

(** ** The landing page *)

Record feature : Type := mkFeature {
  f_title : string;
  f_desc : string;
  f_color : string
}.

(** The array literal of lines 101-119 (the icons are omitted). *)
Definition features : list feature :=
  [mkFeature "AI Vision Analysis"
     "Powered by Hugging Face VLMs and Tesseract OCR for high-precision vital sign extraction from monitor feeds."
     "purple";
   mkFeature "Live Monitoring"
     "Real-time dashboard updates with sub-second latency for critical decision making."
     "blue";
   mkFeature "Patient Dashboards"
     "Centralized patient profiles with detailed vital history logs, graphical trends, and instant dashboard access."
     "teal"].

Record feature_card : Type := mkFeatureCard {
  fc_key : nat;           (** key={idx} *)
  fc_icon_class : string; (** `w-16 h-16 ... bg-${feature.color}-50 ...` *)
  fc_title : string;      (** {feature.title} *)
  fc_desc : string        (** {feature.desc} *)
}.

(** [.map((feature, idx) => <Card key={idx} ...>)] (lines 120-130). *)
Fixpoint render_features (idx : nat) (fs : list feature) : list feature_card :=
  match fs with
  | [] => []
  | f :: fs' =>
      mkFeatureCard idx
        ("w-16 h-16 rounded-2xl bg-" +:+ f_color f +:+
         "-50 flex items-center justify-center mb-6 group-hover:scale-110 transition-transform")
        (f_title f) (f_desc f) :: render_features (S idx) fs'
  end.

Record home_view : Type := mkHomeView {
  hv_links : list string;
  hv_features : list feature_card
}.

(** The [Home] component: the header link, the feature cards, the call to
    action. *)
Definition home : home_view :=
  mkHomeView ["/patients"; "/patients"] (render_features 0 features).

(** ** Links of the records page *)

Definition back_link : string := "/".

(** The links a rendered records page offers: "Back to Home", then the
    Monitor link of each card. *)
Definition page_links (v : view) : list string :=
  back_link :: match v_body v with Cards cs => map c_href cs | Skeletons _ => [] end.

(** ** Routes (spec section 6) *)

(** The value of a hexadecimal digit. *)
Definition hex_val (c : ascii) : option nat :=
  let n := nat_of_ascii c in
  if (48 <=? n) && (n <=? 57) then Some (n - 48)
  else if (65 <=? n) && (n <=? 70) then Some (n - 55)
  else if (97 <=? n) && (n <=? 102) then Some (n - 87)
  else None.

(** Percent-decoding (URL standard): [%XY] with two hexadecimal digits is
    the byte [XY]; any other [%] is kept. *)
Fixpoint percent_decode (s : string) : string :=
  match s with
  | EmptyString => EmptyString
  | String c s' =>
      if Ascii.eqb c "%" then
        match s' with
        | String h1 (String h2 rest) =>
            match hex_val h1, hex_val h2 with
            | Some a, Some b => String (ascii_of_nat (16 * a + b)) (percent_decode rest)
            | _, _ => String c (percent_decode s')
            end
        | _ => String c (percent_decode s')
        end
      else String c (percent_decode s')
  end.

(** [+] stands for a space in a form-encoded name or value. *)
Fixpoint plus_to_space (s : string) : string :=
  match s with
  | EmptyString => EmptyString
  | String c s' => String (if Ascii.eqb c "+" then " " else c) (plus_to_space s')
  end.

Definition form_decode (s : string) : string := percent_decode (plus_to_space s).

(** One [&]-separated sequence of the query, as the
    application/x-www-form-urlencoded parser reads it: an empty sequence
    is skipped; the name is the part before the first [=], the value the
    part after it (empty when there is no [=]); both are decoded.  The
    result is the value when the name is [key]. *)
Definition pair_value (key pair : string) : option string :=
  if String.eqb pair "" then None
  else
    let (k, v) := split_first "=" pair in
    if String.eqb (form_decode k) key then Some (form_decode (default EmptyString v))
    else None.

(** [new URLSearchParams(query).get(key)]: the value of the first pair
    named [key], the sequences being separated by [&]. *)
Fixpoint search_param_fuel (n : nat) (key query : string) : option string :=
  match n with
  | O => None
  | S n' =>
      let (pair, rest) := split_first "&" query in
      match pair_value key pair with
      | Some v => Some v
      | None =>
          match rest with
          | Some r => search_param_fuel n' key r
          | None => None
          end
      end
  end.

Definition search_param (key query : string) : option string :=
  search_param_fuel (S (String.length query)) key query.

Inductive route : Type :=
| Landing
| PatientList
| Monitor (patientId : option string)
| NotFound.

Definition route_of (href : string) : route :=
  let (path, query) := split_first "?" href in
  if String.eqb path "/" then Landing
  else if String.eqb path "/patients" then PatientList
  else if String.eqb path "/dashboard" then Monitor (query ≫= search_param "patientId")
  else NotFound.

(** The patient the monitoring view is asked for: [Number(patientId)] on
    the integral literals [toString] prints ([to_number]); [None] for any
    other text, [NaN] among them. *)
Definition monitored_id (r : route) : option Z :=
  match r with Monitor (Some s) => to_number s | _ => None end.

(** ** The query string without fuel

    The reference reading of [URLSearchParams]: cut the query at every
    [&] (a recursion on the length of the rest, well founded), then take
    the value of the first pair with the key. *)

Lemma split_first_length c s pre rest :
  split_first c s = (pre, Some rest) -> String.length rest < String.length s.
Proof.
  revert pre. induction s as [|d s IH]; intros pre; simpl; [discriminate|].
  destruct (Ascii.eqb c d); [intros [= _ <-]; lia|].
  destruct (split_first c s) as [p r] eqn:E. intros [= _ ->]. specialize (IH p eq_refl). lia.
Qed.

Equations split_all (c : ascii) (s : string) : list string by wf (String.length s) lt :=
  split_all c s with inspect (split_first c s) := {
    | exist _ (pre, None) _ := [pre];
    | exist _ (pre, Some rest) H := pre :: split_all c rest }.
Next Obligation. by eapply split_first_length. Qed.

Definition search_param_ref (key query : string) : option string :=
  head (omap (pair_value key) (split_all "&" query)).

(** ** Lemmas *)

Lemma split_all_step c s :
  split_all c s =
    match split_first c s with
    | (pre, None) => [pre]
    | (pre, Some rest) => pre :: split_all c rest
    end.
Proof.
  funelim (split_all c s);
    match goal with H : split_first _ _ = _ |- _ => by rewrite H end.
Qed.

(** Fuel [n] above the query's length is enough for [search_param_fuel]:
    each round consumes at least the [&] it cuts at. *)
Lemma head_omap_cons {A B} (f : A -> option B) x l :
  head (omap f (x :: l)) = match f x with Some y => Some y | None => head (omap f l) end.
Proof. simpl. by destruct (f x). Qed.

Lemma search_param_fuel_ref n key query :
  String.length query < n -> search_param_fuel n key query = search_param_ref key query.
Proof.
  revert query. induction n as [|n IH]; intros query Hn; [lia|].
  unfold search_param_ref. rewrite split_all_step. cbn [search_param_fuel].
  destruct (split_first "&" query) as [pair rest] eqn:E.
  destruct rest as [r|]; rewrite head_omap_cons; destruct (pair_value key pair); try done.
  apply IH. apply split_first_length in E. lia.
Qed.

Lemma string_nil_app s : EmptyString +:+ s = s.
Proof. reflexivity. Qed.

Lemma percent_decode_avoid s : all_chars (avoids "%") s = true -> percent_decode s = s.
Proof.
  induction s as [|c s IH]; [done|]. cbn [all_chars]. intros [Hc Hs]%andb_true_iff.
  apply negb_true_iff in Hc. rewrite Ascii.eqb_sym in Hc. simpl. by rewrite Hc, IH.
Qed.

Lemma plus_to_space_avoid s : all_chars (avoids "+") s = true -> plus_to_space s = s.
Proof.
  induction s as [|c s IH]; [done|]. cbn [all_chars]. intros [Hc Hs]%andb_true_iff.
  apply negb_true_iff in Hc. rewrite Ascii.eqb_sym in Hc. simpl. by rewrite Hc, IH.
Qed.

Lemma plus_to_space_app s t : plus_to_space (s +:+ t) = plus_to_space s +:+ plus_to_space t.
Proof. induction s as [|c s IH]; simpl; [done|]. by rewrite IH. Qed.

(** Decoding leaves the decimal form of a number as it is. *)
Lemma form_decode_numeral s : all_chars is_numeral_char s = true -> form_decode s = s.
Proof.
  intros Hs. unfold form_decode.
  rewrite plus_to_space_avoid by (apply (all_chars_avoids is_numeral_char); [reflexivity | done]).
  apply percent_decode_avoid, (all_chars_avoids is_numeral_char); [reflexivity | done].
Qed.

(** The exponent form [m e d ddd] avoids any character [c] outside the
    significand's characters, [e] and [d]. *)
Lemma exponent_avoids c pre d post :
  is_mantissa_char c = false -> Ascii.eqb c "e" = false -> Ascii.eqb c d = false ->
  all_chars is_mantissa_char pre = true -> all_chars is_digit_char post = true ->
  all_chars (avoids c) (pre +:+ String "e" (String d post)) = true.
Proof.
  intros Hc He Hd Hpre Hpost. rewrite all_chars_app.
  rewrite (all_chars_avoids is_mantissa_char c pre Hc Hpre). cbn [all_chars andb].
  unfold avoids at 1 2. rewrite He, Hd. cbn [negb andb].
  apply (all_chars_avoids is_digit_char); [|done].
  unfold is_mantissa_char, is_numeral_char in Hc. by apply orb_false_iff in Hc as [[_ ?]%orb_false_iff _].
Qed.

(** Form decoding turns the [+] of the exponent into a space. *)
Lemma form_decode_exponent pre post :
  all_chars is_mantissa_char pre = true -> all_chars is_digit_char post = true ->
  form_decode (pre +:+ String "e" (String "+" post)) = pre +:+ String "e" (String " " post).
Proof.
  intros Hpre Hpost. unfold form_decode. rewrite plus_to_space_app.
  rewrite (plus_to_space_avoid pre) by (apply (all_chars_avoids is_mantissa_char); [reflexivity | done]).
  cbn [plus_to_space]. change (if Ascii.eqb "e" "+" then " "%char else "e"%char) with "e"%char.
  change (if Ascii.eqb "+" "+" then " "%char else "+"%char) with " "%char.
  rewrite (plus_to_space_avoid post) by (apply (all_chars_avoids is_digit_char); [reflexivity | done]).
  apply percent_decode_avoid, exponent_avoids; done.
Qed.

(** A Monitor link: the [patientId] value is the decoded text, when it
    holds no [&]. *)
Lemma route_of_monitor_decode s :
  all_chars (avoids "&") s = true ->
  route_of ("/dashboard?patientId=" +:+ s) = Monitor (Some (form_decode s)).
Proof.
  intros Hs. rewrite !string_app_cons, string_nil_app. unfold route_of. simpl.
  unfold search_param. simpl. rewrite (split_first_avoid "&" s Hs). reflexivity.
Qed.

Lemma route_of_monitor s :
  all_chars is_numeral_char s = true ->
  route_of ("/dashboard?patientId=" +:+ s) = Monitor (Some s).
Proof.
  intros Hs. rewrite route_of_monitor_decode by (apply (all_chars_avoids is_numeral_char); [reflexivity | done]).
  by rewrite form_decode_numeral.
Qed.

(** Below [10^21] the Monitor link reads back the double nearest the id. *)
Lemma monitored_id_card p :
  (round_mag (Z.abs (patient_id p)) < 10 ^ 21)%Z ->
  monitored_id (route_of (c_href (card_of_patient p))) = Some (round_double (patient_id p)).
Proof.
  intros Hp. unfold card_of_patient. cbn [c_href].
  rewrite route_of_monitor by (apply number_toString_plain; exact Hp).
  apply to_number_number_toString.
Qed.

(** The text [toString] prints never holds a space. *)
Lemma number_toString_no_space y : all_chars (avoids " ") (number_toString y) = true.
Proof.
  destruct (Z.lt_ge_cases (round_mag (Z.abs y)) (10 ^ 21)) as [Hy|Hy].
  - apply (all_chars_avoids is_numeral_char); [reflexivity|]. by apply number_toString_plain.
  - destruct (number_toString_exponent _ Hy) as (pre & post & -> & Hpre & Hpost).
    by apply exponent_avoids.
Qed.

(** From [10^21] on, the card's link carries the exponent form, and the
    route reads it with a space for its [+]. *)
Lemma card_href_exponent p :
  (10 ^ 21 <= round_mag (Z.abs (patient_id p)))%Z ->
  exists pre post, number_toString (patient_id p) = pre +:+ String "e" (String "+" post) /\
    route_of (c_href (card_of_patient p)) = Monitor (Some (pre +:+ String "e" (String " " post))).
Proof.
  intros Hp. unfold card_of_patient. cbn [c_href].
  destruct (number_toString_exponent _ Hp) as (pre & post & E & Hpre & Hpost).
  exists pre, post. split; [exact E|]. rewrite E.
  rewrite route_of_monitor_decode by (apply exponent_avoids; done).
  by rewrite form_decode_exponent.
Qed.

Lemma reconcile_card_href ce c : reconcile_card ce = Ok c -> c_href c = ce_href ce.
Proof.
  unfold reconcile_card. intros H. destruct_rbind. by injection H as <-.
Qed.

Lemma render_features_keys i fs :
  map fc_key (render_features i fs) = seq i (List.length fs).
Proof. revert i. induction fs as [|f fs IH]; intros i; simpl; [done|]. by rewrite IH. Qed.

(** The reference reads the first pair with the key. *)
Example search_param_ref_reads :
  search_param_ref "patientId" "a=1&patientId=42&patientId=7" = Some "42".
Proof. vm_compute. reflexivity. Qed.

(** Empty sequences are skipped and escapes decoded: [4%32] is [42] and
    [+] a space. *)
Example search_param_decodes :
  search_param "patientId" "&&patient%49d=4%32&patientId=7" = Some "42" /\
  search_param "q" "q=a+b%2Bc" = Some "a b+c".
Proof. split; vm_compute; reflexivity. Qed.

(** ** Properties *)

(** C30: The Monitor link that [make_card] builds from a
    JSON row of the interface [Patient] routes to the monitoring view, whose
    [patientId] parameter reads back through [Number] as the row's
    [patient_id] (the double nearest it), for every id whose double is
    below [10^21]. *)
Theorem monitor_link_roundtrip e p :
  decode_patient e = Some p -> (round_mag (Z.abs (patient_id p)) < 10 ^ 21)%Z ->
  exists ce, make_card e = Ok ce /\
    monitored_id (route_of (ce_href ce)) = Some (round_double (patient_id p)).
Proof.
  intros He Hp. destruct (make_reconcile_card_decode e p He) as (ce & Hce & Hc).
  exists ce. split; [done|]. rewrite <- (reconcile_card_href _ _ Hc). by apply monitored_id_card.
Qed.

Lemma monitor_link_roundtrip_witness :
  decode_patient (encode_patient asha) = Some asha /\
  (round_mag (Z.abs (patient_id asha)) < 10 ^ 21)%Z /\
  exists ce, make_card (encode_patient asha) = Ok ce /\
    monitored_id (route_of (ce_href ce)) = Some (round_double (patient_id asha)).
Proof.
  assert (H1 : decode_patient (encode_patient asha) = Some asha) by reflexivity.
  assert (H2 : (round_mag (Z.abs (patient_id asha)) < 10 ^ 21)%Z) by (vm_compute; reflexivity).
  split; [exact H1|]. split; [exact H2|]. exact (monitor_link_roundtrip _ _ H1 H2).
Defined.

(** C31: From [10^21] on, the Monitor link of a row loses
    its patient: [toString] writes the id as [d.ddde+nn], the link puts the
    text into the query without [encodeURIComponent] (line 150), and the
    form decoding of [URLSearchParams] reads its [+] as a space, so the
    [patientId] the monitoring route receives is the id's text with a space
    for the [+], which is the text [toString] prints for no number at all:
    the link does not encode the record's [patientId] (spec section 4.2). *)
Theorem monitor_link_exponent_lost e p :
  decode_patient e = Some p -> (10 ^ 21 <= round_mag (Z.abs (patient_id p)))%Z ->
  exists ce pre post, make_card e = Ok ce /\
    number_toString (patient_id p) = pre +:+ String "e" (String "+" post) /\
    route_of (ce_href ce) = Monitor (Some (pre +:+ String "e" (String " " post))) /\
    forall y, pre +:+ String "e" (String " " post) <> number_toString y.
Proof.
  intros He Hp. destruct (make_reconcile_card_decode e p He) as (ce & Hce & Hc).
  destruct (card_href_exponent p Hp) as (pre & post & Ht & Hr).
  exists ce, pre, post. split; [done|]. split; [done|].
  rewrite <- (reconcile_card_href _ _ Hc). split; [done|].
  intros y Ey. pose proof (number_toString_no_space y) as Hn. rewrite <- Ey in Hn.
  rewrite all_chars_app in Hn. apply andb_true_iff in Hn as [_ Hn]. discriminate.
Qed.

Definition big_id_patient : Patient :=
  mkPatient (10 ^ 21)%Z "Asha Rao" 34 "F" "Pneumonia" "2025-01-02" None.

Lemma monitor_link_exponent_lost_witness :
  decode_patient (encode_patient big_id_patient) = Some big_id_patient /\
  (10 ^ 21 <= round_mag (Z.abs (patient_id big_id_patient)))%Z /\
  exists ce pre post, make_card (encode_patient big_id_patient) = Ok ce /\
    number_toString (patient_id big_id_patient) = pre +:+ String "e" (String "+" post) /\
    route_of (ce_href ce) = Monitor (Some (pre +:+ String "e" (String " " post))) /\
    forall y, pre +:+ String "e" (String " " post) <> number_toString y.
Proof.
  assert (H1 : decode_patient (encode_patient big_id_patient) = Some big_id_patient)
    by reflexivity.
  assert (H2 : (10 ^ 21 <= round_mag (Z.abs (patient_id big_id_patient)))%Z)
    by (vm_compute; discriminate).
  split; [exact H1|]. split; [exact H2|]. exact (monitor_link_exponent_lost _ _ H1 H2).
Defined.

(** Termination of the query-string reading: the loop
    of [search_param_fuel] consumes at least one character per round, so for
    any fuel above the length of the query it returns the value the
    well-founded reading [search_param_ref] defines; in particular the fuel
    [search_param] gives it, one more than the length, never runs out. *)
Theorem search_param_terminates key query n :
  String.length query < n ->
  search_param_fuel n key query = search_param_ref key query /\
  search_param key query = search_param_ref key query.
Proof.
  intros Hn. split; [by apply search_param_fuel_ref|].
  unfold search_param. apply search_param_fuel_ref. lia.
Qed.

End Navigation.
