(* ===== verification/Controller.v ===== *)
(** * The [PatientRecords] component as a state machine

    React runs the component of PatientRecords.tsx as an event-driven state
    machine.  [state] holds
    - the four [useState] slots of lines 21-24 ([patients],
      [filteredPatients], [loading], [searchQuery]); a slot keeps the heap
      identity of the value it holds ([slot]), because React compares state
      and effect dependencies with [Object.is];
    - React's bookkeeping: whether a re-render is scheduled ([dirty]),
      whether the mount effect of lines 39-41 has run, the dependencies
      [searchQuery, patients] seen by the last run of the filter effect of
      lines 43-50, the last committed view, and whether the component is
      mounted, crashed (an uncaught exception in render or in an effect) or
      unmounted;
    - the calls of [fetchPatients] (lines 26-37) in flight, each suspended
      at [await fetch(...)] or at [await res.json()];
    - the number of [console.error] calls.
    [step] is one event: React commits a render ([Commit]), the user types
    ([TypeQuery]), a suspended [fetchPatients] resumes ([FetchSettled],
    [JsonSettled]), a dialog calls its callback ([PatientAdded],
    [PatientDeleted]), or the user navigates away ([Unmount]).  The network
    and the user are the environment: every response and every keystroke
    is possible. *)

From stdpp Require Import base list strings relations.
From Stdlib Require Import ZArith Ascii String.
From S2P Require Import Prelude JsString Json Filter View.
Import JsString Json Filter View.

Local Open Scope stdpp_scope.
Local Open Scope dd_scope.

Module Controller.

(** ** State *)

(** A value held by a state slot, with the identity of its allocation. *)
Record slot : Type := mkSlot { sval : json; sref : nat }.

Definition is_object (j : json) : bool :=
  match j with JArr _ | JObj _ => true | _ => false end.

Definition prim_eqb (a b : json) : bool :=
  match a, b with
  | JNull, JNull => true
  | JBool x, JBool y => Bool.eqb x y
  | JNum x, JNum y => Z.eqb x y
  | JStr x, JStr y => String.eqb x y
  | _, _ => false
  end.

(** [Object.is]: objects by identity, primitives by value. *)
Definition same_value (a b : slot) : bool :=
  if is_object (sval a) || is_object (sval b)
  then is_object (sval a) && is_object (sval b) && Nat.eqb (sref a) (sref b)
  else prim_eqb (sval a) (sval b).

(** The outcome of [await fetch(url)]: a rejected promise, or a response
    whose body [res.json()] parses ([Some]) or rejects on ([None]). *)
Inductive fetch_result : Type :=
| NetworkError
| Response (status : Z) (body : option json).

(** Where a call of [fetchPatients] is suspended. *)
Inductive stage : Type :=
| AwaitFetch                                 (** line 28 *)
| AwaitJson (status : Z) (body : option json). (** line 29 *)

Record task : Type := mkTask { task_id : nat; task_stage : stage }.

Inductive phase : Type :=
| Mounted
| Crashed (e : js_error)
| Unmounted.

(** The four [useState] slots of lines 21-24. *)
Record hooks : Type := mkHooks {
  patients : slot;
  filteredPatients : slot;
  loading : bool;
  searchQuery : string
}.

Record state : Type := mkState {
  hooks_of : hooks;
  phase_of : phase;
  dirty : bool;                          (** a re-render is scheduled *)
  mount_effect_done : bool;
  filter_deps : option (string * slot);  (** deps at the last filter run *)
  view_of : option view;                 (** the last committed view *)
  tasks : list task;                     (** [fetchPatients] calls in flight *)
  next_task : nat;
  next_ref : nat;                        (** next fresh heap identity *)
  errors_logged : nat                    (** [console.error] calls *)
}.

(** The first render: [useState<Patient[]>([])] twice, [useState(true)],
    [useState("")]. *)
Definition init : state :=
  mkState (mkHooks (mkSlot (JArr []) 0) (mkSlot (JArr []) 1) true "")
    Mounted true false None None [] 0 2 0.

(** ** State updates *)

Definition is_mounted (st : state) : bool :=
  match phase_of st with Mounted => true | _ => false end.

(** A state setter changes the hooks and schedules a render, unless the
    component is gone (React ignores updates on an unmounted component) or
    the new value is [Object.is] the old one (React bails out). *)
Definition set_hooks (changed : bool) (h : hooks) (st : state) : state :=
  if is_mounted st && changed then
    mkState h (phase_of st) true (mount_effect_done st) (filter_deps st) (view_of st)
      (tasks st) (next_task st) (next_ref st) (errors_logged st)
  else st.

Definition setPatients (v : slot) (st : state) : state :=
  let h := hooks_of st in
  set_hooks (negb (same_value (patients h) v))
    (mkHooks v (filteredPatients h) (loading h) (searchQuery h)) st.

Definition setFilteredPatients (v : slot) (st : state) : state :=
  let h := hooks_of st in
  set_hooks (negb (same_value (filteredPatients h) v))
    (mkHooks (patients h) v (loading h) (searchQuery h)) st.

Definition setLoading (b : bool) (st : state) : state :=
  let h := hooks_of st in
  set_hooks (negb (Bool.eqb (loading h) b))
    (mkHooks (patients h) (filteredPatients h) b (searchQuery h)) st.

Definition setSearchQuery (s : string) (st : state) : state :=
  let h := hooks_of st in
  set_hooks (negb (String.eqb (searchQuery h) s))
    (mkHooks (patients h) (filteredPatients h) (loading h) s) st.

(** A fresh heap cell for a value produced at run time. *)
Definition alloc (j : json) (st : state) : slot * state :=
  (mkSlot j (next_ref st),
   mkState (hooks_of st) (phase_of st) (dirty st) (mount_effect_done st) (filter_deps st)
     (view_of st) (tasks st) (next_task st) (S (next_ref st)) (errors_logged st)).

Definition set_tasks (ts : list task) (st : state) : state :=
  mkState (hooks_of st) (phase_of st) (dirty st) (mount_effect_done st) (filter_deps st)
    (view_of st) ts (next_task st) (next_ref st) (errors_logged st).

(** [fetchPatients()] runs up to its first [await]. *)
Definition start_fetch (st : state) : state :=
  mkState (hooks_of st) (phase_of st) (dirty st) (mount_effect_done st) (filter_deps st)
    (view_of st) (tasks st ++ [mkTask (next_task st) AwaitFetch]) (S (next_task st))
    (next_ref st) (errors_logged st).

(** [console.error(...)] *)
Definition log_error (st : state) : state :=
  mkState (hooks_of st) (phase_of st) (dirty st) (mount_effect_done st) (filter_deps st)
    (view_of st) (tasks st) (next_task st) (next_ref st) (S (errors_logged st)).

Definition find_task (k : nat) (st : state) : option stage :=
  task_stage <$> List.find (fun t => Nat.eqb (task_id t) k) (tasks st).

Definition remove_task (k : nat) (st : state) : state :=
  set_tasks (List.filter (fun t => negb (Nat.eqb (task_id t) k)) (tasks st)) st.

Definition set_stage (k : nat) (sg : stage) (st : state) : state :=
  set_tasks (map (fun t => if Nat.eqb (task_id t) k then mkTask k sg else t) (tasks st)) st.

Definition set_phase (ph : phase) (st : state) : state :=
  mkState (hooks_of st) ph (dirty st) (mount_effect_done st) (filter_deps st)
    (view_of st) (tasks st) (next_task st) (next_ref st) (errors_logged st).

(** An exception escapes a render or an effect: with no error boundary,
    React unmounts the tree. *)
Definition crash (e : js_error) (st : state) : state := set_phase (Crashed e) st.

(** ** [fetchPatients] (lines 26-37) *)

(** [await fetch(...)] resumes. *)
Definition resume_fetch (k : nat) (r : fetch_result) (st : state) : state :=
  match r with
  | NetworkError => remove_task k (setLoading false (log_error st))  (** catch; finally *)
  | Response s b => set_stage k (AwaitJson s b) st
  end.

(** [await res.json()] resumes: the parsed value is one fresh object,
    stored in both [patients] and [filteredPatients]; the status of the
    response is never read. *)
Definition resume_json (k : nat) (b : option json) (st : state) : state :=
  match b with
  | None => remove_task k (setLoading false (log_error st))
  | Some data =>
      let (d, st1) := alloc data st in
      remove_task k (setLoading false (setFilteredPatients d (setPatients d st1)))
  end.

(** ** Commit: render, then the passive effects in declaration order *)

Definition committed (v : view) (st : state) : state :=
  mkState (hooks_of st) (phase_of st) false (mount_effect_done st) (filter_deps st)
    (Some v) (tasks st) (next_task st) (next_ref st) (errors_logged st).

(** [useEffect(() => { fetchPatients(); }, [])] (lines 39-41). *)
Definition run_mount_effect (st : state) : state :=
  if mount_effect_done st then st
  else start_fetch
         (mkState (hooks_of st) (phase_of st) (dirty st) true (filter_deps st)
            (view_of st) (tasks st) (next_task st) (next_ref st) (errors_logged st)).

Definition set_deps (d : option (string * slot)) (st : state) : state :=
  mkState (hooks_of st) (phase_of st) (dirty st) (mount_effect_done st) d
    (view_of st) (tasks st) (next_task st) (next_ref st) (errors_logged st).

Definition deps_match (deps : option (string * slot)) (h : hooks) : bool :=
  match deps with
  | Some (q0, p0) => String.eqb q0 (searchQuery h) && same_value p0 (patients h)
  | None => false
  end.

Definition deps_unchanged (st : state) : bool := deps_match (filter_deps st) (hooks_of st).

(** The filter effect (lines 43-50), run when [searchQuery] or [patients]
    changed since its last run. *)
Definition run_filter_effect (st : state) : state :=
  if deps_unchanged st then st else
  let h := hooks_of st in
  let st := set_deps (Some (searchQuery h, patients h)) st in
  match filter_js (searchQuery h) (sval (patients h)) with
  | Err e => crash e st
  | Ok l => let (v, st1) := alloc (JArr l) st in setFilteredPatients v st1
  end.

Definition commit (st : state) : state :=
  let h := hooks_of st in
  match render (loading h) (searchQuery h) (sval (filteredPatients h)) with
  | Err e => crash e st
  | Ok v => run_filter_effect (run_mount_effect (committed v st))
  end.

(** ** Events *)

Inductive event : Type :=
| Commit                                  (** React renders and commits *)
| TypeQuery (s : string)                  (** onChange of the search box, line 88 *)
| FetchSettled (k : nat) (r : fetch_result)
| JsonSettled (k : nat)
| PatientAdded                            (** AddPatientDialog onPatientAdded, lines 73, 180 *)
| PatientDeleted (i : nat)                (** DeletePatientDialog of the i-th card, line 160 *)
| Unmount.                                (** navigation away from the page *)

Definition shown (st : state) : bool :=
  is_mounted st && match view_of st with Some _ => true | None => false end.

Definition card_shown (i : nat) (st : state) : bool :=
  is_mounted st &&
  match view_of st with
  | Some v => match v_body v with Cards cs => Nat.ltb i (List.length cs) | _ => false end
  | None => false
  end.

Definition step (st : state) (ev : event) : option state :=
  match ev with
  | Commit => if is_mounted st && dirty st then Some (commit st) else None
  | TypeQuery s => if shown st then Some (setSearchQuery s st) else None
  | FetchSettled k r =>
      match find_task k st with Some AwaitFetch => Some (resume_fetch k r st) | _ => None end
  | JsonSettled k =>
      match find_task k st with Some (AwaitJson _ b) => Some (resume_json k b st) | _ => None end
  | PatientAdded => if shown st then Some (start_fetch st) else None
  | PatientDeleted i => if card_shown i st then Some (start_fetch st) else None
  | Unmount => if is_mounted st then Some (set_phase Unmounted st) else None
  end.

Definition Step (st st' : state) : Prop := exists ev, step st ev = Some st'.

Definition reachable (st : state) : Prop := rtc Step init st.

(** A sequence of events, run in order. *)
Fixpoint run (st : state) (evs : list event) : option state :=
  match evs with
  | [] => Some st
  | ev :: evs' => st' ← step st ev; run st' evs'
  end.

(** The events by which the network settles the call [t] with the
    outcome [r]: the rejected [fetch], or the response and then its body. *)
Definition finish_call (r : fetch_result) (t : task) : list event :=
  match task_stage t, r with
  | AwaitFetch, NetworkError => [FetchSettled (task_id t) NetworkError]
  | AwaitFetch, Response _ _ => [FetchSettled (task_id t) r; JsonSettled (task_id t)]
  | AwaitJson _ _, _ => [JsonSettled (task_id t)]
  end.

(** The calls in flight settled oldest first, call [k] with outcome [out k]. *)
Definition finish_calls (out : nat -> fetch_result) (ts : list task) : list event :=
  List.flat_map (fun t => finish_call (out (task_id t)) t) ts.

(** ** Lemmas on [Object.is] and the setters *)

Lemma same_value_obj_l a b :
  is_object (sval a) = true -> same_value a b = true ->
  is_object (sval b) = true /\ sref a = sref b.
Proof.
  unfold same_value. intros ->. simpl.
  rewrite !andb_true_iff, Nat.eqb_eq. naive_solver.
Qed.

Lemma same_value_obj_r a b :
  is_object (sval b) = true -> same_value a b = true ->
  is_object (sval a) = true /\ sref a = sref b.
Proof.
  unfold same_value. intros ->. rewrite orb_true_r.
  rewrite !andb_true_iff, Nat.eqb_eq. naive_solver.
Qed.

Lemma same_value_refl_obj a : is_object (sval a) = true -> same_value a a = true.
Proof. unfold same_value. intros ->. simpl. apply Nat.eqb_refl. Qed.

(** A fresh value is never [Object.is] an object allocated before it. *)
Lemma same_value_fresh a b :
  sref a < sref b -> is_object (sval a) = true -> same_value a b = false.
Proof.
  intros Hlt Ha. destruct (same_value a b) eqn:E; [|done].
  apply same_value_obj_l in E as [_ ?]; [lia | done].
Qed.

Lemma same_value_fresh_r a b :
  sref a < sref b -> is_object (sval b) = true -> same_value a b = false.
Proof.
  intros Hlt Hb. destruct (same_value a b) eqn:E; [|done].
  apply same_value_obj_r in E as [_ ?]; [lia | done].
Qed.

Lemma set_hooks_cases changed h st :
  set_hooks changed h st = st \/
  (is_mounted st = true /\ changed = true /\
   set_hooks changed h st =
     mkState h (phase_of st) true (mount_effect_done st) (filter_deps st) (view_of st)
       (tasks st) (next_task st) (next_ref st) (errors_logged st)).
Proof. unfold set_hooks. destruct (is_mounted st), changed; simpl; auto. Qed.

Lemma set_hooks_unmounted changed h st :
  is_mounted st = false -> set_hooks changed h st = st.
Proof. unfold set_hooks. by intros ->. Qed.

Lemma set_hooks_frame changed h st :
  phase_of (set_hooks changed h st) = phase_of st /\
  filter_deps (set_hooks changed h st) = filter_deps st /\
  next_ref (set_hooks changed h st) = next_ref st /\
  tasks (set_hooks changed h st) = tasks st /\
  view_of (set_hooks changed h st) = view_of st /\
  mount_effect_done (set_hooks changed h st) = mount_effect_done st.
Proof. unfold set_hooks. by destruct (is_mounted st && changed). Qed.

(** ** The invariant of reachable states *)

Record inv (st : state) : Prop := {
  (** heap identities held by the state are allocated *)
  inv_fresh_p : sref (patients (hooks_of st)) < next_ref st;
  inv_fresh_f : sref (filteredPatients (hooks_of st)) < next_ref st;
  (** the dependencies of the last filter run are an allocated array, which is
      either the current [patients] or another object *)
  inv_deps : forall q0 p0, is_mounted st = true -> filter_deps st = Some (q0, p0) ->
    sref p0 < next_ref st /\ is_object (sval p0) = true /\
    (p0 = patients (hooks_of st) \/ sref p0 <> sref (patients (hooks_of st)));
  (** while [patients] is the array the filter last ran on, [filteredPatients]
      holds that run's result *)
  inv_consistent : forall q0, is_mounted st = true ->
    filter_deps st = Some (q0, patients (hooks_of st)) ->
    exists l, filter_js q0 (sval (patients (hooks_of st))) = Ok l /\
              sval (filteredPatients (hooks_of st)) = JArr l;
  (** with no render scheduled, the effects have seen the current state *)
  inv_settled : is_mounted st = true -> dirty st = false -> deps_unchanged st = true;
  (** while loading, nothing has been fetched *)
  inv_loading : loading (hooks_of st) = true ->
    sval (patients (hooks_of st)) = JArr [] /\ sval (filteredPatients (hooks_of st)) = JArr []
}.

(** The fields the invariant reads. *)
Definition core (st : state) :=
  (hooks_of st, phase_of st, dirty st, filter_deps st, next_ref st).

Lemma inv_core st st' : core st' = core st -> inv st -> inv st'.
Proof.
  destruct st, st'. unfold core, deps_unchanged, is_mounted. simpl.
  intros [= -> -> -> -> ->] []. by constructor.
Qed.

Lemma inv_init : inv init.
Proof. constructor; simpl; try done; lia. Qed.

Lemma inv_start_fetch st : inv st -> inv (start_fetch st).
Proof. by apply inv_core. Qed.

Lemma inv_remove_task k st : inv st -> inv (remove_task k st).
Proof. by apply inv_core. Qed.

Lemma inv_set_stage k sg st : inv st -> inv (set_stage k sg st).
Proof. by apply inv_core. Qed.

Lemma inv_log_error st : inv st -> inv (log_error st).
Proof. by apply inv_core. Qed.

#[local] Hint Resolve inv_start_fetch inv_remove_task inv_set_stage inv_log_error : dd.

(** Leaving the [Mounted] phase keeps the invariant. *)
Lemma inv_set_phase ph st : ph <> Mounted -> inv st -> inv (set_phase ph st).
Proof.
  intros Hph [] . unfold set_phase, is_mounted. constructor; simpl; try done;
    destruct ph; done.
Qed.

Lemma inv_crash e st : inv st -> inv (crash e st).
Proof. apply inv_set_phase. discriminate. Qed.

Lemma inv_setSearchQuery s st : inv st -> inv (setSearchQuery s st).
Proof.
  intros Hi. unfold setSearchQuery.
  destruct (set_hooks_cases (negb (String.eqb (searchQuery (hooks_of st)) s))
             (mkHooks (patients (hooks_of st)) (filteredPatients (hooks_of st))
                (loading (hooks_of st)) s) st) as [-> | (Hm & _ & ->)]; [done|].
  destruct Hi. unfold is_mounted in *. constructor; simpl; auto; discriminate.
Qed.

Lemma inv_setLoading_false st : inv st -> inv (setLoading false st).
Proof.
  intros Hi. unfold setLoading.
  destruct (set_hooks_cases (negb (Bool.eqb (loading (hooks_of st)) false))
             (mkHooks (patients (hooks_of st)) (filteredPatients (hooks_of st))
                false (searchQuery (hooks_of st))) st) as [-> | (Hm & _ & ->)]; [done|].
  destruct Hi. unfold is_mounted, deps_unchanged in *. constructor; simpl; auto; discriminate.
Qed.

#[local] Hint Resolve inv_crash inv_setSearchQuery inv_setLoading_false : dd.

Lemma inv_alloc j st : inv st -> inv (alloc j st).2.
Proof.
  intros []. constructor; simpl; auto with lia.
  intros q0 p0 Hm Hd. destruct (inv_deps0 q0 p0 Hm Hd) as (? & ? & ?). auto with lia.
Qed.

(** The fields a mounted component holds after [setPatients(d);
    setFilteredPatients(d); setLoading(false)]. *)
Lemma store_core d st :
  is_mounted st = true ->
  let h := hooks_of st in
  let A := same_value (patients h) d in
  let B := same_value (filteredPatients h) d in
  core (setLoading false (setFilteredPatients d (setPatients d st))) =
  (mkHooks (if A then patients h else d) (if B then filteredPatients h else d) false
     (searchQuery h),
   phase_of st, dirty st || negb A || negb B || loading h, filter_deps st, next_ref st).
Proof.
  destruct st as [[P F lo q] [| |] dt mfd deps v ts nt nr el]; try discriminate.
  intros _ h A B. subst h A B. simpl.
  unfold setLoading, setFilteredPatients, setPatients, set_hooks, core. simpl.
  destruct (same_value P d); simpl; destruct (same_value F d); simpl;
    destruct lo, dt; reflexivity.
Qed.

(** The invariant read off the fields of [core]. *)
Lemma inv_intro st h ph dt deps nr :
  core st = (h, ph, dt, deps, nr) ->
  sref (patients h) < nr ->
  sref (filteredPatients h) < nr ->
  (ph = Mounted -> forall q0 p0, deps = Some (q0, p0) ->
     sref p0 < nr /\ is_object (sval p0) = true /\
     (p0 = patients h \/ sref p0 <> sref (patients h))) ->
  (ph = Mounted -> forall q0, deps = Some (q0, patients h) ->
     exists l, filter_js q0 (sval (patients h)) = Ok l /\ sval (filteredPatients h) = JArr l) ->
  (ph = Mounted -> dt = false -> deps_match deps h = true) ->
  (loading h = true -> sval (patients h) = JArr [] /\ sval (filteredPatients h) = JArr []) ->
  inv st.
Proof.
  destruct st as [h' ph' dt' mfd deps' v ts nt nr' el]. unfold core. simpl.
  intros [= -> -> -> -> ->] H1 H2 H3 H4 H5 H6.
  constructor; unfold is_mounted, deps_unchanged; simpl; auto;
    destruct ph; try discriminate; intros; eauto.
Qed.

Lemma same_value_fresh_prim a d :
  sref a < sref d -> same_value a d = true ->
  is_object (sval a) = false /\ is_object (sval d) = false.
Proof.
  intros Hlt Hs. destruct (is_object (sval a)) eqn:Ea.
  - by rewrite same_value_fresh in Hs.
  - destruct (is_object (sval d)) eqn:Ed; [|done].
    by rewrite same_value_fresh_r in Hs.
Qed.

(** [setPatients(d); setFilteredPatients(d); setLoading(false)] on a value
    [d] allocated after everything the state holds. *)
Lemma inv_store d st :
  inv st -> next_ref st = S (sref d) ->
  sref (patients (hooks_of st)) < sref d ->
  sref (filteredPatients (hooks_of st)) < sref d ->
  (forall q0 p0, is_mounted st = true -> filter_deps st = Some (q0, p0) -> sref p0 < sref d) ->
  inv (setLoading false (setFilteredPatients d (setPatients d st))).
Proof.
  intros Hi Hn HP HF Hd.
  destruct (is_mounted st) eqn:Hm.
  2:{ unfold setLoading, setFilteredPatients, setPatients.
       by rewrite !(set_hooks_unmounted _ _ st Hm). }
  destruct Hi as [F1 F2 D C Hs L].
  eapply (inv_intro _ _ _ _ _ _ (store_core d st Hm)); simpl; rewrite ?Hn.
  - destruct (same_value _ d); lia.
  - destruct (same_value _ d); lia.
  - intros Hph q0 p0 Hdeps. destruct (D q0 p0 Hm Hdeps) as (? & ? & ?).
    specialize (Hd q0 p0 eq_refl Hdeps). destruct (same_value _ d); simpl; repeat split; auto with lia.
  - intros Hph q0 Hdeps. destruct (same_value (patients (hooks_of st)) d) eqn:EA.
    + apply same_value_fresh_prim in EA as [EA _]; [|done].
      destruct (D q0 _ Hm Hdeps) as (_ & Hobj & _). congruence.
    + specialize (Hd q0 d eq_refl Hdeps). lia.
  - intros Hph Hdt. apply orb_false_iff in Hdt as [Hdt Hlo].
    apply orb_false_iff in Hdt as [Hdt HB]. apply orb_false_iff in Hdt as [Hdt HA].
    apply negb_false_iff in HA, HB. rewrite HA, HB.
    specialize (Hs Hm Hdt). unfold deps_unchanged in Hs.
    destruct (hooks_of st) as [P F lo q]. simpl in *. by subst lo.
  - done.
Qed.

(** A component that is no longer mounted keeps the invariant as long as its
    slots stay allocated and nothing was loaded while [loading]. *)
Lemma inv_unmounted st :
  is_mounted st = false ->
  sref (patients (hooks_of st)) < next_ref st ->
  sref (filteredPatients (hooks_of st)) < next_ref st ->
  (loading (hooks_of st) = true ->
     sval (patients (hooks_of st)) = JArr [] /\ sval (filteredPatients (hooks_of st)) = JArr []) ->
  inv st.
Proof. intros Hm H1 H2 H3. constructor; auto; intros; congruence. Qed.

Lemma inv_resume_fetch k r st : inv st -> inv (resume_fetch k r st).
Proof. destruct r; simpl; auto with dd. Qed.

Lemma inv_resume_json k b st : inv st -> inv (resume_json k b st).
Proof.
  intros Hi. destruct b as [data|]; simpl; [|auto with dd].
  apply inv_remove_task. pose proof Hi as [F1 F2 D _ _ _].
  apply inv_store; simpl; [exact (inv_alloc data st Hi) | done | exact F1 | exact F2 |].
  intros q0 p0 Hm Hd. by destruct (D q0 p0 Hm Hd).
Qed.

Lemma filter_js_array q j l : filter_js q j = Ok l -> is_object j = true.
Proof. by destruct j. Qed.

Lemma filter_js_nil q : filter_js q (JArr []) = Ok [].
Proof. reflexivity. Qed.

Lemma inv_commit st : is_mounted st = true -> inv st -> inv (commit st).
Proof.
  destruct st as [h [| |] dt mfd deps vw ts nt nr el]; try discriminate. intros _ Hi.
  pose proof Hi as [F1 F2 D C Hs L]. simpl in *.
  unfold commit. simpl. destruct (render _ _ _) as [v|e]; [|by apply inv_crash].
  destruct mfd; unfold run_mount_effect, run_filter_effect, deps_unchanged; simpl;
    destruct (deps_match deps h) eqn:Hdm.
  all: try (constructor; simpl; auto; discriminate).
  all: destruct (filter_js (searchQuery h) (sval (patients h))) as [l|e] eqn:Hf;
    [| apply inv_unmounted; simpl; auto].
  all: unfold setFilteredPatients, set_hooks, is_mounted; simpl;
    rewrite (same_value_fresh_r _ (mkSlot (JArr l) nr)); simpl; [|lia|done].
  all: pose proof (filter_js_array _ _ _ Hf) as Hobj.
  all: apply (inv_intro _ _ _ _ _ _ eq_refl); simpl; try lia.
  all: try (intros _ q0 p0 [= <- <-]; auto with lia).
  all: try (intros _ q0 [= <-]; eauto).
  all: try (intros _ ?; discriminate).
  all: intros Hlo; destruct (L Hlo) as [HP _]; rewrite HP in Hf; simpl in Hf.
  all: by injection Hf as <-.
Qed.

Lemma inv_step st ev st' : step st ev = Some st' -> inv st -> inv st'.
Proof.
  intros Hstep Hi. destruct ev; simpl in Hstep.
  - destruct (is_mounted st) eqn:Hm, (dirty st); simpl in Hstep; simplify_eq.
    by apply inv_commit.
  - destruct (shown st); simplify_eq; auto with dd.
  - destruct (find_task k st) as [[|]|]; simplify_eq. by apply inv_resume_fetch.
  - destruct (find_task k st) as [[|]|]; simplify_eq. by apply inv_resume_json.
  - destruct (shown st); simplify_eq; auto with dd.
  - destruct (card_shown i st); simplify_eq; auto with dd.
  - destruct (is_mounted st) eqn:Hm; simplify_eq. apply inv_set_phase; [discriminate | done].
Qed.

Lemma rtc_inv st st' : rtc Step st st' -> inv st -> inv st'.
Proof. induction 1 as [|x y z [ev Hxy] _ IH]; eauto using inv_step. Qed.

Lemma reachable_inv st : reachable st -> inv st.
Proof. intros H. exact (rtc_inv _ _ H inv_init). Qed.

Lemma run_rtc st evs st' : run st evs = Some st' -> rtc Step st st'.
Proof.
  revert st. induction evs as [|ev evs IH]; simpl; intros st H; [by simplify_eq|].
  destruct (step st ev) as [st1|] eqn:E; simpl in H; [|discriminate].
  eapply rtc_l; [by exists ev | eauto].
Qed.

Lemma run_two st ev1 ev2 st1 st2 :
  step st ev1 = Some st1 -> step st1 ev2 = Some st2 -> run st [ev1; ev2] = Some st2.
Proof. intros H1 H2. simpl. rewrite H1. simpl. by rewrite H2. Qed.

Lemma run_reachable evs st : run init evs = Some st -> reachable st.
Proof. apply run_rtc. Qed.

Lemma reachable_step st ev st' : reachable st -> step st ev = Some st' -> reachable st'.
Proof. intros H1 H2. eapply rtc_r; [exact H1 | by exists ev]. Qed.

#[export] Hint Resolve reachable_inv run_reachable reachable_step : dd.

(** ** Lemmas for the properties *)

Lemma prim_eqb_eq a b : prim_eqb a b = true -> a = b.
Proof.
  destruct a, b; simpl; try discriminate; auto.
  - by intros ->%Bool.eqb_prop.
  - by intros ->%Z.eqb_eq.
  - by intros ->%String.eqb_eq.
Qed.

(** [Object.is] between an allocated value and a fresh one holds only for
    equal primitives. *)
Lemma same_value_fresh_eq a d :
  sref a < sref d -> same_value a d = true -> sval a = sval d.
Proof.
  intros Hlt Hs. pose proof (same_value_fresh_prim _ _ Hlt Hs) as [Ha Hd].
  unfold same_value in Hs. rewrite Ha, Hd in Hs. by apply prim_eqb_eq.
Qed.

Lemma find_task_remove k st : find_task k (remove_task k st) = None.
Proof.
  unfold find_task, remove_task, set_tasks. simpl.
  induction (tasks st) as [|t ts IH]; simpl; [done|].
  destruct (Nat.eqb (task_id t) k) eqn:E; simpl; [done|]. by rewrite E.
Qed.

Lemma find_task_remove_ne k k' st :
  k <> k' -> find_task k (remove_task k' st) = find_task k st.
Proof.
  intros Hne. unfold find_task, remove_task, set_tasks. simpl.
  induction (tasks st) as [|t ts IH]; simpl; [done|].
  destruct (Nat.eqb (task_id t) k') eqn:E'; simpl;
    destruct (Nat.eqb (task_id t) k) eqn:E; simpl; auto.
  apply Nat.eqb_eq in E, E'. congruence.
Qed.

Lemma find_task_set_stage k sg st sg0 :
  find_task k st = Some sg0 -> find_task k (set_stage k sg st) = Some sg.
Proof.
  unfold find_task, set_stage, set_tasks. simpl.
  induction (tasks st) as [|t ts IH]; simpl; [done|].
  destruct (Nat.eqb (task_id t) k) eqn:E; simpl; [by rewrite Nat.eqb_refl|].
  rewrite E. auto.
Qed.

Lemma store_hooks_eq d st :
  is_mounted st = true ->
  hooks_of (setLoading false (setFilteredPatients d (setPatients d st))) =
  mkHooks (if same_value (patients (hooks_of st)) d then patients (hooks_of st) else d)
    (if same_value (filteredPatients (hooks_of st)) d then filteredPatients (hooks_of st) else d)
    false (searchQuery (hooks_of st)).
Proof.
  intros Hm. pose proof (store_core d st Hm) as Hc. unfold core in Hc. cbv zeta in Hc.
  by injection Hc as Eh _ _ _ _.
Qed.

Section Store.
Variables (st : state) (d : slot).
Let st' := setLoading false (setFilteredPatients d (setPatients d st)).

Lemma store_frame :
  phase_of st' = phase_of st /\ tasks st' = tasks st /\ view_of st' = view_of st /\
  next_ref st' = next_ref st /\ filter_deps st' = filter_deps st.
Proof.
  subst st'. unfold setLoading, setFilteredPatients, setPatients, set_hooks.
  repeat (case_match; simpl); auto.
Qed.

(** On a mounted component, a fresh [d] ends up in both slots. *)
Lemma store_hooks :
  is_mounted st = true ->
  sref (patients (hooks_of st)) < sref d ->
  sref (filteredPatients (hooks_of st)) < sref d ->
  sval (patients (hooks_of st')) = sval d /\
  sval (filteredPatients (hooks_of st')) = sval d /\
  loading (hooks_of st') = false /\
  searchQuery (hooks_of st') = searchQuery (hooks_of st) /\
  (is_object (sval (patients (hooks_of st))) = true \/ dirty st = true -> dirty st' = true).
Proof.
  intros Hm HP HF. pose proof (store_core d st Hm) as Hc. fold st' in Hc.
  unfold core in Hc. injection Hc as Eh _ Edt _ _. rewrite Eh, Edt. simpl.
  assert (HB : sval (if same_value (filteredPatients (hooks_of st)) d
                     then filteredPatients (hooks_of st) else d) = sval d).
  { destruct (same_value (filteredPatients (hooks_of st)) d) eqn:EB;
      [by apply same_value_fresh_eq | done]. }
  destruct (same_value (patients (hooks_of st)) d) eqn:EA; simpl.
  - pose proof (same_value_fresh_prim _ _ HP EA) as [HPo _].
    repeat split; auto; [by apply same_value_fresh_eq|].
    intros [? | ->]; [congruence | done].
  - repeat split; auto. intros _. by rewrite orb_true_r.
Qed.
End Store.

Lemma resume_json_Some k d st :
  resume_json k (Some d) st =
  remove_task k (setLoading false (setFilteredPatients (mkSlot d (next_ref st))
    (setPatients (mkSlot d (next_ref st)) (alloc d st).2))).
Proof. reflexivity. Qed.

Lemma hooks_remove_task k st : hooks_of (remove_task k st) = hooks_of st.
Proof. reflexivity. Qed.

Lemma is_mounted_remove_task k st : is_mounted (remove_task k st) = is_mounted st.
Proof. reflexivity. Qed.

Lemma is_mounted_store d st :
  is_mounted (setLoading false (setFilteredPatients d (setPatients d st))) = is_mounted st.
Proof. unfold is_mounted. by rewrite (proj1 (store_frame st d)). Qed.

Lemma find_task_store k d st :
  find_task k (setLoading false (setFilteredPatients d (setPatients d st))) = find_task k st.
Proof. unfold find_task. by rewrite (proj1 (proj2 (store_frame st d))). Qed.

(** With no render scheduled, the filter has run on the current query and
    the current [patients]. *)
Lemma deps_current st :
  inv st -> is_mounted st = true -> dirty st = false ->
  filter_deps st = Some (searchQuery (hooks_of st), patients (hooks_of st)).
Proof.
  intros Hi Hm Hdt. pose proof Hi as [_ _ D _ Hs _].
  specialize (Hs Hm Hdt). unfold deps_unchanged, deps_match in Hs.
  destruct (filter_deps st) as [[q0 p0]|] eqn:Hd; [|discriminate].
  apply andb_true_iff in Hs as [Hq Hsv]. apply String.eqb_eq in Hq as ->.
  destruct (D _ p0 Hm eq_refl) as (_ & Hobj & [-> | Hne]); [done|].
  apply same_value_obj_l in Hsv as [_ ?]; [congruence | done].
Qed.

Lemma settled_consistent st :
  reachable st -> is_mounted st = true -> dirty st = false ->
  exists l, filter_js (searchQuery (hooks_of st)) (sval (patients (hooks_of st))) = Ok l /\
            sval (filteredPatients (hooks_of st)) = JArr l.
Proof.
  intros Hr Hm Hdt. pose proof (reachable_inv _ Hr) as Hi.
  apply (inv_consistent _ Hi); [done|]. by apply deps_current.
Qed.

Lemma settled_filtered_typed st R :
  reachable st -> is_mounted st = true -> dirty st = false ->
  sval (patients (hooks_of st)) = encode_patients R ->
  sval (filteredPatients (hooks_of st)) =
  encode_patients (filter_patients (searchQuery (hooks_of st)) R).
Proof.
  intros Hr Hm Hdt HR. destruct (settled_consistent st Hr Hm Hdt) as (l & Hf & ->).
  rewrite HR, filter_js_refines in Hf. by injection Hf as <-.
Qed.

(** The success path of one [fetchPatients] call, on a reachable mounted
    component. *)
Lemma json_settled_store st k s d :
  reachable st -> is_mounted st = true -> find_task k st = Some (AwaitJson s (Some d)) ->
  exists st', step st (JsonSettled k) = Some st' /\
    sval (patients (hooks_of st')) = d /\ sval (filteredPatients (hooks_of st')) = d /\
    loading (hooks_of st') = false /\ searchQuery (hooks_of st') = searchQuery (hooks_of st) /\
    find_task k st' = None /\ is_mounted st' = true /\
    (is_object (sval (patients (hooks_of st))) = true \/ dirty st = true -> dirty st' = true) /\
    (forall k', k' <> k -> find_task k' st' = find_task k' st).
Proof.
  intros Hr Hm Hk. pose proof (reachable_inv _ Hr) as [F1 F2 _ _ _ _].
  simpl. rewrite Hk. eexists. split; [reflexivity|]. rewrite resume_json_Some.
  rewrite hooks_remove_task, is_mounted_remove_task, find_task_remove, is_mounted_store.
  destruct (store_hooks (alloc d st).2 (mkSlot d (next_ref st))) as (H1 & H2 & H3 & H4 & H5);
    simpl; auto.
  repeat split; auto. intros k' Hne. by rewrite find_task_remove_ne, find_task_store.
Qed.

(** The setters do not look at the calls in flight. *)
Lemma set_hooks_set_tasks c h ts st :
  set_hooks c h (set_tasks ts st) = set_tasks ts (set_hooks c h st).
Proof.
  unfold set_hooks. change (is_mounted (set_tasks ts st)) with (is_mounted st).
  by destruct (is_mounted st && c).
Qed.

Lemma setPatients_set_tasks d ts st :
  setPatients d (set_tasks ts st) = set_tasks ts (setPatients d st).
Proof. apply set_hooks_set_tasks. Qed.

Lemma setFilteredPatients_set_tasks d ts st :
  setFilteredPatients d (set_tasks ts st) = set_tasks ts (setFilteredPatients d st).
Proof. apply set_hooks_set_tasks. Qed.

Lemma setLoading_set_tasks b ts st :
  setLoading b (set_tasks ts st) = set_tasks ts (setLoading b st).
Proof. apply set_hooks_set_tasks. Qed.

Lemma set_tasks_set_tasks ts ts' st : set_tasks ts (set_tasks ts' st) = set_tasks ts st.
Proof. reflexivity. Qed.

#[local] Hint Rewrite setPatients_set_tasks setFilteredPatients_set_tasks
  setLoading_set_tasks set_tasks_set_tasks : dd_rw.

Lemma filter_map_stage k sg (ts : list task) :
  List.filter (fun t => negb (Nat.eqb (task_id t) k))
    (map (fun t => if Nat.eqb (task_id t) k then mkTask k sg else t) ts) =
  List.filter (fun t => negb (Nat.eqb (task_id t) k)) ts.
Proof.
  induction ts as [|t ts IH]; simpl; [done|].
  destruct (Nat.eqb (task_id t) k) eqn:E; simpl; [by rewrite Nat.eqb_refl|].
  rewrite E. simpl. by rewrite IH.
Qed.

Lemma alloc_set_tasks j ts st : (alloc j (set_tasks ts st)) = let (d, st') := alloc j st in (d, set_tasks ts st').
Proof. reflexivity. Qed.

Lemma log_error_set_tasks ts st : log_error (set_tasks ts st) = set_tasks ts (log_error st).
Proof. reflexivity. Qed.

Lemma next_ref_set_tasks ts st : next_ref (set_tasks ts st) = next_ref st.
Proof. reflexivity. Qed.

Lemma remove_task_set_tasks k ts st :
  remove_task k (set_tasks ts st) =
  set_tasks (List.filter (fun t => negb (Nat.eqb (task_id t) k)) ts) st.
Proof. reflexivity. Qed.

#[local] Hint Rewrite alloc_set_tasks log_error_set_tasks next_ref_set_tasks
  remove_task_set_tasks : dd_rw.

(** Where [fetchPatients] resumes after [res.json()] does not depend on the
    stage it was suspended at. *)
Lemma resume_json_set_stage k b sg st :
  resume_json k b (set_stage k sg st) = resume_json k b st.
Proof.
  unfold set_stage. destruct b as [d|].
  - rewrite !resume_json_Some. autorewrite with dd_rw. simpl.
    autorewrite with dd_rw. rewrite filter_map_stage.
    unfold remove_task. f_equal. f_equal. symmetry.
    apply (store_frame (alloc d st).2 (mkSlot d (next_ref st))).
  - unfold resume_json. autorewrite with dd_rw. rewrite filter_map_stage.
    unfold remove_task. f_equal. f_equal. unfold setLoading, set_hooks. by case_match.
Qed.

Lemma loading_set_hooks c h st :
  loading (hooks_of (set_hooks c h st)) =
  if is_mounted st && c then loading h else loading (hooks_of st).
Proof. unfold set_hooks. by destruct (is_mounted st && c). Qed.

(** [loading] only ever changes to [false]. *)
Lemma loading_true_step st ev st' :
  step st ev = Some st' -> loading (hooks_of st') = true -> loading (hooks_of st) = true.
Proof.
  intros Hstep. destruct ev; simpl in Hstep; repeat case_match; simplify_eq;
    unfold commit, run_filter_effect, run_mount_effect, resume_fetch, resume_json,
      setSearchQuery, setPatients, setFilteredPatients, setLoading, crash, set_phase,
      start_fetch, remove_task, set_stage, set_tasks, log_error, committed, set_deps, alloc;
    repeat (case_match; simpl); rewrite ?loading_set_hooks; simpl;
    repeat (case_match; simpl); try congruence.
Qed.

(** ** Concrete runs used by the witnesses *)

Definition asha_rows : json := encode_patients [asha].

Definition ben : Patient := mkPatient 2 "Ben Das" 50 "M" "Fracture" "2025-01-03" None.

Definition state_after (evs : list event) : state := default init (run init evs).

(** Mount, the backend answers, the list settles, the user searches "pneu". *)
Definition trace_search : list event :=
  [Commit; FetchSettled 0 (Response 200 (Some asha_rows)); JsonSettled 0; Commit; Commit;
   TypeQuery "pneu"; Commit; Commit].

(** Mount, the list settles, a patient is added (second fetch); both
    responses arrive, the newer one first. *)
Definition trace_two_fetches : list event :=
  [Commit; FetchSettled 0 (Response 200 (Some (JArr []))); JsonSettled 0; Commit; Commit;
   PatientAdded; FetchSettled 1 (Response 200 (Some asha_rows));
   PatientAdded; FetchSettled 2 (Response 200 (Some (encode_patients [asha; ben])))].

Ltac reach evs := apply (run_reachable evs); vm_compute; reflexivity.

(** ** Properties *)

(** C5: Whenever React has no render pending, the
    list on screen is the search filter applied to the fetched records with the
    current query: [filteredPatients = filter(patients, searchQuery)]. *)
Theorem filtered_matches_search st R :
  reachable st -> is_mounted st = true -> dirty st = false ->
  sval (patients (hooks_of st)) = encode_patients R ->
  sval (filteredPatients (hooks_of st)) =
  encode_patients (filter_patients (searchQuery (hooks_of st)) R).
Proof. apply settled_filtered_typed. Qed.

Lemma filtered_matches_search_witness :
  let st := state_after trace_search in
  reachable st /\ is_mounted st = true /\ dirty st = false /\
  sval (patients (hooks_of st)) = encode_patients [asha] /\
  sval (filteredPatients (hooks_of st)) =
  encode_patients (filter_patients (searchQuery (hooks_of st)) [asha]).
Proof.
  assert (Hr : reachable (state_after trace_search)) by reach trace_search.
  split; [exact Hr|]. split; [vm_compute; reflexivity|]. split; [vm_compute; reflexivity|].
  split; [vm_compute; reflexivity|].
  apply (filtered_matches_search _ [asha] Hr); vm_compute; reflexivity.
Defined.

(** C23: [loading] starts true and, once false, stays
    false: the refetches triggered by the add and delete dialogs never show the
    skeleton again. *)
Theorem loading_never_returns st ev st' :
  step st ev = Some st' -> loading (hooks_of st) = false -> loading (hooks_of st') = false.
Proof.
  intros Hstep Hlo. destruct (loading (hooks_of st')) eqn:E; [|done].
  by rewrite (loading_true_step _ _ _ Hstep E) in Hlo.
Qed.

Lemma loading_never_returns_witness :
  step (state_after trace_search) PatientAdded =
    Some (start_fetch (state_after trace_search)) /\
  loading (hooks_of (state_after trace_search)) = false /\
  loading (hooks_of (start_fetch (state_after trace_search))) = false.
Proof.
  split; [vm_compute; reflexivity|]. split; [vm_compute; reflexivity|].
  apply (loading_never_returns (state_after trace_search) PatientAdded);
    vm_compute; reflexivity.
Defined.

(** While [loading] is true no fetch has completed:
    both lists are still the initial empty array, so the counter shows 0. *)
Lemma loading_shows_empty st :
  reachable st -> loading (hooks_of st) = true ->
  sval (patients (hooks_of st)) = JArr [] /\ sval (filteredPatients (hooks_of st)) = JArr [].
Proof. intros Hr. apply (inv_loading _ (reachable_inv _ Hr)). Qed.

Lemma settled_patients_object st :
  inv st -> is_mounted st = true -> dirty st = false ->
  is_object (sval (patients (hooks_of st))) = true.
Proof.
  intros Hi Hm Hdt. pose proof (deps_current st Hi Hm Hdt) as Hd.
  by destruct (inv_deps _ Hi _ _ Hm Hd) as (_ & ? & _).
Qed.

(** C7: When [res.json()] of a call resolves with a
    patient array, [patients] becomes that array and [filteredPatients] the very
    same object, [loading] turns false and the query is kept. *)
Theorem fetch_success_replaces st k s R :
  reachable st -> is_mounted st = true ->
  find_task k st = Some (AwaitJson s (Some (encode_patients R))) ->
  exists st', step st (JsonSettled k) = Some st' /\
    sval (patients (hooks_of st')) = encode_patients R /\
    filteredPatients (hooks_of st') = patients (hooks_of st') /\
    loading (hooks_of st') = false /\
    searchQuery (hooks_of st') = searchQuery (hooks_of st) /\ find_task k st' = None.
Proof.
  intros Hr Hm Hk. pose proof (reachable_inv _ Hr) as [F1 F2 _ _ _ _].
  destruct (json_settled_store st k s _ Hr Hm Hk) as (st' & Hstep & HP & _ & Hlo & Hq & Hk' & _).
  exists st'. repeat split; auto.
  assert (E : st' = resume_json k (Some (encode_patients R)) st).
  { simpl in Hstep. rewrite Hk in Hstep. by injection Hstep. }
  subst st'. rewrite resume_json_Some, !hooks_remove_task, store_hooks_eq by done. simpl.
  rewrite !same_value_fresh_r; simpl; auto.
Qed.

Lemma fetch_success_replaces_witness :
  reachable (state_after [Commit; FetchSettled 0 (Response 200 (Some asha_rows))]) /\
  is_mounted (state_after [Commit; FetchSettled 0 (Response 200 (Some asha_rows))]) = true /\
  find_task 0 (state_after [Commit; FetchSettled 0 (Response 200 (Some asha_rows))]) =
    Some (AwaitJson 200 (Some (encode_patients [asha]))) /\
  exists st', step (state_after [Commit; FetchSettled 0 (Response 200 (Some asha_rows))])
                (JsonSettled 0) = Some st' /\
    sval (patients (hooks_of st')) = encode_patients [asha] /\
    filteredPatients (hooks_of st') = patients (hooks_of st') /\
    loading (hooks_of st') = false /\
    searchQuery (hooks_of st') =
      searchQuery (hooks_of (state_after [Commit; FetchSettled 0 (Response 200 (Some asha_rows))]))
    /\ find_task 0 st' = None.
Proof.
  assert (Hr : reachable (state_after [Commit; FetchSettled 0 (Response 200 (Some asha_rows))]))
    by reach [Commit; FetchSettled 0 (Response 200 (Some asha_rows))].
  split; [exact Hr|]. split; [vm_compute; reflexivity|]. split; [vm_compute; reflexivity|].
  apply (fetch_success_replaces _ 0 200 [asha] Hr); vm_compute; reflexivity.
Defined.

Lemma failure_path k st :
  let st' := remove_task k (setLoading false (log_error st)) in
  patients (hooks_of st') = patients (hooks_of st) /\
  filteredPatients (hooks_of st') = filteredPatients (hooks_of st) /\
  searchQuery (hooks_of st') = searchQuery (hooks_of st) /\
  errors_logged st' = S (errors_logged st) /\
  (is_mounted st = true -> loading (hooks_of st') = false) /\ find_task k st' = None.
Proof.
  simpl. rewrite find_task_remove. unfold setLoading, set_hooks, log_error, is_mounted. simpl.
  destruct (phase_of st); simpl; destruct (loading (hooks_of st)) eqn:E; simpl;
    repeat split; auto; discriminate.
Qed.

(** C8: A failed call (the network rejects, or the body
    is not JSON) logs one error and turns [loading] off, and leaves both record
    lists and the query as they were. *)
Theorem fetch_failure_keeps st k st' :
  (step st (FetchSettled k NetworkError) = Some st' \/
   ((exists s, find_task k st = Some (AwaitJson s None)) /\ step st (JsonSettled k) = Some st')) ->
  patients (hooks_of st') = patients (hooks_of st) /\
  filteredPatients (hooks_of st') = filteredPatients (hooks_of st) /\
  searchQuery (hooks_of st') = searchQuery (hooks_of st) /\
  errors_logged st' = S (errors_logged st) /\
  (is_mounted st = true -> loading (hooks_of st') = false) /\ find_task k st' = None.
Proof.
  intros [H | [[s Hk] H]]; simpl in H.
  - destruct (find_task k st) as [[|]|]; simplify_eq. apply failure_path.
  - rewrite Hk in H. simplify_eq. apply failure_path.
Qed.

Lemma fetch_failure_keeps_witness :
  step (state_after [Commit]) (FetchSettled 0 NetworkError) =
    Some (state_after [Commit; FetchSettled 0 NetworkError]) /\
  patients (hooks_of (state_after [Commit; FetchSettled 0 NetworkError])) =
    patients (hooks_of (state_after [Commit])) /\
  filteredPatients (hooks_of (state_after [Commit; FetchSettled 0 NetworkError])) =
    filteredPatients (hooks_of (state_after [Commit])) /\
  searchQuery (hooks_of (state_after [Commit; FetchSettled 0 NetworkError])) =
    searchQuery (hooks_of (state_after [Commit])) /\
  errors_logged (state_after [Commit; FetchSettled 0 NetworkError]) =
    S (errors_logged (state_after [Commit])) /\
  (is_mounted (state_after [Commit]) = true ->
     loading (hooks_of (state_after [Commit; FetchSettled 0 NetworkError])) = false) /\
  find_task 0 (state_after [Commit; FetchSettled 0 NetworkError]) = None.
Proof.
  assert (H : step (state_after [Commit]) (FetchSettled 0 NetworkError) =
                Some (state_after [Commit; FetchSettled 0 NetworkError]))
    by (vm_compute; reflexivity).
  split; [exact H|]. apply fetch_failure_keeps. by left.
Defined.

(** C12: The HTTP status of the response is never
    read: a 500 answer with a JSON body has exactly the effect of a 200 answer
    with the same body. *)
Theorem response_status_ignored st k s1 s2 b :
  find_task k st = Some AwaitFetch ->
  run st [FetchSettled k (Response s1 b); JsonSettled k] =
  run st [FetchSettled k (Response s2 b); JsonSettled k].
Proof.
  intros Hk. simpl. rewrite Hk. simpl.
  rewrite (find_task_set_stage k (AwaitJson s1 b) st AwaitFetch Hk).
  rewrite (find_task_set_stage k (AwaitJson s2 b) st AwaitFetch Hk). simpl.
  by rewrite !resume_json_set_stage.
Qed.

Lemma response_status_ignored_witness :
  find_task 0 (state_after [Commit]) = Some AwaitFetch /\
  run (state_after [Commit]) [FetchSettled 0 (Response 200 (Some asha_rows)); JsonSettled 0] =
  run (state_after [Commit]) [FetchSettled 0 (Response 500 (Some asha_rows)); JsonSettled 0].
Proof.
  split; [vm_compute; reflexivity|].
  apply response_status_ignored. vm_compute. reflexivity.
Defined.

(** C11: A response whose JSON body is not an array
    (an error object such as [{"error": ...}], a string, [null]) is stored as
    the patient list, and the next render throws: the page crashes instead of
    keeping the previous records. *)
Theorem non_array_body_crashes st k s d :
  reachable st -> is_mounted st = true -> find_task k st = Some (AwaitJson s (Some d)) ->
  (forall l, d <> JArr l) ->
  exists st1 st2 e, step st (JsonSettled k) = Some st1 /\ step st1 Commit = Some st2 /\
                    phase_of st2 = Crashed e.
Proof.
  intros Hr Hm Hk Hd.
  destruct (json_settled_store st k s d Hr Hm Hk)
    as (st1 & Hstep & _ & HF & Hlo & _ & _ & Hm1 & Hdt & _).
  assert (Hdirty : dirty st1 = true).
  { apply Hdt. destruct (dirty st) eqn:E; [by right|left].
    by apply settled_patients_object; auto with dd. }
  destruct (render_not_array (searchQuery (hooks_of st1)) d Hd) as [e He].
  exists st1, (crash e st1), e. split; [done|]. split; [|done].
  simpl. rewrite Hm1, Hdirty. simpl. unfold commit. by rewrite Hlo, HF, He.
Qed.

Definition error_body : json := JObj [("error", JStr "database unavailable")].

Lemma non_array_body_crashes_witness :
  reachable (state_after [Commit; FetchSettled 0 (Response 500 (Some error_body))]) /\
  is_mounted (state_after [Commit; FetchSettled 0 (Response 500 (Some error_body))]) = true /\
  find_task 0 (state_after [Commit; FetchSettled 0 (Response 500 (Some error_body))]) =
    Some (AwaitJson 500 (Some error_body)) /\
  (forall l, error_body <> JArr l) /\
  exists st1 st2 e,
    step (state_after [Commit; FetchSettled 0 (Response 500 (Some error_body))])
      (JsonSettled 0) = Some st1 /\
    step st1 Commit = Some st2 /\ phase_of st2 = Crashed e.
Proof.
  assert (Hr : reachable (state_after [Commit; FetchSettled 0 (Response 500 (Some error_body))]))
    by reach [Commit; FetchSettled 0 (Response 500 (Some error_body))].
  assert (Hd : forall l, error_body <> JArr l) by (intros l; discriminate).
  split; [exact Hr|]. split; [vm_compute; reflexivity|]. split; [vm_compute; reflexivity|].
  split; [exact Hd|].
  apply (non_array_body_crashes _ 0 500 error_body Hr); [vm_compute; reflexivity.. | exact Hd].
Defined.

(** C13: Two calls of [fetchPatients] in flight are not
    sequenced: whichever resolves last is shown, even when it answers the older
    request. *)
Theorem stale_response_wins st k1 k2 s1 s2 d1 d2 :
  reachable st -> is_mounted st = true -> k1 <> k2 ->
  find_task k1 st = Some (AwaitJson s1 (Some d1)) ->
  find_task k2 st = Some (AwaitJson s2 (Some d2)) ->
  exists st', run st [JsonSettled k2; JsonSettled k1] = Some st' /\
              sval (patients (hooks_of st')) = d1 /\ sval (filteredPatients (hooks_of st')) = d1.
Proof.
  intros Hr Hm Hne Hk1 Hk2.
  destruct (json_settled_store st k2 s2 d2 Hr Hm Hk2)
    as (st1 & Hstep1 & _ & _ & _ & _ & _ & Hm1 & _ & Hfr).
  assert (Hk1' : find_task k1 st1 = Some (AwaitJson s1 (Some d1))) by (rewrite Hfr; auto).
  destruct (json_settled_store st1 k1 s1 d1 (reachable_step _ _ _ Hr Hstep1) Hm1 Hk1')
    as (st2 & Hstep2 & HP & HF & _).
  exists st2. split; [by apply (run_two _ _ _ st1) | done].
Qed.

Lemma stale_response_wins_witness :
  reachable (state_after trace_two_fetches) /\ is_mounted (state_after trace_two_fetches) = true /\
  find_task 1 (state_after trace_two_fetches) = Some (AwaitJson 200 (Some asha_rows)) /\
  find_task 2 (state_after trace_two_fetches) =
    Some (AwaitJson 200 (Some (encode_patients [asha; ben]))) /\
  exists st', run (state_after trace_two_fetches) [JsonSettled 2; JsonSettled 1] = Some st' /\
              sval (patients (hooks_of st')) = asha_rows /\
              sval (filteredPatients (hooks_of st')) = asha_rows.
Proof.
  assert (Hr : reachable (state_after trace_two_fetches)) by reach trace_two_fetches.
  split; [exact Hr|]. split; [vm_compute; reflexivity|].
  split; [vm_compute; reflexivity|]. split; [vm_compute; reflexivity|].
  apply (stale_response_wins _ 1 2 200 200 asha_rows (encode_patients [asha; ben]) Hr);
    [vm_compute; reflexivity | lia | ..];
    vm_compute; reflexivity.
Defined.

Lemma step_unmounted st ev st' :
  step st ev = Some st' -> is_mounted st = false ->
  hooks_of st' = hooks_of st /\ phase_of st' = phase_of st.
Proof.
  intros Hstep Hm.
  destruct ev as [| s | k r | k | | i |]; simpl in Hstep; unfold shown, card_shown in Hstep;
    rewrite ?Hm in Hstep; simpl in Hstep; try discriminate.
  - destruct (find_task k st) as [[|]|]; simplify_eq. destruct r; simpl; [|done].
    unfold setLoading. rewrite set_hooks_unmounted by done. done.
  - destruct (find_task k st) as [[|s b]|]; simplify_eq. destruct b as [d|].
    + rewrite resume_json_Some. unfold remove_task, set_tasks. simpl.
      unfold setLoading, setFilteredPatients, setPatients.
      by rewrite !(set_hooks_unmounted _ _ (alloc d st).2 Hm).
    + unfold resume_json, setLoading. simpl. by rewrite set_hooks_unmounted.
Qed.


(** One commit of a mounted component whose lists pass the type check: it
    does not crash, keeps [patients], the query and [loading], leaves the
    filtered list alone or replaces it with the filter of [patients],
    starts at most the mount fetch, and either leaves nothing to render or
    leaves effects with nothing to do. *)
Lemma commit_decoded st R F :
  inv st -> is_mounted st = true ->
  decode_patients (sval (patients (hooks_of st))) = Some R ->
  decode_patients (sval (filteredPatients (hooks_of st))) = Some F ->
  is_mounted (commit st) = true /\ patients (hooks_of (commit st)) = patients (hooks_of st) /\
  searchQuery (hooks_of (commit st)) = searchQuery (hooks_of st) /\
  loading (hooks_of (commit st)) = loading (hooks_of st) /\
  (filteredPatients (hooks_of (commit st)) = filteredPatients (hooks_of st) \/
   decode_patients (sval (filteredPatients (hooks_of (commit st)))) =
     Some (filter_patients (searchQuery (hooks_of st)) R)) /\
  (tasks (commit st) = tasks st \/
   tasks (commit st) = tasks st ++ [mkTask (next_task st) AwaitFetch]) /\
  (dirty (commit st) = false \/
   (deps_unchanged (commit st) = true /\ mount_effect_done (commit st) = true)).
Proof.
  destruct st as [[P Fs lo q] [| |] dt mfd deps vw ts nt nr el]; try discriminate.
  intros [F1 F2 _ _ _ _] _ HP HF. simpl in *.
  destruct (render_decode_ok lo q _ F HF) as [v Hv].
  destruct (filter_js_decode_ok q _ R HP) as (l & Hf & Hd).
  destruct (decode_patients_array _ R HP) as [lP HlP].
  unfold commit. simpl. rewrite Hv.
  destruct mfd; unfold run_mount_effect, run_filter_effect, deps_unchanged; simpl;
    destruct (deps_match deps (mkHooks P Fs lo q)) eqn:Hdm; simpl.
  all: try (repeat split; eauto).
  all: rewrite Hf; simpl.
  all: unfold setFilteredPatients, set_hooks, is_mounted; simpl.
  all: rewrite (same_value_fresh_r _ (mkSlot (JArr _) nr)); simpl; [|lia|done].
  all: repeat split; eauto.
  all: right; split; [|done]. all: unfold deps_match; simpl.
  all: rewrite String.eqb_refl, same_value_refl_obj; [done|]. all: by rewrite HlP.
Qed.

Lemma commit_quiet st F :
  is_mounted st = true -> deps_unchanged st = true -> mount_effect_done st = true ->
  decode_patients (sval (filteredPatients (hooks_of st))) = Some F ->
  dirty (commit st) = false /\ is_mounted (commit st) = true /\ hooks_of (commit st) = hooks_of st.
Proof.
  destruct st as [h [| |] dt mfd deps vw ts nt nr el]; try discriminate.
  intros _ Hd Hmfd HF. simpl in *. subst mfd.
  destruct (render_decode_ok (loading h) (searchQuery h) _ F HF) as [v Hv].
  unfold commit. simpl. rewrite Hv. unfold run_mount_effect, run_filter_effect. simpl.
  unfold deps_unchanged in *. simpl in *. by rewrite Hd.
Qed.

Lemma commit_tasks_done st :
  mount_effect_done st = true ->
  tasks (commit st) = tasks st /\ mount_effect_done (commit st) = true.
Proof.
  intros Hd. unfold commit. destruct (render _ _ _); [|done].
  unfold run_mount_effect, run_filter_effect, setFilteredPatients, set_hooks. simpl. rewrite Hd.
  repeat (case_match; simpl); auto.
Qed.

Lemma run_one st ev st1 : step st ev = Some st1 -> run st [ev] = Some st1.
Proof. intros H. simpl. by rewrite H. Qed.

(** At most two commits settle a mounted page whose lists pass the type
    check.  They keep [patients], the query and [loading], and, once the
    mount effect has run, the calls in flight. *)
Lemma settle_commits st R F :
  reachable st -> is_mounted st = true ->
  decode_patients (sval (patients (hooks_of st))) = Some R ->
  decode_patients (sval (filteredPatients (hooks_of st))) = Some F ->
  exists n st', n <= 2 /\ run st (repeat Commit n) = Some st' /\
    is_mounted st' = true /\ dirty st' = false /\
    patients (hooks_of st') = patients (hooks_of st) /\
    searchQuery (hooks_of st') = searchQuery (hooks_of st) /\
    loading (hooks_of st') = loading (hooks_of st) /\
    (mount_effect_done st = true -> tasks st' = tasks st).
Proof.
  intros Hr Hm HR HF. destruct (dirty st) eqn:Hdt.
  2:{ exists 0, st. repeat split; auto. }
  assert (Hs1 : step st Commit = Some (commit st)) by (simpl; by rewrite Hm, Hdt).
  destruct (commit_decoded st R F (reachable_inv _ Hr) Hm HR HF)
    as (Hm1 & HP1 & Hq1 & Hlo1 & HF1 & _ & Hcase).
  assert (HF' : exists F', decode_patients (sval (filteredPatients (hooks_of (commit st)))) = Some F')
    by (destruct HF1 as [-> | ?]; eauto).
  destruct HF' as [F' HF']. destruct (dirty (commit st)) eqn:Hdt1.
  - destruct Hcase as [? | [Hd1 Hmfd1]]; [congruence|].
    assert (Hs2 : step (commit st) Commit = Some (commit (commit st)))
      by (simpl; by rewrite Hm1, Hdt1).
    destruct (commit_quiet (commit st) F' Hm1 Hd1 Hmfd1 HF') as (Hdt2 & Hm2 & Hh2).
    exists 2, (commit (commit st)). split; [lia|]. split; [exact (run_two _ _ _ _ _ Hs1 Hs2)|].
    rewrite Hh2. repeat split; auto. intros Hmfd.
    rewrite (proj1 (commit_tasks_done _ Hmfd1)). by apply commit_tasks_done.
  - exists 1, (commit st). split; [lia|]. split; [by apply run_one|].
    repeat split; auto. intros Hmfd. by apply commit_tasks_done.
Qed.

(** ** The calls in flight *)

(** The calls of [fetchPatients] in flight have distinct ids below
    [next_task]; there is none before the first commit, and a committed
    view means the mount effect has run. *)
Record tasks_ok (st : state) : Prop := {
  tk_nodup : NoDup (task_id <$> tasks st);
  tk_below : Forall (fun t => task_id t < next_task st) (tasks st);
  tk_mount : mount_effect_done st = false -> tasks st = [];
  tk_view : view_of st <> None -> mount_effect_done st = true
}.

Definition tframe (st : state) := (next_task st, mount_effect_done st, view_of st).

Lemma tasks_ok_filter st st' (P : task -> bool) :
  tframe st' = tframe st -> tasks st' = List.filter P (tasks st) -> tasks_ok st -> tasks_ok st'.
Proof.
  unfold tframe. intros [= Hn Hm Hv] Ht [N B M V]. constructor; rewrite ?Ht, ?Hn, ?Hm, ?Hv.
  - eapply sublist_NoDup; [exact N|]. apply fmap_sublist, filter_sublist_of.
  - apply List.Forall_forall. intros t (Hin & _)%List.filter_In.
    exact (proj1 (List.Forall_forall _ _) B t Hin).
  - intros H. by rewrite (M H).
  - done.
Qed.

Lemma tasks_ok_same st st' :
  tframe st' = tframe st -> tasks st' = tasks st -> tasks_ok st -> tasks_ok st'.
Proof.
  intros Hf Ht Hok. apply (tasks_ok_filter st st' (fun _ => true) Hf); [|done].
  rewrite Ht. symmetry. apply filter_all_true, List.Forall_forall. by intros.
Qed.

Lemma tasks_ok_set_stage k sg st : tasks_ok st -> tasks_ok (set_stage k sg st).
Proof.
  intros [N B M V].
  assert (Hids : task_id <$> tasks (set_stage k sg st) = task_id <$> tasks st).
  { clear N B M V. simpl. induction (tasks st) as [|t ts IH]; [done|]. csimpl. rewrite IH.
    destruct (Nat.eqb (task_id t) k) eqn:E; [|done]. by apply Nat.eqb_eq in E as ->. }
  constructor; rewrite ?Hids; simpl; auto.
  - apply List.Forall_forall. intros t (t0 & <- & Hin)%List.in_map_iff.
    pose proof (proj1 (List.Forall_forall _ _) B t0 Hin) as Ht. simpl in Ht.
    destruct (Nat.eqb (task_id t0) k) eqn:E; [apply Nat.eqb_eq in E; simpl; lia | done].
  - intros H. by rewrite (M H).
Qed.

Lemma tasks_ok_start_fetch st :
  view_of st <> None -> tasks_ok st -> tasks_ok (start_fetch st).
Proof.
  intros Hv [N B M V]. pose proof (V Hv) as Hd. constructor; simpl; [| | by rewrite Hd | done].
  - rewrite fmap_app. apply NoDup_app. split; [done|]. split; [|apply NoDup_singleton].
    intros i Hi ->%list_elem_of_singleton.
    apply list_elem_of_fmap in Hi as (t & Heq & Hin%list_elem_of_In).
    pose proof (proj1 (List.Forall_forall _ _) B t Hin). simpl in *. lia.
  - apply List.Forall_app. split; [|repeat constructor; simpl; lia].
    eapply List.Forall_impl; [|exact B]. simpl. lia.
Qed.

Lemma tasks_ok_done st st' :
  tasks st' = tasks st -> next_task st' = next_task st -> mount_effect_done st' = true ->
  tasks_ok st -> tasks_ok st'.
Proof. intros Ht Hn Hd [N B M V]. constructor; rewrite ?Ht, ?Hn, ?Hd; auto; discriminate. Qed.

Lemma tasks_ok_first st st' :
  tasks st = [] -> tasks st' = [mkTask (next_task st) AwaitFetch] ->
  next_task st' = S (next_task st) -> mount_effect_done st' = true -> tasks_ok st'.
Proof.
  intros _ Ht Hn Hd. constructor; rewrite ?Ht, ?Hn, ?Hd; [apply NoDup_singleton | | done..].
  apply List.Forall_cons; [simpl; lia | constructor].
Qed.

(** What a commit does to the calls in flight: nothing when it crashes or
    when the mount effect has run; otherwise it starts the first call. *)
Lemma commit_tframe st :
  (tframe (commit st) = tframe st /\ tasks (commit st) = tasks st) \/
  (mount_effect_done (commit st) = true /\
   ((next_task (commit st) = next_task st /\ tasks (commit st) = tasks st) \/
    (mount_effect_done st = false /\ next_task (commit st) = S (next_task st) /\
     tasks (commit st) = tasks st ++ [mkTask (next_task st) AwaitFetch]))).
Proof.
  unfold commit. destruct (render _ _ _) as [v|e]; [right | by left].
  unfold run_filter_effect, run_mount_effect, deps_unchanged, setFilteredPatients, set_hooks.
  destruct (mount_effect_done st) eqn:Hd; simpl; rewrite ?Hd; simpl;
    repeat (case_match; simpl); auto 10.
Qed.

Lemma tasks_ok_commit st : tasks_ok st -> tasks_ok (commit st).
Proof.
  intros Hok. destruct (commit_tframe st) as [[Hf Ht] | (Hd & [[Hn Ht] | (Hd0 & Hn & Ht)])].
  - by apply (tasks_ok_same st).
  - by apply (tasks_ok_done st).
  - pose proof (tk_mount _ Hok Hd0) as Hnil. rewrite Hnil in Ht. by apply (tasks_ok_first st).
Qed.

Lemma set_hooks_tframe c h st :
  tframe (set_hooks c h st) = tframe st /\ tasks (set_hooks c h st) = tasks st.
Proof. unfold set_hooks. by case_match. Qed.

Lemma failure_tframe k st :
  tframe (remove_task k (setLoading false (log_error st))) = tframe st /\
  tasks (remove_task k (setLoading false (log_error st))) =
    List.filter (fun t => negb (Nat.eqb (task_id t) k)) (tasks st).
Proof. unfold remove_task, set_tasks, setLoading, set_hooks, tframe. simpl. by case_match. Qed.

Lemma tasks_ok_step st ev st' : step st ev = Some st' -> tasks_ok st -> tasks_ok st'.
Proof.
  intros Hstep Hok. destruct ev as [| s | k r | k | | i |]; simpl in Hstep.
  - destruct (is_mounted st && dirty st); simplify_eq. by apply tasks_ok_commit.
  - destruct (shown st); simplify_eq. unfold setSearchQuery.
    apply (tasks_ok_same st); [apply set_hooks_tframe | apply set_hooks_tframe | done].
  - destruct (find_task k st) as [[|]|]; simplify_eq. destruct r as [|sc b]; simpl.
    + eapply (tasks_ok_filter st); [apply failure_tframe | apply failure_tframe | done].
    + by apply tasks_ok_set_stage.
  - destruct (find_task k st) as [[|sc [j|]]|]; simplify_eq.
    + rewrite resume_json_Some. eapply (tasks_ok_filter st); [| | done].
      * unfold setLoading, setFilteredPatients, setPatients, set_hooks, tframe. simpl.
        by repeat (case_match; simpl).
      * simpl. by rewrite (proj1 (proj2 (store_frame _ _))).
    + eapply (tasks_ok_filter st); [apply failure_tframe | apply failure_tframe | done].
  - destruct (shown st) eqn:Hs; simplify_eq. apply tasks_ok_start_fetch; [|done].
    unfold shown in Hs. apply andb_true_iff in Hs as [_ Hv]. by case_match.
  - destruct (card_shown i st) eqn:Hs; simplify_eq. apply tasks_ok_start_fetch; [|done].
    unfold card_shown in Hs. apply andb_true_iff in Hs as [_ Hv]. by case_match.
  - destruct (is_mounted st); simplify_eq. by apply (tasks_ok_same st).
Qed.

Lemma reachable_tasks_ok st : reachable st -> tasks_ok st.
Proof.
  intros H. assert (H0 : tasks_ok init) by (constructor; simpl; done || constructor).
  revert H0. unfold reachable. induction H as [|x y z [ev Hxy] _ IH]; [done|].
  eauto using tasks_ok_step.
Qed.

(** ** Every call of [fetchPatients] finishes *)

Lemma tasks_set_hooks c h st : tasks (set_hooks c h st) = tasks st.
Proof. unfold set_hooks. by case_match. Qed.

Lemma phase_set_hooks c h st : phase_of (set_hooks c h st) = phase_of st.
Proof. unfold set_hooks. by case_match. Qed.

Lemma is_mounted_set_hooks c h st : is_mounted (set_hooks c h st) = is_mounted st.
Proof. unfold is_mounted. by rewrite phase_set_hooks. Qed.

#[local] Hint Rewrite tasks_set_hooks phase_set_hooks is_mounted_set_hooks : dd_rw.

(** The [finally] of a mounted component clears [loading]. *)
Lemma loading_setLoading_false st :
  is_mounted st = true -> loading (hooks_of (setLoading false st)) = false.
Proof.
  intros Hm. unfold setLoading. rewrite loading_set_hooks, Hm.
  by destruct (loading (hooks_of st)).
Qed.

Definition drop_call (k : nat) (ts : list task) : list task :=
  List.filter (fun t => negb (Nat.eqb (task_id t) k)) ts.

(** The end of call [k], on every path: it leaves the list of calls, the
    phase is kept, and a mounted component stops loading. *)
Lemma resume_json_end k b st :
  tasks (resume_json k b st) = drop_call k (tasks st) /\
  phase_of (resume_json k b st) = phase_of st /\
  (is_mounted st = true -> loading (hooks_of (resume_json k b st)) = false).
Proof.
  destruct b as [d|].
  - rewrite resume_json_Some. unfold remove_task.
    destruct (store_frame (alloc d st).2 (mkSlot d (next_ref st))) as (Hp & Ht & _).
    cbn [tasks phase_of hooks_of set_tasks]. rewrite Ht, Hp.
    split; [reflexivity|]. split; [reflexivity|]. intros Hm.
    apply loading_setLoading_false. unfold setFilteredPatients, setPatients.
    rewrite !is_mounted_set_hooks. exact Hm.
  - unfold resume_json, remove_task, setLoading. cbn [tasks phase_of hooks_of set_tasks].
    rewrite tasks_set_hooks, phase_set_hooks.
    split; [reflexivity|]. split; [reflexivity|]. intros Hm.
    fold (setLoading false (log_error st)). by apply loading_setLoading_false.
Qed.

Lemma resume_fetch_error_end k st :
  tasks (resume_fetch k NetworkError st) = drop_call k (tasks st) /\
  phase_of (resume_fetch k NetworkError st) = phase_of st /\
  (is_mounted st = true -> loading (hooks_of (resume_fetch k NetworkError st)) = false).
Proof.
  unfold resume_fetch, remove_task, setLoading. cbn [tasks phase_of hooks_of set_tasks].
  rewrite tasks_set_hooks, phase_set_hooks.
  split; [reflexivity|]. split; [reflexivity|]. intros Hm.
  fold (setLoading false (log_error st)). by apply loading_setLoading_false.
Qed.

Lemma drop_call_head t ts :
  task_id t ∉ task_id <$> ts -> drop_call (task_id t) (t :: ts) = ts.
Proof.
  intros Hk. unfold drop_call. simpl. rewrite Nat.eqb_refl. simpl. apply filter_all_true.
  apply List.Forall_forall. intros t' Hin. apply negb_true_iff, Nat.eqb_neq.
  intros E. apply Hk. rewrite <- E. apply list_elem_of_fmap_2. by apply list_elem_of_In.
Qed.

(** The oldest call settles with any outcome. *)
Lemma finish_head st t ts r :
  reachable st -> tasks st = t :: ts ->
  exists st', run st (finish_call r t) = Some st' /\ tasks st' = ts /\
    phase_of st' = phase_of st /\ (is_mounted st = true -> loading (hooks_of st') = false).
Proof.
  intros Hr Ht.
  assert (Hk : find_task (task_id t) st = Some (task_stage t))
    by (unfold find_task; rewrite Ht; simpl; by rewrite Nat.eqb_refl).
  assert (Hfresh : task_id t ∉ task_id <$> ts).
  { pose proof (tk_nodup _ (reachable_tasks_ok _ Hr)) as N. rewrite Ht in N.
    csimpl in N. by apply NoDup_cons in N as [? _]. }
  unfold finish_call. destruct (task_stage t) as [|s b] eqn:Hsg, r as [|s' b'].
  - exists (resume_fetch (task_id t) NetworkError st).
    destruct (resume_fetch_error_end (task_id t) st) as (H1 & H2 & H3).
    split; [apply run_one; cbn [step]; by rewrite Hk|]. rewrite H1, Ht. by rewrite drop_call_head.
  - exists (resume_json (task_id t) b' st).
    destruct (resume_json_end (task_id t) b' st) as (H1 & H2 & H3).
    split; [|rewrite H1, Ht; by rewrite drop_call_head].
    assert (H4 : step st (FetchSettled (task_id t) (Response s' b')) =
                 Some (set_stage (task_id t) (AwaitJson s' b') st)) by (cbn [step]; by rewrite Hk).
    assert (H5 : step (set_stage (task_id t) (AwaitJson s' b') st) (JsonSettled (task_id t)) =
                 Some (resume_json (task_id t) b' (set_stage (task_id t) (AwaitJson s' b') st)))
      by (cbn [step]; by rewrite (find_task_set_stage _ (AwaitJson s' b') _ _ Hk)).
    rewrite (run_two _ _ _ _ _ H4 H5). by rewrite resume_json_set_stage.
  - exists (resume_json (task_id t) b st).
    destruct (resume_json_end (task_id t) b st) as (H1 & H2 & H3).
    split; [apply run_one; cbn [step]; by rewrite Hk|]. rewrite H1, Ht. by rewrite drop_call_head.
  - exists (resume_json (task_id t) b st).
    destruct (resume_json_end (task_id t) b st) as (H1 & H2 & H3).
    split; [apply run_one; cbn [step]; by rewrite Hk|]. rewrite H1, Ht. by rewrite drop_call_head.
Qed.

Lemma run_app st evs1 evs2 st1 :
  run st evs1 = Some st1 -> run st (evs1 ++ evs2) = run st1 evs2.
Proof.
  revert st. induction evs1 as [|ev evs IH]; intros st H; simpl in *; [congruence|].
  destruct (step st ev); simpl in *; [by apply IH | discriminate].
Qed.

(** All the calls in flight settle, oldest first. *)
Lemma finish_all out st :
  reachable st ->
  exists st', run st (finish_calls out (tasks st)) = Some st' /\ tasks st' = [] /\
    phase_of st' = phase_of st /\
    (is_mounted st = true -> tasks st <> [] -> loading (hooks_of st') = false).
Proof.
  remember (tasks st) as l eqn:Hl. revert st Hl.
  induction l as [|t ts IH]; intros st Hl Hr; [by exists st|].
  destruct (finish_head st t ts (out (task_id t)) Hr (eq_sym Hl)) as (st1 & Hr1 & Ht1 & Hp1 & Hl1).
  assert (Hre1 : reachable st1) by (eapply rtc_trans; [exact Hr | exact (run_rtc _ _ _ Hr1)]).
  destruct (IH st1 (eq_sym Ht1) Hre1) as (st2 & Hr2 & Ht2 & Hp2 & Hl2).
  exists st2. cbn [finish_calls List.flat_map]. rewrite (run_app _ _ _ _ Hr1).
  fold (finish_calls out ts).
  split; [done|]. split; [done|]. split; [congruence|]. intros Hm _.
  destruct ts as [|t' ts'].
  - simpl in Hr2. injection Hr2 as <-. auto.
  - apply Hl2; [unfold is_mounted; rewrite Hp1; exact Hm | discriminate].
Qed.

(** C9: With well-typed data the render/effect cycle of
    React terminates within two commits: from any reachable mounted state
    whose lists decode, zero, one or two [Commit] events (and no other
    event) lead to a state with nothing left to render.  These commits
    change neither [patients], the query nor [loading], nor, once the
    mount effect has run, the calls in flight, and the settled filtered
    list is the filter of the fetched records with the current query. *)
Theorem render_cycle_settles st R F :
  reachable st -> is_mounted st = true ->
  sval (patients (hooks_of st)) = encode_patients R ->
  sval (filteredPatients (hooks_of st)) = encode_patients F ->
  exists n st', n <= 2 /\ run st (repeat Commit n) = Some st' /\
    is_mounted st' = true /\ dirty st' = false /\
    patients (hooks_of st') = patients (hooks_of st) /\
    searchQuery (hooks_of st') = searchQuery (hooks_of st) /\
    loading (hooks_of st') = loading (hooks_of st) /\
    (mount_effect_done st = true -> tasks st' = tasks st) /\
    sval (filteredPatients (hooks_of st')) =
    encode_patients (filter_patients (searchQuery (hooks_of st)) R).
Proof.
  intros Hr Hm HR HF.
  destruct (settle_commits st R F Hr Hm)
    as (n & st' & Hn & Hrun & Hm' & Hdt' & HP' & Hq' & Hlo' & Hts');
    [by rewrite HR, decode_encode_patients | by rewrite HF, decode_encode_patients |].
  exists n, st'. repeat split; auto.
  rewrite <- Hq'. apply settled_filtered_typed; auto.
  - eapply rtc_trans; [exact Hr | exact (run_rtc _ _ _ Hrun)].
  - by rewrite HP'.
Qed.

Lemma render_cycle_settles_witness :
  let st := state_after (removelast trace_search) in
  reachable st /\ is_mounted st = true /\
  sval (patients (hooks_of st)) = encode_patients [asha] /\
  sval (filteredPatients (hooks_of st)) = encode_patients [asha] /\
  exists n st', n <= 2 /\ run st (repeat Commit n) = Some st' /\
    is_mounted st' = true /\ dirty st' = false /\
    patients (hooks_of st') = patients (hooks_of st) /\
    searchQuery (hooks_of st') = searchQuery (hooks_of st) /\
    loading (hooks_of st') = loading (hooks_of st) /\
    (mount_effect_done st = true -> tasks st' = tasks st) /\
    sval (filteredPatients (hooks_of st')) =
    encode_patients (filter_patients (searchQuery (hooks_of st)) [asha]).
Proof.
  assert (Hr : reachable (state_after (removelast trace_search))) by reach (removelast trace_search).
  split; [exact Hr|]. split; [vm_compute; reflexivity|]. split; [vm_compute; reflexivity|].
  split; [vm_compute; reflexivity|].
  apply (render_cycle_settles _ [asha] [asha] Hr); vm_compute; reflexivity.
Defined.

(** C10: Termination of [fetchPatients]: whatever the network
    answers, every call in flight finishes.  From any reachable state,
    settling the calls oldest first, each with any outcome (one event for a
    rejected [fetch], two for a response and its body), is accepted event by
    event and ends with no call in flight and the phase unchanged; on a
    mounted component with a call in flight, the [finally] of the last one
    has cleared [loading]. *)
Theorem fetch_calls_terminate st (out : nat -> fetch_result) :
  reachable st ->
  exists st', run st (finish_calls out (tasks st)) = Some st' /\ tasks st' = [] /\
    phase_of st' = phase_of st /\
    (is_mounted st = true -> tasks st <> [] -> loading (hooks_of st') = false).
Proof. apply finish_all. Qed.

Lemma fetch_calls_terminate_witness :
  reachable (state_after trace_two_fetches) /\
  exists st', run (state_after trace_two_fetches)
                (finish_calls (fun _ => NetworkError) (tasks (state_after trace_two_fetches))) =
              Some st' /\ tasks st' = [] /\
    phase_of st' = phase_of (state_after trace_two_fetches) /\
    (is_mounted (state_after trace_two_fetches) = true ->
     tasks (state_after trace_two_fetches) <> [] -> loading (hooks_of st') = false).
Proof.
  assert (Hr : reachable (state_after trace_two_fetches)) by reach trace_two_fetches.
  split; [exact Hr | exact (fetch_calls_terminate _ _ Hr)].
Defined.

End Controller.
