(* ===== verification/Spec.v ===== *)
(** * The records page as the spec describes it, and its refinement

    Section 4.1 of the spec describes the records page abstractly: it holds
    the records loaded last, the search text and whether the first load is
    still running; a successful refresh replaces the records, a failed one
    keeps them, typing changes the search text, and the page lists the
    records whose name, diagnosis or id contains the search text.  This file
    states that description as an abstract machine ([astate], [astep]) and
    proves that the controller of [Controller.v] implements it as long as the
    backend answers a success status with rows of the interface [Patient]
    and any other status with a body that is not JSON: the abstraction
    [abs] of every state of such a run is the abstract machine run on the
    operations of the spec its events complete ([abs_op], [spec_trace]; a
    non-success status is a failed refresh, spec sections 4.1 and 6).  The
    code never reads the status ([code_op]); on such runs the two agree
    ([code_trace_spec]).  With rows of [Patient] under any status the page
    never crashes and a settled page shows the abstract machine's view.
    Read through the types of TsTypes.v, the same runs keep the two list
    slots at the type [Patient[]] the code declares for them. *)

From stdpp Require Import base list strings relations.
From Stdlib Require Import ZArith Ascii String.
From S2P Require Import Prelude JsString Json TsTypes Filter View Controller.
Import JsString Json TsTypes Filter View Controller.

Local Open Scope stdpp_scope.

Module Spec.

(** ** The abstract machine *)

Record astate : Type := mkA {
  allRecords : list Patient;
  searchText : string;
  isLoading : bool
}.

Definition ainit : astate := mkA [] "" true.

Inductive aop : Type :=
| Refreshed (R : list Patient)   (** [GET /api/patients] answered with [R] *)
| RefreshFailed                  (** the request or its body failed *)
| SetSearchText (s : string).    (** the user typed [s] *)

Definition astep (a : astate) (o : aop) : astate :=
  match o with
  | Refreshed R => mkA R (searchText a) false
  | RefreshFailed => mkA (allRecords a) (searchText a) false
  | SetSearchText s => mkA (allRecords a) s (isLoading a)
  end.

Definition filteredRecords (a : astate) : list Patient :=
  filter_patients (searchText a) (allRecords a).

(** What the page lists: skeletons during the first load, then one card per
    matching record. *)
Definition aview (a : astate) : body :=
  if isLoading a then Skeletons 6 else Cards (map card_of_patient (filteredRecords a)).

(** ** The abstraction of a controller state *)

Definition abs (st : state) : option astate :=
  let h := hooks_of st in
  R ← decode_patients (sval (patients h));
  Some (mkA R (searchQuery h) (loading h)).

(** A success status, the test [res.ok] would make (200 to 299). *)
Definition ok_status (sc : Z) : bool := (200 <=? sc)%Z && (sc <=? 299)%Z.

(** The operation of spec section 4.1 a concrete event completes on a
    mounted page: typing sets the search text; a call of [fetchPatients]
    ends in [Refreshed] when the backend answered with a success status and
    a body that decodes, and in [RefreshFailed] on a network error, a
    non-success status (spec sections 4.1 and 6) or a body that does not
    parse.  [None] for the events the abstract machine does not see
    (renders, the first half of a call, starting a refresh, leaving). *)
Definition abs_op (st : state) (ev : event) : option aop :=
  if is_mounted st then
    match ev with
    | TypeQuery s => Some (SetSearchText s)
    | FetchSettled _ NetworkError => Some RefreshFailed
    | JsonSettled k =>
        match find_task k st with
        | Some (AwaitJson sc (Some j)) =>
            if ok_status sc then Refreshed <$> decode_patients j else Some RefreshFailed
        | Some (AwaitJson _ None) => Some RefreshFailed
        | _ => None
        end
    | _ => None
    end
  else None.

(** The operation the code performs instead: it never reads the status
    (line 28), so any decoded body is a refresh. *)
Definition code_op (st : state) (ev : event) : option aop :=
  if is_mounted st then
    match ev with
    | TypeQuery s => Some (SetSearchText s)
    | FetchSettled _ NetworkError => Some RefreshFailed
    | JsonSettled k =>
        match find_task k st with
        | Some (AwaitJson _ (Some j)) => Refreshed <$> decode_patients j
        | Some (AwaitJson _ None) => Some RefreshFailed
        | _ => None
        end
    | _ => None
    end
  else None.

Definition astep_opt (a : astate) (o : option aop) : astate :=
  match o with Some o' => astep a o' | None => a end.

(** The operations [op] assigns to the events of a concrete run, in order:
    [spec_trace] with the spec's [abs_op], [code_trace] with [code_op]. *)
Fixpoint op_trace (op : state -> event -> option aop) (st : state) (evs : list event) : list aop :=
  match evs with
  | [] => []
  | ev :: evs' =>
      match step st ev with
      | Some st' => option_list (op st ev) ++ op_trace op st' evs'
      | None => []
      end
  end.

Definition spec_trace := op_trace abs_op.
Definition code_trace := op_trace code_op.

(** ** Environments *)

(** A body the backend sends for [GET /api/patients]: an array of rows of
    the interface [Patient], or a body [res.json()] rejects on. *)
Definition typed_body (b : option json) : bool :=
  match b with
  | Some j => match decode_patients j with Some _ => true | None => false end
  | None => true
  end.

Definition typed_event (ev : event) : bool :=
  match ev with FetchSettled _ (Response _ b) => typed_body b | _ => true end.

(** The answers for which the spec and the code agree: a success status
    with a body of rows of [Patient] (or one that does not parse), and a
    non-success status whose body is not JSON. *)
Definition spec_event (ev : event) : bool :=
  match ev with
  | FetchSettled _ (Response sc b) =>
      if ok_status sc then typed_body b else match b with None => true | Some _ => false end
  | _ => true
  end.

(** A call in flight whose parsed body came with a success status. *)
Definition spec_stage (sg : stage) : Prop :=
  match sg with AwaitJson sc (Some _) => ok_status sc = true | _ => True end.

(** The same, with the type the code declares: a body of type
    [Patient[]] (TsTypes.v). *)
Definition declared_event (ev : event) : bool :=
  match ev with
  | FetchSettled _ (Response _ (Some j)) => type_check patients_ty j
  | _ => true
  end.

(** The same, for answers whose records also satisfy a property [good]
    (for the spec none, [fun _ => True]; for the composed system of
    [System.v], unique ids). *)
Definition good_json (good : list Patient -> Prop) (j : json) : Prop :=
  exists R, decode_patients j = Some R /\ good R.

Definition good_body (good : list Patient -> Prop) (b : option json) : Prop :=
  match b with Some j => good_json good j | None => True end.

Definition good_stage (good : list Patient -> Prop) (sg : stage) : Prop :=
  match sg with AwaitFetch => True | AwaitJson _ b => good_body good b end.

Definition good_task (good : list Patient -> Prop) (t : task) : Prop :=
  good_stage good (task_stage t).

Definition good_event (good : list Patient -> Prop) (ev : event) : Prop :=
  match ev with FetchSettled _ (Response _ b) => good_body good b | _ => True end.

(** The invariant of a page whose backend answers with good bodies. *)
Record ginv (good : list Patient -> Prop) (st : state) : Prop := {
  gi_patients : good_json good (sval (patients (hooks_of st)));
  gi_filtered : good_json good (sval (filteredPatients (hooks_of st)));
  gi_tasks : Forall (good_task good) (tasks st);
  gi_phase : phase_of st = Mounted \/ phase_of st = Unmounted
}.

(** ** Lemmas: what each operation leaves alone *)

Lemma abs_hooks st st' : hooks_of st' = hooks_of st -> abs st' = abs st.
Proof. unfold abs. by intros ->. Qed.

Lemma find_task_In k st sg :
  find_task k st = Some sg -> exists t, In t (tasks st) /\ task_stage t = sg.
Proof.
  unfold find_task. destruct (List.find _ _) as [t|] eqn:E; simpl; [|discriminate].
  intros [= <-]. apply List.find_some in E as [? _]. eauto.
Qed.


(** The failure path [console.error; setLoading(false)], then the end of
    the call. *)
Lemma failure_frame k st :
  let st' := remove_task k (setLoading false (log_error st)) in
  phase_of st' = phase_of st /\ tasks (setLoading false (log_error st)) = tasks st.
Proof. unfold setLoading, set_hooks. simpl. by case_match. Qed.

Lemma setSearchQuery_mounted s st :
  is_mounted st = true ->
  hooks_of (setSearchQuery s st) =
    mkHooks (patients (hooks_of st)) (filteredPatients (hooks_of st)) (loading (hooks_of st)) s /\
  phase_of (setSearchQuery s st) = phase_of st /\ tasks (setSearchQuery s st) = tasks st.
Proof.
  intros Hm. unfold setSearchQuery, set_hooks. rewrite Hm. simpl.
  destruct (String.eqb (searchQuery (hooks_of st)) s) eqn:E; simpl; [|done].
  apply String.eqb_eq in E as <-. by destruct (hooks_of st).
Qed.

Lemma tasks_commit st :
  tasks (commit st) = tasks st \/
  tasks (commit st) = tasks st ++ [mkTask (next_task st) AwaitFetch].
Proof.
  unfold commit. destruct (render _ _ _); [|by left].
  unfold run_filter_effect, run_mount_effect, deps_unchanged, setFilteredPatients, set_hooks.
  destruct (mount_effect_done _) eqn:E; simpl; rewrite ?E; simpl;
    repeat (case_match; simpl); auto.
Qed.

Lemma mounted_phase st : is_mounted st = true -> phase_of st = Mounted.
Proof. unfold is_mounted. by case_match. Qed.

Lemma abs_eq st a :
  abs st = Some a <->
  decode_patients (sval (patients (hooks_of st))) = Some (allRecords a) /\
  searchQuery (hooks_of st) = searchText a /\ loading (hooks_of st) = isLoading a.
Proof.
  unfold abs. destruct a as [R q lo]. simpl.
  destruct (decode_patients _) as [R'|]; simpl; split.
  - by intros [= -> -> ->].
  - by intros ([= ->] & -> & ->).
  - done.
  - by intros [? _].
Qed.

Lemma fold_astep_option_list a o : fold_left astep (option_list o) a = astep_opt a o.
Proof. by destruct o. Qed.

Lemma abs_init : abs init = Some ainit.
Proof. reflexivity. Qed.

(** ** The calls in flight along a step *)

Section Stages.
Variable P : stage -> Prop.
Hypothesis P_fetch : P AwaitFetch.

Lemma stages_remove_task k st :
  Forall (P ∘ task_stage) (tasks st) -> Forall (P ∘ task_stage) (tasks (remove_task k st)).
Proof. rewrite !List.Forall_forall. simpl. intros H t (Hin & _)%List.filter_In. auto. Qed.

Lemma stages_set_stage k sg st :
  P sg -> Forall (P ∘ task_stage) (tasks st) -> Forall (P ∘ task_stage) (tasks (set_stage k sg st)).
Proof.
  rewrite !List.Forall_forall. simpl. intros Hsg H t (t0 & <- & Hin)%List.in_map_iff.
  destruct (Nat.eqb (task_id t0) k); auto.
Qed.

Lemma stages_start_fetch st :
  Forall (P ∘ task_stage) (tasks st) -> Forall (P ∘ task_stage) (tasks (start_fetch st)).
Proof. intros H. simpl. apply List.Forall_app. split; [done|]. by repeat constructor. Qed.

(** Every stage a step creates is [AwaitFetch] or the answer of its
    [FetchSettled] event, so a property of both holds of every call in
    flight along a run. *)
Lemma stages_step st ev st' :
  (forall k sc b, ev = FetchSettled k (Response sc b) -> P (AwaitJson sc b)) ->
  step st ev = Some st' ->
  Forall (P ∘ task_stage) (tasks st) -> Forall (P ∘ task_stage) (tasks st').
Proof.
  intros Hev Hstep Hts. destruct ev as [| s | k r | k | | i |]; simpl in Hstep.
  - destruct (is_mounted st && dirty st); simplify_eq.
    destruct (tasks_commit st) as [-> | ->]; [done|]. by apply (stages_start_fetch st).
  - destruct (shown st); simplify_eq. unfold setSearchQuery.
    by rewrite (proj1 (proj2 (proj2 (proj2 (set_hooks_frame _ _ _))))).
  - destruct (find_task k st) as [[|]|]; simplify_eq. destruct r as [|sc b]; simpl.
    + apply stages_remove_task. by rewrite (proj2 (failure_frame k st)).
    + apply stages_set_stage; [by eapply Hev | done].
  - destruct (find_task k st) as [[|sc [j|]]|] eqn:Hk; simplify_eq; apply stages_remove_task.
    + by rewrite (proj1 (proj2 (store_frame _ _))).
    + by rewrite (proj2 (failure_frame k st)).
  - destruct (shown st); simplify_eq. by apply stages_start_fetch.
  - destruct (card_shown i st); simplify_eq. by apply stages_start_fetch.
  - destruct (is_mounted st); simplify_eq. done.
Qed.
End Stages.

(** ** Simulation of one event *)

Section Good.
Variable good : list Patient -> Prop.
Hypothesis good_filter : forall q R, good R -> good (filter_patients q R).

Lemma find_task_good k st s b :
  Forall (good_task good) (tasks st) -> find_task k st = Some (AwaitJson s b) -> good_body good b.
Proof.
  intros Hts (t & Hin & Ht)%find_task_In.
  pose proof (proj1 (List.Forall_forall _ _) Hts t Hin) as Hg. unfold good_task in Hg.
  by rewrite Ht in Hg.
Qed.

(** Calls in flight stay good along every step of a good environment. *)
Lemma good_step st ev st' :
  good_event good ev -> step st ev = Some st' ->
  Forall (good_task good) (tasks st) -> Forall (good_task good) (tasks st').
Proof.
  intros Hev. apply (stages_step (good_stage good)); [done|]. by intros k sc b ->.
Qed.

Section Step.
Variables (st : state) (a : astate).
Hypothesis Hgi : ginv good st.
Hypothesis Habs : abs st = Some a.

(** An event that leaves the hooks alone is a stutter step. *)
Lemma sim_frame st' :
  hooks_of st' = hooks_of st ->
  phase_of st' = phase_of st \/ phase_of st' = Unmounted ->
  Forall (good_task good) (tasks st') ->
  ginv good st' /\ abs st' = Some a.
Proof.
  intros Hh Hph Hts. rewrite (abs_hooks st st' Hh). split; [|done].
  destruct Hgi as [HP HF _ Hph0]. constructor; rewrite ?Hh; auto.
  destruct Hph as [-> | ->]; auto.
Qed.

Lemma sim_commit :
  inv st -> is_mounted st = true -> ginv good (commit st) /\ abs (commit st) = Some a.
Proof.
  intros Hi Hm. destruct Hgi as [(R & HP & HgR) (F & HF & HgF) Hts _].
  destruct (commit_decoded st R F Hi Hm HP HF) as (Hm1 & HP1 & Hq1 & Hlo1 & HF1 & Hts1 & _).
  split.
  - constructor; [rewrite HP1; by exists R | | | by left; apply mounted_phase].
    + destruct HF1 as [-> | HF1]; [exists F; auto | eexists; eauto].
    + destruct Hts1 as [-> | ->]; [done|]. by apply (stages_start_fetch (good_stage good) I st).
  - apply abs_eq in Habs as (HR & Hq & Hlo). apply abs_eq. by rewrite HP1, Hq1, Hlo1.
Qed.

Lemma sim_failure k :
  is_mounted st = true ->
  let st' := remove_task k (setLoading false (log_error st)) in
  ginv good st' /\ abs st' = Some (astep a RefreshFailed).
Proof.
  intros Hm st'. subst st'. destruct (failure_path k st) as (HP & HF & Hq & _ & Hlo & _).
  destruct (failure_frame k st) as [Hph Hts].
  destruct Hgi as [HP0 HF0 Hts0 Hph0]. split.
  - constructor; [by rewrite HP | by rewrite HF | | by rewrite Hph].
    apply (stages_remove_task (good_stage good)). by rewrite Hts.
  - apply abs_eq in Habs as (HR & Hq0 & _). apply abs_eq. destruct a. simpl in *.
    rewrite HP, Hq. auto.
Qed.

Lemma sim_json k s j R :
  inv st -> is_mounted st = true ->
  find_task k st = Some (AwaitJson s (Some j)) -> decode_patients j = Some R -> good R ->
  ginv good (resume_json k (Some j) st) /\
  abs (resume_json k (Some j) st) = Some (astep a (Refreshed R)).
Proof.
  intros [F1 F2 _ _ _ _] Hm Hk HR HgR. rewrite resume_json_Some.
  destruct (store_hooks (alloc j st).2 (mkSlot j (next_ref st))) as (HP & HF & Hlo & Hq & _);
    simpl; auto.
  destruct (store_frame (alloc j st).2 (mkSlot j (next_ref st))) as (Hph & Hts & _).
  simpl in HP, HF, Hlo, Hq, Hph, Hts. destruct Hgi as [_ _ Hts0 Hph0]. split.
  - constructor; simpl; [rewrite HP; exists R; auto | rewrite HF; exists R; auto | |
      by rewrite Hph].
    apply (stages_remove_task (good_stage good)). by rewrite Hts.
  - apply abs_eq in Habs as (_ & Hq0 & _). apply abs_eq. simpl. by rewrite HP, Hq, Hlo.
Qed.
End Step.

(** One event of a good environment keeps [ginv] and moves the abstraction
    by the operation the event performs. *)
Lemma sim_step st ev st' a :
  inv st -> ginv good st -> good_event good ev -> step st ev = Some st' -> abs st = Some a ->
  ginv good st' /\ abs st' = Some (astep_opt a (code_op st ev)).
Proof.
  intros Hi Hgi Hev Hstep Habs. pose proof (good_step _ _ _ Hev Hstep (gi_tasks _ _ Hgi)) as Hts.
  unfold code_op. destruct (is_mounted st) eqn:Hm.
  2:{ destruct (step_unmounted _ _ _ Hstep Hm) as [Hh Hph]. simpl.
      exact (sim_frame st a Hgi Habs st' Hh (or_introl Hph) Hts). }
  destruct ev as [| s | k r | k | | i |]; simpl in Hstep; cbn [astep_opt].
  - rewrite Hm in Hstep. destruct (dirty st); simpl in Hstep; simplify_eq. by apply sim_commit.
  - destruct (shown st); simplify_eq.
    destruct (setSearchQuery_mounted s st Hm) as (Hh & Hph & _). destruct Hgi as [? ? _ ?].
    split; [constructor; rewrite ?Hh, ?Hph; auto|].
    apply abs_eq in Habs as (? & ? & ?). apply abs_eq. rewrite Hh. destruct a; simpl in *; auto.
  - destruct (find_task k st) as [[|]|]; simplify_eq. destruct r; [by apply sim_failure|].
    by apply (sim_frame st a Hgi Habs); [| left |].
  - destruct (find_task k st) as [[|sc [j|]]|] eqn:Hk; simplify_eq; [|by apply sim_failure].
    destruct (find_task_good _ _ _ _ (gi_tasks _ _ Hgi) Hk) as (R & HR & HgR).
    rewrite HR. simpl. by eapply sim_json.
  - destruct (shown st); simplify_eq. by apply (sim_frame st a Hgi Habs); [| left |].
  - destruct (card_shown i st); simplify_eq. by apply (sim_frame st a Hgi Habs); [| left |].
  - rewrite Hm in Hstep. simplify_eq. by apply (sim_frame st a Hgi Habs); [| right |].
Qed.

(** ** Runs *)

(** Along a run of a good environment from a reachable state, [ginv]
    holds and the abstraction follows the abstract operations of the run. *)
Lemma sim_run evs st0 a0 st :
  reachable st0 -> ginv good st0 -> abs st0 = Some a0 ->
  Forall (good_event good) evs -> run st0 evs = Some st ->
  ginv good st /\ abs st = Some (fold_left astep (code_trace st0 evs) a0).
Proof.
  revert st0 a0. induction evs as [|ev evs IH]; intros st0 a0 Hr Hgi Habs Hev Hrun.
  - simpl in Hrun. by simplify_eq.
  - simpl in Hrun. apply Forall_cons in Hev as [Hev Hevs].
    destruct (step st0 ev) as [st1|] eqn:Hstep; simpl in Hrun; [|discriminate].
    destruct (sim_step st0 ev st1 a0 (reachable_inv _ Hr) Hgi Hev Hstep Habs) as [Hgi1 Habs1].
    unfold code_trace. cbn [op_trace]. rewrite Hstep, fold_left_app, fold_astep_option_list.
    apply IH; eauto with dd.
Qed.
End Good.

(** ** Typed environments *)

Lemma typed_event_good ev : typed_event ev = true -> good_event (fun _ => True) ev.
Proof.
  destruct ev as [| | k [|sc [j|]] | | | |]; simpl; try done.
  destruct (decode_patients j) as [R|] eqn:E; [intros _; by exists R | discriminate].
Qed.

Lemma ginv_init : ginv (fun _ => True) init.
Proof. constructor; simpl; [by eexists | by eexists | constructor | by left]. Qed.

Lemma typed_run evs st :
  forallb typed_event evs = true -> run init evs = Some st ->
  ginv (fun _ => True) st /\ abs st = Some (fold_left astep (code_trace init evs) ainit).
Proof.
  intros Hev Hrun. apply (sim_run _ (fun _ _ _ => I)); auto using ginv_init, abs_init.
  - apply rtc_refl.
  - apply List.Forall_forall. intros ev Hin. apply typed_event_good.
    by apply (proj1 (List.forallb_forall _ _) Hev).
Qed.

Lemma declared_event_typed ev : declared_event ev = typed_event ev.
Proof.
  destruct ev as [| | k [|sc [j|]] | | | |]; cbn [declared_event typed_event typed_body]; try done.
  apply Bool.eq_iff_eq_true. rewrite <- decode_patients_check.
  destruct (decode_patients j); split; intros H; try done; try by eexists; by destruct H.
Qed.

Lemma good_json_typed good j : good_json good j -> has_type j patients_ty.
Proof. intros (R & HR & _). apply decode_patients_has_type. by eexists. Qed.

(** On a settled page of a typed run, the filtered list is the abstract
    machine's filtered records. *)
Lemma settled_filtered st a :
  reachable st -> abs st = Some a -> is_mounted st = true -> dirty st = false ->
  decode_patients (sval (filteredPatients (hooks_of st))) = Some (filteredRecords a).
Proof.
  intros Hr Habs Hm Hdt. apply abs_eq in Habs as (HR & Hq & _).
  destruct (settled_consistent st Hr Hm Hdt) as (l & Hf & ->).
  destruct (filter_js_decode_ok (searchQuery (hooks_of st)) _ _ HR) as (l' & Hf' & Hd).
  rewrite Hf in Hf'. injection Hf' as <-. unfold filteredRecords. by rewrite <- Hq.
Qed.

Lemma render_aview lo q j a :
  decode_patients j = Some (filteredRecords a) -> lo = isLoading a ->
  exists v, render lo q j = Ok v /\ v_body v = aview a /\ v_search v = q.
Proof.
  intros Hd ->. unfold aview. destruct (isLoading a).
  - destruct (decode_patients_array _ _ Hd) as [l ->]. by eexists.
  - eexists. rewrite (render_decoded_eq q j _ Hd). by split.
Qed.

(** ** Environments in which the spec and the code agree *)

Lemma spec_event_typed ev : spec_event ev = true -> typed_event ev = true.
Proof.
  destruct ev as [| | k [|sc [j|]] | | | |]; simpl; try done. by destruct (ok_status sc).
Qed.

Lemma spec_event_stage k sc b :
  spec_event (FetchSettled k (Response sc b)) = true -> spec_stage (AwaitJson sc b).
Proof. simpl. destruct b; [|done]. by destruct (ok_status sc). Qed.

Lemma code_op_spec st ev :
  Forall (spec_stage ∘ task_stage) (tasks st) -> code_op st ev = abs_op st ev.
Proof.
  intros Hts. unfold code_op, abs_op. destruct (is_mounted st); [|done].
  destruct ev as [| | | k | | |]; try done.
  destruct (find_task k st) as [[|sc [j|]]|] eqn:Hk; try done.
  destruct (find_task_In _ _ _ Hk) as (t & Hin & Ht).
  pose proof (proj1 (List.Forall_forall _ _) Hts t Hin) as Hsg. cbn in Hsg.
  rewrite Ht in Hsg. cbn in Hsg. by rewrite Hsg.
Qed.

(** In an environment of [spec_event]s the code performs the spec's
    operations. *)
Lemma code_trace_spec evs st :
  forallb spec_event evs = true -> Forall (spec_stage ∘ task_stage) (tasks st) ->
  code_trace st evs = spec_trace st evs.
Proof.
  revert st. induction evs as [|ev evs IH]; intros st Hev Hts; [done|].
  apply andb_true_iff in Hev as [Hev Hevs]. unfold code_trace, spec_trace. cbn [op_trace].
  destruct (step st ev) as [st'|] eqn:Hstep; [|done].
  rewrite (code_op_spec st ev Hts). f_equal. apply IH; [done|].
  refine (stages_step spec_stage I st ev st' _ Hstep Hts).
  intros k sc b ->. exact (spec_event_stage k sc b Hev).
Qed.

(** ** Properties *)

(** C1: Refinement.  In every run in which the backend
    answers [GET /api/patients] with a success status and an array of
    [Patient] rows (or a body that is not JSON), and answers with any other
    status only with a body that is not JSON, the records, the search text
    and the loading flag of the page are those of the abstract machine of
    spec section 4.1 run on the operations the run's events complete, in
    order: a success answer refreshes, a network error, a non-success status
    or an unparseable body fails the refresh. *)
Theorem controller_refines_spec evs st :
  forallb spec_event evs = true -> run init evs = Some st ->
  abs st = Some (fold_left astep (spec_trace init evs) ainit).
Proof.
  intros Hev Hrun.
  assert (Ht : forallb typed_event evs = true).
  { apply List.forallb_forall. intros ev Hin. apply spec_event_typed.
    exact (proj1 (List.forallb_forall _ _) Hev ev Hin). }
  rewrite <- (code_trace_spec evs init Hev) by constructor.
  exact (proj2 (typed_run evs st Ht Hrun)).
Qed.

(** A run with a failing answer: the backend first answers 500 with a
    body that is not JSON, and the next call gets the rows. *)
Definition trace_500 : list event :=
  [Commit; FetchSettled 0 (Response 500 None); JsonSettled 0; Commit;
   PatientAdded; FetchSettled 1 (Response 200 (Some asha_rows)); JsonSettled 1; Commit; Commit].

Lemma controller_refines_spec_witness :
  forallb spec_event trace_500 = true /\
  run init trace_500 = Some (state_after trace_500) /\
  spec_trace init trace_500 = [RefreshFailed; Refreshed [asha]] /\
  abs (state_after trace_500) = Some (fold_left astep (spec_trace init trace_500) ainit).
Proof.
  assert (H1 : forallb spec_event trace_500 = true) by (vm_compute; reflexivity).
  assert (H2 : run init trace_500 = Some (state_after trace_500)) by (vm_compute; reflexivity).
  split; [exact H1|]. split; [exact H2|]. split; [vm_compute; reflexivity|].
  exact (controller_refines_spec _ _ H1 H2).
Defined.

(** C3: A typed backend never crashes the page: whatever the
    user does and in whatever order the responses arrive, the page is
    mounted or has been left, never torn down by an exception. *)
Theorem typed_backend_never_crashes evs st :
  forallb typed_event evs = true -> run init evs = Some st ->
  phase_of st = Mounted \/ phase_of st = Unmounted.
Proof. intros Hev Hrun. exact (gi_phase _ _ (proj1 (typed_run evs st Hev Hrun))). Qed.

Lemma typed_backend_never_crashes_witness :
  forallb typed_event trace_two_fetches = true /\
  run init trace_two_fetches = Some (state_after trace_two_fetches) /\
  (phase_of (state_after trace_two_fetches) = Mounted \/
   phase_of (state_after trace_two_fetches) = Unmounted).
Proof.
  assert (H1 : forallb typed_event trace_two_fetches = true) by (vm_compute; reflexivity).
  assert (H2 : run init trace_two_fetches = Some (state_after trace_two_fetches))
    by (vm_compute; reflexivity).
  split; [exact H1|]. split; [exact H2|]. exact (typed_backend_never_crashes _ _ H1 H2).
Defined.

(** C4: The state slots keep the types the code declares:
    in every run in which the backend answers [GET /api/patients] with a
    value of the type [Patient[]] (or with a body that is not JSON), the
    values held by [patients] and [filteredPatients] have the type
    [Patient[]] that [useState<Patient[]>] declares (lines 21-22), although
    the code never checks the body it stores. *)
Theorem state_has_declared_types evs st :
  forallb declared_event evs = true -> run init evs = Some st ->
  has_type (sval (patients (hooks_of st))) patients_ty /\
  has_type (sval (filteredPatients (hooks_of st))) patients_ty.
Proof.
  intros Hev Hrun.
  assert (Ht : forallb typed_event evs = true).
  { rewrite <- Hev. apply forallb_ext. intros ev. symmetry. apply declared_event_typed. }
  destruct (typed_run evs st Ht Hrun) as [Hgi _].
  split; eapply good_json_typed; [apply gi_patients | apply gi_filtered]; exact Hgi.
Qed.

Lemma state_has_declared_types_witness :
  forallb declared_event trace_two_fetches = true /\
  run init trace_two_fetches = Some (state_after trace_two_fetches) /\
  has_type (sval (patients (hooks_of (state_after trace_two_fetches)))) patients_ty /\
  has_type (sval (filteredPatients (hooks_of (state_after trace_two_fetches)))) patients_ty.
Proof.
  assert (H1 : forallb declared_event trace_two_fetches = true) by (vm_compute; reflexivity).
  assert (H2 : run init trace_two_fetches = Some (state_after trace_two_fetches))
    by (vm_compute; reflexivity).
  split; [exact H1|]. split; [exact H2|]. exact (state_has_declared_types _ _ H1 H2).
Defined.

(** C2: Once React has nothing left to render, the page of a
    typed run shows the spec's view of its abstract state: the filtered list
    holds exactly the abstract records that match the search text, and the
    page shows six skeletons while loading, otherwise one card per such
    record, with the search box showing the search text. *)
Theorem settled_view_is_spec evs st :
  forallb typed_event evs = true -> run init evs = Some st ->
  is_mounted st = true -> dirty st = false ->
  let h := hooks_of st in
  exists a v, abs st = Some a /\
    decode_patients (sval (filteredPatients h)) = Some (filteredRecords a) /\
    render (loading h) (searchQuery h) (sval (filteredPatients h)) = Ok v /\
    v_body v = aview a /\ v_search v = searchText a.
Proof.
  intros Hev Hrun Hm Hdt h. destruct (typed_run evs st Hev Hrun) as [_ Habs].
  set (a := fold_left astep _ ainit) in Habs.
  pose proof (settled_filtered st a (run_reachable _ _ Hrun) Habs Hm Hdt) as Hd.
  apply abs_eq in Habs as Habs'. destruct Habs' as (_ & Hq & Hlo).
  destruct (render_aview (loading h) (searchQuery h) _ a Hd Hlo) as (v & Hv & Hb & Hs).
  exists a, v. subst h. rewrite <- Hq. auto.
Qed.

Lemma settled_view_is_spec_witness :
  forallb typed_event trace_search = true /\
  run init trace_search = Some (state_after trace_search) /\
  is_mounted (state_after trace_search) = true /\ dirty (state_after trace_search) = false /\
  let h := hooks_of (state_after trace_search) in
  exists a v, abs (state_after trace_search) = Some a /\
    decode_patients (sval (filteredPatients h)) = Some (filteredRecords a) /\
    render (loading h) (searchQuery h) (sval (filteredPatients h)) = Ok v /\
    v_body v = aview a /\ v_search v = searchText a.
Proof.
  assert (H1 : forallb typed_event trace_search = true) by (vm_compute; reflexivity).
  assert (H2 : run init trace_search = Some (state_after trace_search))
    by (vm_compute; reflexivity).
  assert (H3 : is_mounted (state_after trace_search) = true) by (vm_compute; reflexivity).
  assert (H4 : dirty (state_after trace_search) = false) by (vm_compute; reflexivity).
  split; [exact H1|]. split; [exact H2|]. split; [exact H3|]. split; [exact H4|].
  exact (settled_view_is_spec _ _ H1 H2 H3 H4).
Defined.

(** Spec section 8, the search scenario: the backend
    returns Asha Rao's row; searching "pneu" lists exactly that record, and
    searching "99" lists nothing and shows the empty state. *)
Theorem spec_search_scenario :
  let st1 := state_after trace_search in
  let st2 := state_after (trace_search ++ [TypeQuery "99"; Commit; Commit]) in
  abs st1 = Some (mkA [asha] "pneu" false) /\
  filteredRecords (mkA [asha] "pneu" false) = [asha] /\
  dirty st1 = false /\ decode_patients (sval (filteredPatients (hooks_of st1))) = Some [asha] /\
  dirty st2 = false /\ decode_patients (sval (filteredPatients (hooks_of st2))) = Some [] /\
  exists v, render false "99" (sval (filteredPatients (hooks_of st2))) = Ok v /\
    v_body v = Cards [] /\ v_empty_state v = true.
Proof. vm_compute. repeat split. by eexists. Qed.

End Spec.
