(* ===== verification/System.v ===== *)
(** * The records page composed with the backend and the dialogs

    [Controller.v] leaves the network and the dialogs to the environment:
    every response and every callback is possible.  This file closes the
    system with the backend of [Backend.v].  A system state is the page's
    state and the backend's records; a system event is
    - [UI ev]: the user renders, types or leaves, a request fails on the
      network, or a response body finishes parsing;
    - [Serve k]: the backend answers the [GET] of call [k] of
      [fetchPatients] with its records at that moment;
    - [Add np]: the add dialog's [POST] succeeds and the dialog calls
      [onPatientAdded] (PatientRecords.tsx, line 73);
    - [Delete i]: the delete dialog of the [i]-th card sends
      [DELETE /api/patients/:patientId] with the card's [patientId] prop
      (lines 157-161); on success it calls [onPatientDeleted].  A failed
      delete changes nothing and calls nothing (spec section 4.1), so it is
      not an event.
    The dialogs are not in the repository: their behaviour is the callback
    contract of spec section 4.1.  The backend always answers [GET] with
    status 200 and its records, which the page receives as [await
    res.json()] reads them ([served_body]: [JSON.parse] rounds every
    number to its double); a failed request is the page's [NetworkError]
    event, and [Controller.v] covers every other answer.  While the
    backend's ids are at most 2^53 ([exact_ids]) that reading keeps them;
    beyond, distinct ids merge ([ids_collide_on_page]). *)

From stdpp Require Import base list gmap strings relations.
From Stdlib Require Import ZArith Ascii String.
From S2P Require Import Prelude JsNumber JsString Json Backend Filter View Controller Spec.
Import JsNumber JsString Json Backend Filter View Controller Spec.

Local Open Scope stdpp_scope.

Module System.

Inductive sys_event : Type :=
| UI (ev : event)
| Serve (k : nat)
| Add (np : new_patient)
| Delete (i : nat).

Record sys : Type := mkSys {
  ui : state;
  be : db
}.

(** The controller events the user and the network cause on their own;
    responses with a body come from [Serve], callbacks from the dialogs. *)
Definition env_event (ev : event) : bool :=
  match ev with
  | Commit | TypeQuery _ | JsonSettled _ | Unmount | FetchSettled _ NetworkError => true
  | _ => false
  end.

(** The [patientId] prop of the delete dialog of the [i]-th card on screen. *)
Definition card_patient_id (i : nat) (st : state) : option Z :=
  v ← view_of st;
  match v_body v with
  | Cards cs =>
      c ← cs !! i;
      match c_delete_id c with Val (JNum n) => Some n | _ => None end
  | Skeletons _ => None
  end.

(** The value [await res.json()] (line 29) builds from the backend's
    answer to [GET]: [JSON.parse] reads every number as the nearest double. *)
Definition served_body (d : db) : json := parse_numbers (get_patients d).

(** The records the page reads from that value. *)
Definition served_records (d : db) : list Patient := map round_patient (list_patients d).

Definition sys_step (s : sys) (e : sys_event) : option sys :=
  match e with
  | UI ev => if env_event ev then st' ← step (ui s) ev; Some (mkSys st' (be s)) else None
  | Serve k =>
      st' ← step (ui s) (FetchSettled k (Response 200 (Some (served_body (be s)))));
      Some (mkSys st' (be s))
  | Add np => st' ← step (ui s) PatientAdded; Some (mkSys st' (create np (be s)))
  | Delete i =>
      pid ← card_patient_id i (ui s);
      d' ← delete_patient pid (be s);
      st' ← step (ui s) (PatientDeleted i);
      Some (mkSys st' d')
  end.

Definition sys_init (d0 : db) : sys := mkSys init d0.

Definition SysStep (s s' : sys) : Prop := exists e, sys_step s e = Some s'.

Definition sys_reachable (s : sys) : Prop :=
  exists d0, db_wf d0 /\ rtc SysStep (sys_init d0) s.

Fixpoint sys_run (s : sys) (es : list sys_event) : option sys :=
  match es with
  | [] => Some s
  | e :: es' => s' ← sys_step s e; sys_run s' es'
  end.

(** The property of the records the page reads when the backend's ids
    are below [b]: unique ids, all below [b]. *)
Definition ids_below (b : Z) (R : list Patient) : Prop :=
  NoDup (ids R) /\ Forall (fun p => (0 < patient_id p < b)%Z) R.

(** The ids [res.json()] reads exactly: the backend's counter is at most
    2^53 + 1, so every id it gave is at most 2^53. *)
Definition exact_ids (d : db) : Prop := (next_id d <= max_exact + 1)%Z.

(** The invariant of the composed system: the page is a reachable state
    whose lists pass the type check, and, while the backend's ids are exact,
    its records have unique ids. *)
Record sinv (s : sys) : Prop := {
  si_reach : reachable (ui s);
  si_typed : ginv (fun _ => True) (ui s);
  si_wf : db_wf (be s);
  si_unique : exact_ids (be s) -> ginv (ids_below (next_id (be s))) (ui s)
}.

(** ** A sample system: the spec's patient Asha Rao and two more *)

Definition db0 : db := mkDb (list_to_map [(1%Z, asha); (2%Z, ben)]) 3.

Definition np_chen : new_patient := mkNewPatient "Chen Li" 61 "M" "Stroke" "2025-01-05" (Some 7%Z).

Definition sys_after (es : list sys_event) : sys := default (sys_init db0) (sys_run (sys_init db0) es).

(** The list is loaded and shown. *)
Definition trace_shown : list sys_event :=
  [UI Commit; Serve 0; UI (JsonSettled 0); UI Commit; UI Commit].

(** Then a patient is added, and the refresh the add dialog triggers is
    answered by the backend. *)
Definition trace_added : list sys_event := trace_shown ++ [Add np_chen; Serve 1].

(** ** The invariant *)

Lemma ids_below_filter b q R : ids_below b R -> ids_below b (filter_patients q R).
Proof.
  intros [Hn Hb]. split; [by apply filter_patients_ids_NoDup|].
  apply List.Forall_forall. intros p (Hin & _)%List.filter_In.
  exact (proj1 (List.Forall_forall _ _) Hb p Hin).
Qed.

Lemma ids_below_mono b b' R : (b <= b')%Z -> ids_below b R -> ids_below b' R.
Proof. intros Hb [Hn HR]. split; [done|]. eapply Forall_impl; [exact HR|]. simpl. lia. Qed.

Lemma good_json_mono (g g' : list Patient -> Prop) j :
  (forall R, g R -> g' R) -> good_json g j -> good_json g' j.
Proof. intros H (R & HR & Hg). exists R. auto. Qed.

Lemma ginv_mono (g g' : list Patient -> Prop) st :
  (forall R, g R -> g' R) -> ginv g st -> ginv g' st.
Proof.
  intros H [HP HF Hts Hph]. constructor; [by eapply good_json_mono.. | | done].
  eapply Forall_impl; [exact Hts|]. intros [k [|sc [j|]]]; simpl; auto.
  unfold good_task, good_stage, good_body. simpl. by apply good_json_mono.
Qed.

Lemma ginv_abs good st : ginv good st -> exists a, abs st = Some a.
Proof. intros [(R & HR & _) _ _ _]. unfold abs. rewrite HR. by eexists. Qed.

Lemma decode_served d : decode_patients (served_body d) = Some (served_records d).
Proof. unfold served_body, get_patients. by rewrite parse_encode_patients, decode_encode_patients. Qed.

(** With exact ids, [res.json()] reads every id of the backend exactly. *)
Lemma served_exact d :
  db_wf d -> exact_ids d ->
  Forall (fun p => round_double (patient_id p) = patient_id p /\ (0 < patient_id p < next_id d)%Z)
    (list_patients d).
Proof.
  intros Hd He. apply Forall_forall. intros p Hp. pose proof (list_patients_bound d p Hd Hp).
  split; [|done]. apply safe_int_exact, Z.leb_le. unfold exact_ids, max_exact in *. lia.
Qed.

Lemma served_ids d : db_wf d -> exact_ids d -> ids (served_records d) = ids (list_patients d).
Proof.
  intros Hd He. unfold ids, served_records.
  induction (served_exact d Hd He) as [|p l [Hp _] _ IH]; [done|]. csimpl. by rewrite Hp, IH.
Qed.

Lemma served_ids_below d : db_wf d -> exact_ids d -> ids_below (next_id d) (served_records d).
Proof.
  intros Hd He. split; [rewrite served_ids by done; by apply ids_NoDup|].
  unfold served_records. apply List.Forall_map.
  eapply Forall_impl; [exact (served_exact d Hd He)|]. intros p [Hp Hb]. simpl. by rewrite Hp.
Qed.

Lemma env_event_good good ev : env_event ev = true -> good_event good ev.
Proof. by destruct ev as [| | k [|]| | | |]. Qed.

Lemma ginv_init_empty good : good [] -> ginv good init.
Proof. intros Hg. constructor; simpl; [by exists [] | by exists [] | constructor | by left]. Qed.

Lemma sinv_init d0 : db_wf d0 -> sinv (sys_init d0).
Proof.
  intros Hd. constructor; [apply rtc_refl | by apply ginv_init_empty | done |].
  intros _. apply ginv_init_empty. split; [apply NoDup_nil_2 | constructor].
Qed.

(** Every system step is a step of the page on the answer [res.json()]
    reads from the backend; the backend stays well formed and its counter
    does not decrease. *)
Lemma sys_step_ui s e s' :
  db_wf (be s) -> sys_step s e = Some s' ->
  exists ev, step (ui s) ev = Some (ui s') /\
    (forall good, good (served_records (be s')) -> good_event good ev) /\
    db_wf (be s') /\ (next_id (be s) <= next_id (be s'))%Z.
Proof.
  intros Hd Hs. destruct e as [ev | k | np | i]; cbn [sys_step] in Hs.
  - destruct (env_event ev) eqn:He; [|discriminate].
    destruct (step (ui s) ev) eqn:E; simplify_eq/=.
    exists ev. split; [done|]. split; [eauto using env_event_good | split; [done | lia]].
  - destruct (step (ui s) (FetchSettled k _)) eqn:E; simplify_eq/=.
    exists (FetchSettled k (Response 200 (Some (served_body (be s))))). split; [exact E|].
    split; [intros good Hg; exists (served_records (be s)); by rewrite decode_served|].
    split; [done | lia].
  - destruct (step (ui s) PatientAdded) eqn:E; simplify_eq/=.
    exists PatientAdded. split; [exact E|]. split; [done|]. split; [by apply wf_create | simpl; lia].
  - destruct (card_patient_id i (ui s)) as [pid|]; simplify_eq/=.
    destruct (delete_patient pid (be s)) as [d'|] eqn:Hdel; simplify_eq/=.
    destruct (card_shown i (ui s)) eqn:Hc; simplify_eq/=.
    exists (PatientDeleted i). split; [simpl; by rewrite Hc|]. split; [done|].
    split; [by eapply wf_delete|]. unfold delete_patient in Hdel.
    destruct (rows (be s) !! pid); simplify_eq/=. lia.
Qed.

Lemma sim_ginv good s ev st' :
  (forall q R, good R -> good (filter_patients q R)) ->
  reachable (ui s) -> ginv good (ui s) -> good_event good ev -> step (ui s) ev = Some st' ->
  ginv good st'.
Proof.
  intros Hf Hr Hg Hev Hst. destruct (ginv_abs _ _ Hg) as [a Ha].
  exact (proj1 (sim_step good Hf _ _ _ a (reachable_inv _ Hr) Hg Hev Hst Ha)).
Qed.

Lemma sinv_step s e s' : sinv s -> sys_step s e = Some s' -> sinv s'.
Proof.
  intros [Hr Hg Hd Hu] Hs. destruct (sys_step_ui s e s' Hd Hs) as (ev & Hst & Hev & Hd' & Hn).
  constructor; [eauto with dd | | done |].
  - apply (sim_ginv _ s ev); [done | done | done | by apply Hev | done].
  - intros He'. assert (He : exact_ids (be s)) by (unfold exact_ids in *; lia).
    apply (sim_ginv _ s ev); [apply ids_below_filter | done | | | done].
    + apply (ginv_mono (ids_below (next_id (be s)))); [|by apply Hu].
      intros R. by apply ids_below_mono.
    + apply Hev. by apply served_ids_below.
Qed.

Lemma sys_reachable_sinv s : sys_reachable s -> sinv s.
Proof.
  intros (d0 & Hd0 & Hrtc). generalize (sinv_init d0 Hd0).
  induction Hrtc as [|x y z [e Hxy] _ IH]; [done|]. eauto using sinv_step.
Qed.

(** ** The events of the delete scenario *)

Lemma sys_delete_inv s i s1 :
  sys_step s (Delete i) = Some s1 ->
  exists pid d', card_patient_id i (ui s) = Some pid /\ delete_patient pid (be s) = Some d' /\
    ui s1 = start_fetch (ui s) /\ be s1 = d' /\ is_mounted (ui s) = true.
Proof.
  simpl. destruct (card_patient_id i (ui s)) as [pid|] eqn:Hp; simpl; [|discriminate].
  destruct (delete_patient pid (be s)) as [d'|] eqn:Hd; simpl; [|discriminate].
  destruct (card_shown i (ui s)) eqn:Hc; simpl; [|discriminate]. intros [= <-].
  apply andb_true_iff in Hc as [Hm _]. by exists pid, d'.
Qed.

Lemma sys_serve_inv s k s2 :
  sys_step s (Serve k) = Some s2 ->
  find_task k (ui s) = Some AwaitFetch /\
  ui s2 = set_stage k (AwaitJson 200 (Some (served_body (be s)))) (ui s) /\ be s2 = be s.
Proof. simpl. destruct (find_task k (ui s)) as [[|]|]; simpl; intros; by simplify_eq. Qed.

Lemma sys_ui_inv s ev s' :
  sys_step s (UI ev) = Some s' -> step (ui s) ev = Some (ui s') /\ be s' = be s.
Proof.
  cbn [sys_step]. destruct (env_event ev); [|discriminate].
  destruct (step (ui s) ev) eqn:E; simpl; intros H; simplify_eq; auto.
Qed.

Lemma sys_add_inv s np s1 :
  sys_step s (Add np) = Some s1 ->
  ui s1 = start_fetch (ui s) /\ be s1 = create np (be s) /\ is_mounted (ui s) = true.
Proof.
  cbn [sys_step]. destruct (step (ui s) PatientAdded) eqn:E; simpl; [|discriminate].
  intros [= <-]. cbn [step] in E. destruct (shown (ui s)) eqn:Hsh; [|discriminate].
  injection E as <-. apply andb_true_iff in Hsh as [Hm _]. auto.
Qed.

Lemma keys_NoDup F : NoDup (ids F) -> NoDup (List.map c_key (List.map card_of_patient F)).
Proof.
  induction F as [|p F IH]; simpl; [constructor|]. rewrite !NoDup_cons.
  intros [Hp HF]. split; [|auto]. intros Hin. apply Hp.
  apply list_elem_of_In, List.in_map_iff in Hin as (c & Hc & Hin).
  apply List.in_map_iff in Hin as (p' & <- & Hin). simpl in Hc. injection Hc as Hc.
  rewrite <- Hc. apply list_elem_of_fmap_2. by apply list_elem_of_In.
Qed.

Lemma sys_run_rtc s es s' : sys_run s es = Some s' -> rtc SysStep s s'.
Proof.
  revert s. induction es as [|e es IH]; simpl; intros s H; [by simplify_eq|].
  destruct (sys_step s e) as [s1|] eqn:E; simpl in H; [|discriminate].
  eapply rtc_l; [by exists e | eauto].
Qed.

Lemma db0_wf : db_wf db0.
Proof. split; [simpl; lia|]. apply map_Forall_to_list. vm_compute. repeat constructor. Qed.

Lemma sys_after_reachable es s : sys_run (sys_init db0) es = Some s -> sys_reachable s.
Proof. intros H. exists db0. split; [apply db0_wf | by apply (sys_run_rtc _ es)]. Qed.

Lemma json_settled_inv s k s3 :
  sinv s -> is_mounted (ui s) = true -> find_task k (ui s) = Some (AwaitJson 200 (Some (served_body (be s)))) ->
  sys_step s (UI (JsonSettled k)) = Some s3 ->
  decode_patients (sval (patients (hooks_of (ui s3)))) = Some (served_records (be s3)).
Proof.
  intros [Hr _ _ _] Hm Hk Hs3. apply sys_ui_inv in Hs3 as [Hst3 ->].
  destruct (json_settled_store _ _ _ _ Hr Hm Hk) as (st' & Hst & HP & _).
  rewrite Hst3 in Hst. injection Hst as <-. rewrite HP. apply decode_served.
Qed.

(** ** Delivering the calls in flight *)

(** A refresh whose [GET] is served and whose body is parsed next puts
    the backend's records, unchanged meanwhile, on the page. *)
Lemma refresh_settles s1 k s2 s3 :
  sinv s1 -> is_mounted (ui s1) = true ->
  sys_step s1 (Serve k) = Some s2 -> sys_step s2 (UI (JsonSettled k)) = Some s3 ->
  be s3 = be s1 /\ exists a, abs (ui s3) = Some a /\ allRecords a = served_records (be s3).
Proof.
  intros Hi1 Hm Hs2 Hs3. pose proof (sinv_step _ _ _ Hi1 Hs2) as Hi2.
  destruct (sys_serve_inv _ _ _ Hs2) as (Hk & Hui2 & Hbe2).
  assert (Hk2 : find_task k (ui s2) = Some (AwaitJson 200 (Some (served_body (be s2))))).
  { rewrite Hui2, Hbe2. by eapply find_task_set_stage. }
  assert (Hm2 : is_mounted (ui s2) = true) by (rewrite Hui2; exact Hm).
  pose proof (json_settled_inv _ _ _ Hi2 Hm2 Hk2 Hs3) as HP.
  apply sys_ui_inv in Hs3 as [_ Hbe3]. rewrite Hbe3 in HP |- *. rewrite Hbe2 in HP |- *.
  split; [done|]. eexists. unfold abs. rewrite HP. split; reflexivity.
Qed.

Lemma sinv_run s es s' : sinv s -> sys_run s es = Some s' -> sinv s'.
Proof.
  revert s. induction es as [|e es IH]; simpl; intros s Hi H; [by simplify_eq|].
  destruct (sys_step s e) as [s1|] eqn:E; simpl in H; [|discriminate]. eauto using sinv_step.
Qed.

Lemma sys_run_app s es1 es2 s1 :
  sys_run s es1 = Some s1 -> sys_run s (es1 ++ es2) = sys_run s1 es2.
Proof.
  revert s. induction es1 as [|e es IH]; simpl; intros s H; [by simplify_eq|].
  destruct (sys_step s e); simpl in *; [eauto | discriminate].
Qed.

(** A run of the page made of user and network events is a run of the
    system that leaves the backend alone. *)
Lemma sys_run_ui s evs st' :
  forallb env_event evs = true -> run (ui s) evs = Some st' ->
  sys_run s (UI <$> evs) = Some (mkSys st' (be s)).
Proof.
  revert s. induction evs as [|ev evs IH]; simpl; intros [st d] He H; [by simplify_eq|].
  apply andb_true_iff in He as [He Hes]. cbn [ui be] in H |- *. rewrite He.
  destruct (step st ev) as [st1|] eqn:E; simpl in H |- *; [|discriminate].
  exact (IH (mkSys st1 d) Hes H).
Qed.

Lemma map_stage_head k sg t ts :
  task_id t = k -> k ∉ task_id <$> ts ->
  map (fun t => if Nat.eqb (task_id t) k then mkTask k sg else t) (t :: ts) = mkTask k sg :: ts.
Proof.
  intros Ht Hk. simpl. rewrite Ht, Nat.eqb_refl. f_equal.
  induction ts as [|t' ts IH]; [done|]. csimpl in Hk. rewrite not_elem_of_cons in Hk.
  destruct Hk as [Hne Hk]. simpl. rewrite (proj2 (Nat.eqb_neq _ _)) by congruence.
  by rewrite IH.
Qed.

Lemma mount_effect_done_resume_json k b st :
  mount_effect_done (resume_json k b st) = mount_effect_done st.
Proof.
  destruct b; simpl; unfold setLoading, setFilteredPatients, setPatients, set_hooks; simpl;
    by repeat (case_match; simpl).
Qed.

Section Drain.
Variables (s : sys) (t : task) (ts : list task).
Hypothesis Hi : sinv s.
Hypothesis Hm : is_mounted (ui s) = true.
Hypothesis Ht : tasks (ui s) = t :: ts.

Lemma head_fresh : task_id t ∉ task_id <$> ts.
Proof.
  pose proof (tk_nodup _ (reachable_tasks_ok _ (si_reach _ Hi))) as N.
  rewrite Ht in N. csimpl in N. by apply NoDup_cons in N as [? _].
Qed.

Lemma find_task_head : find_task (task_id t) (ui s) = Some (task_stage t).
Proof. unfold find_task. rewrite Ht. simpl. by rewrite Nat.eqb_refl. Qed.

(** The oldest call, whose response has arrived, is parsed: on a body
    the page stores it, on a rejection it logs; either way the call is
    gone. *)
Lemma drain_json sc b :
  task_stage t = AwaitJson sc b ->
  exists s', sys_step s (UI (JsonSettled (task_id t))) = Some s' /\ be s' = be s /\
    tasks (ui s') = ts /\ is_mounted (ui s') = true /\
    mount_effect_done (ui s') = mount_effect_done (ui s) /\
    (forall j, b = Some j -> sval (patients (hooks_of (ui s'))) = j).
Proof.
  intros Hsg. pose proof find_task_head as Hk. rewrite Hsg in Hk.
  assert (Hst : step (ui s) (JsonSettled (task_id t)) = Some (resume_json (task_id t) b (ui s)))
    by (simpl; by rewrite Hk).
  exists (mkSys (resume_json (task_id t) b (ui s)) (be s)).
  split; [cbn [sys_step env_event]; by rewrite Hst|].
  destruct (resume_json_end (task_id t) b (ui s)) as (Hts & Hph & _).
  split; [done|]. split; [cbn [ui]; rewrite Hts, Ht; apply drop_call_head, head_fresh|].
  split; [unfold is_mounted in *; cbn [ui]; by rewrite Hph|].
  split; [apply mount_effect_done_resume_json|].
  intros j ->. destruct (json_settled_store _ _ _ _ (si_reach _ Hi) Hm Hk) as (st' & Hst' & HP & _).
  rewrite Hst in Hst'. injection Hst' as <-. exact HP.
Qed.
End Drain.

Lemma sys_run_two s e1 e2 s1 s2 :
  sys_step s e1 = Some s1 -> sys_step s1 e2 = Some s2 -> sys_run s [e1; e2] = Some s2.
Proof. intros H1 H2. simpl. rewrite H1. simpl. by rewrite H2. Qed.

Lemma sys_run_one s e s1 : sys_step s e = Some s1 -> sys_run s [e] = Some s1.
Proof. intros H. simpl. by rewrite H. Qed.

(** The oldest call settles: an unanswered one is served the backend's
    current records and parsed, an answered one is parsed. *)
Lemma drain_one s t ts :
  sinv s -> is_mounted (ui s) = true -> tasks (ui s) = t :: ts ->
  exists es s', sys_run s es = Some s' /\ be s' = be s /\ tasks (ui s') = ts /\
    is_mounted (ui s') = true /\ mount_effect_done (ui s') = mount_effect_done (ui s) /\
    (task_stage t = AwaitFetch -> sval (patients (hooks_of (ui s'))) = served_body (be s)).
Proof.
  intros Hi Hm Ht. destruct (task_stage t) as [|sc b] eqn:Hsg.
  - pose (s1 := mkSys (set_stage (task_id t) (AwaitJson 200 (Some (served_body (be s)))) (ui s))
                       (be s)).
    assert (Hst : step (ui s) (FetchSettled (task_id t) (Response 200 (Some (served_body (be s)))))
                  = Some (ui s1))
      by (cbn [step]; by rewrite (find_task_head s t ts Ht), Hsg).
    assert (Hs1 : sys_step s (Serve (task_id t)) = Some s1) by (cbn [sys_step]; by rewrite Hst).
    assert (Ht1 : tasks (ui s1) = mkTask (task_id t) (AwaitJson 200 (Some (served_body (be s)))) :: ts).
    { simpl. rewrite Ht. apply map_stage_head; [done | apply (head_fresh s t ts Hi Ht)]. }
    destruct (drain_json s1 _ ts (sinv_step _ _ _ Hi Hs1) Hm Ht1 200 _ eq_refl)
      as (s' & Hs' & Hbe & Hts & Hm' & Hmd & HP).
    exists [Serve (task_id t); UI (JsonSettled (task_id t))], s'.
    split; [exact (sys_run_two _ _ _ _ _ Hs1 Hs')|]. rewrite Hmd.
    repeat split; auto; intros _; by apply HP.
  - destruct (drain_json s t ts Hi Hm Ht sc b Hsg) as (s' & Hs' & Hbe & Hts & Hm' & Hmd & _).
    exists [UI (JsonSettled (task_id t))], s'. split; [by apply sys_run_one|].
    repeat split; auto; discriminate.
Qed.

(** Delivering the calls in flight oldest first, when the newest one has
    not been answered yet: it is served the backend's current records and
    parsed last. *)
Lemma drain_all l : forall s t,
  sinv s -> is_mounted (ui s) = true -> tasks (ui s) = l ++ [t] -> task_stage t = AwaitFetch ->
  exists es s', sys_run s es = Some s' /\ be s' = be s /\ tasks (ui s') = [] /\
    is_mounted (ui s') = true /\ mount_effect_done (ui s') = mount_effect_done (ui s) /\
    sval (patients (hooks_of (ui s'))) = served_body (be s).
Proof.
  induction l as [|t0 l IH]; intros s t Hi Hm Ht Hsg.
  - destruct (drain_one s t [] Hi Hm Ht) as (es & s' & Hr & Hbe & Hts & Hm' & Hmd & HP).
    exists es, s'. repeat split; auto.
  - destruct (drain_one s t0 (l ++ [t]) Hi Hm Ht) as (es1 & s1 & Hr1 & Hbe1 & Hts1 & Hm1 & Hmd1 & _).
    destruct (IH s1 t (sinv_run _ _ _ Hi Hr1) Hm1 Hts1 Hsg)
      as (es2 & s2 & Hr2 & Hbe2 & Hts2 & Hm2 & Hmd2 & HP2).
    exists (es1 ++ es2), s2. rewrite (sys_run_app _ _ _ _ Hr1). rewrite Hbe1 in Hbe2, HP2.
    repeat split; auto. congruence.
Qed.

Lemma env_commits n : forallb env_event (repeat Commit n) = true.
Proof. induction n; simpl; auto. Qed.

(** ** Properties *)

(** C20: In every state of the composed system the page has
    not crashed: the backend's answers always pass the type check.  And
    while the backend has given out ids up to 2^53 only (its counter is at
    most 2^53 + 1), the records the page holds have unique ids (spec
    section 3), though [res.json()] rounds every number it reads. *)
Theorem sys_records_unique s :
  sys_reachable s ->
  (phase_of (ui s) = Mounted \/ phase_of (ui s) = Unmounted) /\
  (exact_ids (be s) -> exists a, abs (ui s) = Some a /\ NoDup (ids (allRecords a))).
Proof.
  intros Hs. destruct (sys_reachable_sinv s Hs) as [_ [_ _ _ Hph] _ Hu].
  split; [done|]. intros He. destruct (Hu He) as [(R & HR & HnR & _) _ _ _].
  exists (mkA R (searchQuery (hooks_of (ui s))) (loading (hooks_of (ui s)))).
  unfold abs. by rewrite HR.
Qed.

Lemma sys_records_unique_witness :
  sys_reachable (sys_after trace_added) /\ exact_ids (be (sys_after trace_added)) /\
  (phase_of (ui (sys_after trace_added)) = Mounted \/
   phase_of (ui (sys_after trace_added)) = Unmounted) /\
  (exact_ids (be (sys_after trace_added)) ->
   exists a, abs (ui (sys_after trace_added)) = Some a /\ NoDup (ids (allRecords a))).
Proof.
  assert (H : sys_reachable (sys_after trace_added))
    by (apply (sys_after_reachable trace_added); vm_compute; reflexivity).
  assert (He : exact_ids (be (sys_after trace_added))) by (vm_compute; discriminate).
  split; [exact H|]. split; [exact He | exact (sys_records_unique _ H)].
Defined.

(** C19: While the backend's ids are at most 2^53, the cards
    on screen carry distinct React keys ([key={patient.patient_id}], line
    105): the filtered list is a sublist of a parsed answer of the backend,
    whose ids are unique. *)
Theorem sys_unique_keys s v cs :
  sys_reachable s -> exact_ids (be s) ->
  let h := hooks_of (ui s) in
  render (loading h) (searchQuery h) (sval (filteredPatients h)) = Ok v ->
  v_body v = Cards cs -> NoDup (List.map c_key cs).
Proof.
  intros Hs He h Hv Hb. destruct (sys_reachable_sinv s Hs) as [_ _ _ Hu].
  destruct (Hu He) as [_ (F & HF & HnF & _) _ _].
  subst h. destruct (loading _).
  - destruct (decode_patients_array _ _ HF) as [l Hl]. rewrite Hl in Hv.
    injection Hv as <-. discriminate.
  - rewrite (render_decoded_eq _ _ _ HF) in Hv. injection Hv as <-.
    injection Hb as <-. by apply keys_NoDup.
Qed.

Lemma sys_unique_keys_witness :
  let h := hooks_of (ui (sys_after trace_added)) in
  sys_reachable (sys_after trace_added) /\ exact_ids (be (sys_after trace_added)) /\
  render (loading h) (searchQuery h) (sval (filteredPatients h)) =
    Ok (mkView "" ["2"] (Cards (List.map card_of_patient [ben; asha])) false) /\
  NoDup (List.map c_key (List.map card_of_patient [ben; asha])).
Proof.
  assert (H : sys_reachable (sys_after trace_added))
    by (apply (sys_after_reachable trace_added); vm_compute; reflexivity).
  assert (He : exact_ids (be (sys_after trace_added))) by (vm_compute; discriminate).
  assert (Hv : let h := hooks_of (ui (sys_after trace_added)) in
    render (loading h) (searchQuery h) (sval (filteredPatients h)) =
    Ok (mkView "" ["2"] (Cards (List.map card_of_patient [ben; asha])) false))
    by (vm_compute; reflexivity).
  split; [exact H|]. split; [exact He|]. split; [exact Hv|].
  exact (sys_unique_keys _ _ _ H He Hv eq_refl).
Defined.

(** A backend that has given out the ids 2^53 and 2^53 + 1. *)
Definition db_big : db :=
  mkDb (list_to_map [(max_exact, mkPatient max_exact "Asha Rao" 34 "F" "Pneumonia" "2025-01-02" None);
                     (max_exact + 1, mkPatient (max_exact + 1) "Ben Das" 50 "M" "Fracture" "2025-01-03" None)]%Z)
       (max_exact + 2)%Z.

Lemma db_big_wf : db_wf db_big.
Proof.
  split; [vm_compute; reflexivity|]. unfold db_big; cbn [rows next_id].
  rewrite !list_to_map_cons, list_to_map_nil.
  repeat apply map_Forall_insert_2; try apply map_Forall_empty.
  all: simpl; split; [reflexivity | unfold max_exact; lia].
Qed.

(** C18: Beyond 2^53 the page merges ids: with a well-formed
    backend whose two records have the distinct ids 2^53 and 2^53 + 1, the
    page loaded from it shows two cards with the same React key, and the
    delete dialogs of both cards are given the same [patientId] (2^53), so
    deleting the second card removes the first record. *)
Theorem ids_collide_on_page :
  exists d0 es s v cs, db_wf d0 /\ sys_run (sys_init d0) es = Some s /\
    NoDup (ids (list_patients (be s))) /\
    render (loading (hooks_of (ui s))) (searchQuery (hooks_of (ui s)))
      (sval (filteredPatients (hooks_of (ui s)))) = Ok v /\
    v_body v = Cards cs /\ ~ NoDup (List.map c_key cs) /\
    card_patient_id 0 (ui s) = Some max_exact /\ card_patient_id 1 (ui s) = Some max_exact.
Proof.
  exists db_big, trace_shown. do 3 eexists.
  split; [exact db_big_wf|]. split; [vm_compute; reflexivity|].
  split; [apply (bool_decide_unpack _); vm_compute; exact I|].
  split; [vm_compute; reflexivity|]. split; [reflexivity|].
  split; [intros H; vm_compute in H; apply NoDup_cons in H as [Hn _]; apply Hn; constructor|].
  split; vm_compute; reflexivity.
Qed.

(** C14: Spec section 8: while the backend's ids are at most
    2^53, when the delete dialog of a card removes its patient and the
    refresh it triggers is answered and parsed next, the page's records are
    the backend's records as [res.json()] reads them, without that id. *)
Theorem delete_then_refresh_removes s i pid s1 s2 s3 :
  sys_reachable s -> exact_ids (be s) -> card_patient_id i (ui s) = Some pid ->
  sys_step s (Delete i) = Some s1 ->
  sys_step s1 (Serve (next_task (ui s))) = Some s2 ->
  sys_step s2 (UI (JsonSettled (next_task (ui s)))) = Some s3 ->
  exists a, abs (ui s3) = Some a /\ allRecords a = served_records (be s3) /\
    pid ∉ ids (allRecords a).
Proof.
  intros Hs He Hpid Hs1 Hs2 Hs3. pose proof (sys_reachable_sinv s Hs) as Hi.
  destruct (sys_delete_inv _ _ _ Hs1) as (pid' & d' & Hpid' & Hdel & Hui1 & Hbe1 & Hm).
  rewrite Hpid in Hpid'. injection Hpid' as <-.
  destruct (refresh_settles _ _ _ _ (sinv_step _ _ _ Hi Hs1) ltac:(by rewrite Hui1) Hs2 Hs3)
    as (Hbe3 & a & Ha & HR).
  pose proof (wf_delete _ _ _ (si_wf _ Hi) Hdel) as Hd'.
  assert (He' : exact_ids d') by (unfold exact_ids; by rewrite (delete_next_id _ _ _ Hdel)).
  exists a. split; [done|]. split; [done|]. rewrite HR, Hbe3, Hbe1, served_ids by done.
  exact (delete_removes _ _ _ (si_wf _ Hi) Hdel).
Qed.

Lemma delete_then_refresh_removes_witness :
  let s := sys_after trace_added in
  let s1 := sys_after (trace_added ++ [Delete 0]) in
  let s2 := sys_after (trace_added ++ [Delete 0; Serve 2]) in
  let s3 := sys_after (trace_added ++ [Delete 0; Serve 2; UI (JsonSettled 2)]) in
  sys_reachable s /\ exact_ids (be s) /\ card_patient_id 0 (ui s) = Some 2%Z /\
  next_task (ui s) = 2 /\
  sys_step s (Delete 0) = Some s1 /\ sys_step s1 (Serve 2) = Some s2 /\
  sys_step s2 (UI (JsonSettled 2)) = Some s3 /\
  exists a, abs (ui s3) = Some a /\ allRecords a = served_records (be s3) /\
    2%Z ∉ ids (allRecords a).
Proof.
  intros s s1 s2 s3.
  assert (H : sys_reachable s)
    by (apply (sys_after_reachable trace_added); vm_compute; reflexivity).
  assert (He : exact_ids (be s)) by (vm_compute; discriminate).
  assert (Hp : card_patient_id 0 (ui s) = Some 2%Z) by (vm_compute; reflexivity).
  assert (Hn : next_task (ui s) = 2) by (vm_compute; reflexivity).
  assert (H1 : sys_step s (Delete 0) = Some s1) by (vm_compute; reflexivity).
  assert (H2 : sys_step s1 (Serve 2) = Some s2) by (vm_compute; reflexivity).
  assert (H3 : sys_step s2 (UI (JsonSettled 2)) = Some s3) by (vm_compute; reflexivity).
  do 7 (split; [assumption|]). rewrite <- Hn in H2, H3.
  exact (delete_then_refresh_removes s 0 2 s1 s2 s3 H He Hp H1 H2 H3).
Defined.

(** C15: Spec section 8, the add path: when the add dialog's
    [POST] stores a record and the refresh [onPatientAdded] triggers is
    answered and parsed next, the page's records are the backend's records
    as [res.json()] reads them: the earlier ones plus the row of the
    dialog's fields under the id the backend gave it, an id no earlier
    record has, also on the page while ids are at most 2^53. *)
Theorem add_then_refresh_shows s np s1 s2 s3 :
  sys_reachable s ->
  sys_step s (Add np) = Some s1 ->
  sys_step s1 (Serve (next_task (ui s))) = Some s2 ->
  sys_step s2 (UI (JsonSettled (next_task (ui s)))) = Some s3 ->
  exists a, abs (ui s3) = Some a /\ allRecords a = served_records (be s3) /\
    allRecords a ≡ₚ (round_patient (created_row np (next_id (be s))) :: served_records (be s)) /\
    (next_id (be s) ∉ ids (list_patients (be s))) /\
    ((next_id (be s) <= max_exact)%Z -> next_id (be s) ∉ ids (served_records (be s))).
Proof.
  intros Hs Hs1 Hs2 Hs3. pose proof (sys_reachable_sinv s Hs) as Hi.
  destruct (sys_add_inv _ _ _ Hs1) as (Hui1 & Hbe1 & Hm).
  destruct (refresh_settles _ _ _ _ (sinv_step _ _ _ Hi Hs1) ltac:(by rewrite Hui1) Hs2 Hs3)
    as (Hbe3 & a & Ha & HR).
  pose proof (si_wf _ Hi) as Hwf.
  exists a. split; [done|]. split; [done|]. split.
  - rewrite HR, Hbe3, Hbe1. unfold served_records, create.
    change (round_patient (created_row np (next_id (be s))) :: map round_patient (list_patients (be s)))
      with (map round_patient (created_row np (next_id (be s)) :: list_patients (be s))).
    apply (Permutation_map round_patient), list_patients_insert, next_id_free, Hwf.
  - split; [by apply next_id_fresh|]. intros Hn.
    rewrite served_ids by (done || (unfold exact_ids; lia)). by apply next_id_fresh.
Qed.

Lemma add_then_refresh_shows_witness :
  let s := sys_after trace_shown in
  let s1 := sys_after (trace_shown ++ [Add np_chen]) in
  let s2 := sys_after (trace_shown ++ [Add np_chen; Serve 1]) in
  let s3 := sys_after (trace_shown ++ [Add np_chen; Serve 1; UI (JsonSettled 1)]) in
  sys_reachable s /\ next_task (ui s) = 1 /\
  sys_step s (Add np_chen) = Some s1 /\ sys_step s1 (Serve 1) = Some s2 /\
  sys_step s2 (UI (JsonSettled 1)) = Some s3 /\
  exists a, abs (ui s3) = Some a /\ allRecords a = served_records (be s3) /\
    allRecords a ≡ₚ (round_patient (created_row np_chen 3) :: served_records db0) /\
    (3%Z ∉ ids (list_patients db0)) /\ ((3 <= max_exact)%Z -> 3%Z ∉ ids (served_records db0)).
Proof.
  intros s s1 s2 s3.
  assert (H : sys_reachable s)
    by (apply (sys_after_reachable trace_shown); vm_compute; reflexivity).
  assert (Hn : next_task (ui s) = 1) by (vm_compute; reflexivity).
  assert (H1 : sys_step s (Add np_chen) = Some s1) by (vm_compute; reflexivity).
  assert (H2 : sys_step s1 (Serve 1) = Some s2) by (vm_compute; reflexivity).
  assert (H3 : sys_step s2 (UI (JsonSettled 1)) = Some s3) by (vm_compute; reflexivity).
  assert (Hb : be s = db0) by (vm_compute; reflexivity).
  do 5 (split; [assumption|]). rewrite <- Hn in H2, H3.
  pose proof (add_then_refresh_shows s np_chen s1 s2 s3 H H1 H2 H3) as Hc.
  rewrite Hb in Hc. exact Hc.
Defined.

(** C16: A deleted record can come back: if a refresh
    answered before the delete is parsed after the refresh the delete
    triggered, the page ends, with every call settled and nothing left to
    render, showing a record the backend no longer has; the refreshes do not
    converge to the backend's records (spec sections 4.1 and 8). *)
Theorem stale_refresh_resurrects :
  exists d0 es s, db_wf d0 /\ sys_run (sys_init d0) es = Some s /\
    tasks (ui s) = [] /\ is_mounted (ui s) = true /\ dirty (ui s) = false /\
    rows (be s) !! 2%Z = None /\
    exists a, abs (ui s) = Some a /\ 2%Z ∈ ids (allRecords a).
Proof.
  exists db0, (trace_added ++ [Delete 0; Serve 2; UI (JsonSettled 2); UI (JsonSettled 1);
                              UI Commit; UI Commit]).
  eexists. split; [apply db0_wf|]. split; [vm_compute; reflexivity|].
  do 4 (split; [vm_compute; reflexivity|]).
  eexists. split; [vm_compute; reflexivity|]. vm_compute. by right; left.
Qed.

(** C17: Convergence of refreshes (spec section 4.1,
    "repeated calls converge to the backend's current set"): whatever the
    older calls in flight carry, stale answers included, if the newest call
    has not been answered yet, then delivering the calls oldest first, the
    newest one served by the backend as it is now, and letting React render
    leads to a settled page with no call in flight whose records are the
    backend's current records as [res.json()] reads them, filtered by the
    search text. *)
Theorem latest_refresh_converges s l t :
  sys_reachable s -> is_mounted (ui s) = true ->
  tasks (ui s) = l ++ [t] -> task_stage t = AwaitFetch ->
  exists es s', sys_run s es = Some s' /\ be s' = be s /\ tasks (ui s') = [] /\
    is_mounted (ui s') = true /\ dirty (ui s') = false /\
    exists a, abs (ui s') = Some a /\ allRecords a = served_records (be s) /\
      decode_patients (sval (filteredPatients (hooks_of (ui s')))) = Some (filteredRecords a).
Proof.
  intros Hs Hm Ht Hsg. pose proof (sys_reachable_sinv s Hs) as Hi.
  assert (Hmd : mount_effect_done (ui s) = true).
  { destruct (mount_effect_done (ui s)) eqn:E; [done|].
    apply (tk_mount _ (reachable_tasks_ok _ (si_reach _ Hi))) in E.
    rewrite E in Ht. by destruct l. }
  destruct (drain_all l s t Hi Hm Ht Hsg) as (es1 & s1 & Hr1 & Hbe1 & Hts1 & Hm1 & Hmd1 & HP1).
  pose proof (sinv_run _ _ _ Hi Hr1) as [Hre1 [_ (F & HF & _) _ _] _ _].
  assert (HR1 : decode_patients (sval (patients (hooks_of (ui s1)))) = Some (served_records (be s)))
    by (rewrite HP1; apply decode_served).
  destruct (settle_commits (ui s1) _ F Hre1 Hm1 HR1 HF)
    as (n & st2 & _ & Hrun & Hm2 & Hdt2 & HP2 & _ & _ & Htk2).
  exists (es1 ++ (UI <$> repeat Commit n)), (mkSys st2 (be s1)).
  rewrite (sys_run_app _ _ _ _ Hr1), (sys_run_ui _ _ _ (env_commits n) Hrun). simpl.
  rewrite Htk2 by congruence. repeat split; auto.
  set (a := mkA (served_records (be s)) (searchQuery (hooks_of st2)) (loading (hooks_of st2))).
  assert (Ha : abs st2 = Some a) by (unfold abs; by rewrite HP2, HR1).
  exists a. split; [done|]. split; [done|].
  apply (settled_filtered st2 a); auto.
  eapply rtc_trans; [exact Hre1 | exact (run_rtc _ _ _ Hrun)].
Qed.

(** The newest call was triggered by a delete after an older refresh had
    been answered with the record still there. *)
Definition trace_stale : list sys_event := trace_added ++ [Delete 0].

Lemma latest_refresh_converges_witness :
  let s := sys_after trace_stale in
  let l := removelast (tasks (ui s)) in
  let t := List.last (tasks (ui s)) (mkTask 0 AwaitFetch) in
  sys_reachable s /\ is_mounted (ui s) = true /\
  tasks (ui s) = l ++ [t] /\ task_stage t = AwaitFetch /\ List.length l = 1 /\
  exists es s', sys_run s es = Some s' /\ be s' = be s /\ tasks (ui s') = [] /\
    is_mounted (ui s') = true /\ dirty (ui s') = false /\
    exists a, abs (ui s') = Some a /\ allRecords a = served_records (be s) /\
      decode_patients (sval (filteredPatients (hooks_of (ui s')))) = Some (filteredRecords a).
Proof.
  intros s l t.
  assert (H1 : sys_reachable s)
    by (apply (sys_after_reachable trace_stale); vm_compute; reflexivity).
  assert (H2 : is_mounted (ui s) = true) by (vm_compute; reflexivity).
  assert (H3 : tasks (ui s) = l ++ [t]) by (vm_compute; reflexivity).
  assert (H4 : task_stage t = AwaitFetch) by (vm_compute; reflexivity).
  do 4 (split; [assumption|]). split; [vm_compute; reflexivity|].
  exact (latest_refresh_converges s l t H1 H2 H3 H4).
Defined.

End System.
